(** * peliculas: the deduplicating rating-lookup pipeline

    A shallow embedding of [scraper.py] and [movie_notifier.py]: title
    normalisation, the persisted history, the FilmAffinity lookup client
    with its retry loop, and the orchestration loop of [main].

    Python values are modelled as the code has them: a [str] is a list of
    Unicode code points, a [dict] is an insertion-ordered association
    list, a [float] is an IEEE-754 binary64 value in the sense of
    [SpecFloat].  What the scripts take from the Python runtime and from
    third-party packages ([str.lower], [float()], [json], the HTTP
    transport, the HTML selectors) enters as section variables or as
    oracles of the environment record. *)

From Stdlib Require Import ZArith NArith Lia List Bool Ascii String.
From Stdlib Require Import Floats.SpecFloat.
From stdpp Require Import base option list gmap.

Set Warnings "-register-all".

Open Scope Z_scope.

(** ** Python strings *)

Module PyStr.

(** A Python [str]: a sequence of Unicode code points. *)
Definition pystr := list N.

(** Reading a string literal of this file (UTF-8 bytes) as code points. *)
Fixpoint utf8_decode (bs : list N) : pystr :=
  match bs with
  | [] => []
  | b0 :: r0 =>
    if (b0 <? 128)%N then b0 :: utf8_decode r0
    else if (b0 <? 224)%N then
      match r0 with
      | b1 :: r1 => ((b0 - 192) * 64 + (b1 - 128))%N :: utf8_decode r1
      | [] => [b0]
      end
    else if (b0 <? 240)%N then
      match r0 with
      | b1 :: b2 :: r2 =>
        ((b0 - 224) * 4096 + (b1 - 128) * 64 + (b2 - 128))%N :: utf8_decode r2
      | _ => [b0]
      end
    else
      match r0 with
      | b1 :: b2 :: b3 :: r3 =>
        ((b0 - 240) * 262144 + (b1 - 128) * 4096 + (b2 - 128) * 64 + (b3 - 128))%N
          :: utf8_decode r3
      | _ => [b0]
      end
  end.

Definition py (s : string) : pystr :=
  utf8_decode (List.map N_of_ascii (list_ascii_of_string s)).

Definition SPACE : N := 32.
Definition DQUOTE : pystr := [34%N].

(** [Py_UNICODE_ISSPACE]: the characters that [str.strip()] removes and
    that [\s] matches in a [str] pattern. *)
Definition isspace (c : N) : bool :=
  ((9 <=? c) && (c <=? 13) || (28 <=? c) && (c <=? 32)
   || (c =? 133) || (c =? 160) || (c =? 5760)
   || (8192 <=? c) && (c <=? 8202)
   || (c =? 8232) || (c =? 8233) || (c =? 8239) || (c =? 8287)
   || (c =? 12288))%N.

Fixpoint lstrip (s : pystr) : pystr :=
  match s with
  | [] => []
  | c :: r => if isspace c then lstrip r else s
  end.

Fixpoint rstrip (s : pystr) : pystr :=
  match s with
  | [] => []
  | c :: r =>
    match rstrip r with
    | [] => if isspace c then [] else [c]
    | r' => c :: r'
    end
  end.

(** [s.strip()] *)
Definition strip (s : pystr) : pystr := rstrip (lstrip s).

Fixpoint startswith (s prefix : pystr) : bool :=
  match prefix, s with
  | [], _ => true
  | p :: prefix', c :: s' => (p =? c)%N && startswith s' prefix'
  | _ :: _, [] => false
  end.

(** [needle in s] on strings: substring test. *)
Fixpoint str_contains (s needle : pystr) : bool :=
  startswith s needle ||
  match s with
  | [] => false
  | _ :: r => str_contains r needle
  end.

(** The scan of [s.replace(old, new)] for a non-empty [old]: leftmost
    non-overlapping occurrences; [skip] counts the characters of a match
    still to be passed over. *)
Fixpoint replace_from (old new : pystr) (skip : nat) (s : pystr) : pystr :=
  match s with
  | [] => []
  | c :: r =>
    match skip with
    | S k => replace_from old new k r
    | O =>
      if startswith s old
      then new ++ replace_from old new (length old - 1) r
      else c :: replace_from old new 0 r
    end
  end.

(** [s.replace(old, new)]; an empty [old] matches between all characters. *)
Definition str_replace (s old new : pystr) : pystr :=
  match old with
  | [] => new ++ List.concat (List.map (fun c => c :: new) s)
  | _ :: _ => replace_from old new 0 s
  end.

Definition pystr_eqb (a b : pystr) : bool := bool_decide (a = b).

End PyStr.
Export PyStr.

(** ** The two regular expressions of [normalizar_titulo] *)

Module Re.

(** The class [[a-z0-9\s]]. *)
Definition in_az09s (c : N) : bool :=
  ((97 <=? c) && (c <=? 122) || (48 <=? c) && (c <=? 57))%N || isspace c.

(** [re.sub(r'[^a-z0-9\s]', '', s)]: every character outside the class is
    deleted. *)
Fixpoint sub_non_az09s (s : pystr) : pystr :=
  match s with
  | [] => []
  | c :: r => if in_az09s c then c :: sub_non_az09s r else sub_non_az09s r
  end.

(** [re.sub(r'\s+', ' ', s)]: every maximal run of whitespace becomes one
    space; [in_run] tells that the previous character was whitespace. *)
Fixpoint sub_ws_from (in_run : bool) (s : pystr) : pystr :=
  match s with
  | [] => []
  | c :: r =>
    if isspace c
    then (if in_run then sub_ws_from true r else SPACE :: sub_ws_from true r)
    else c :: sub_ws_from false r
  end.

Definition sub_ws (s : pystr) : pystr := sub_ws_from false s.

End Re.

(** ** [normalizar_titulo] (scraper.py) *)

(** The [reemplazos] dict, in insertion order. *)
Definition reemplazos : list (pystr * pystr) :=
  [ (py "á", py "a"); (py "é", py "e"); (py "í", py "i"); (py "ó", py "o");
    (py "ú", py "u"); (py "ñ", py "n"); (py "à", py "a"); (py "è", py "e");
    (py "ì", py "i"); (py "ò", py "o"); (py "ù", py "u"); (py "ü", py "u") ].

Section Normalizar.

(** [str.lower] of the Python runtime. *)
Variable lower : pystr -> pystr.

Definition normalizar_titulo (titulo : pystr) : pystr :=
  let titulo := strip (lower titulo) in
  let titulo :=
    fold_left (fun t '(acento, letra) => str_replace t acento letra)
              reemplazos titulo in
  let titulo := Re.sub_non_az09s titulo in
  let titulo := strip (Re.sub_ws titulo) in
  titulo.

End Normalizar.

(** [str.lower] on Basic Latin and Latin-1: the instance used wherever a
    concrete run needs one. *)
Definition lower_latin1 (s : pystr) : pystr :=
  List.map (fun c =>
    if ((65 <=? c) && (c <=? 90)
        || (192 <=? c) && (c <=? 222) && negb (c =? 215))%N
    then (c + 32)%N else c) s.


(** ** Python values *)

Module PyVal.

(** The values that [json] reads and writes.  A [dict] keeps insertion
    order, as Python's does. *)
Inductive pyval :=
| PyNone
| PyBool (b : bool)
| PyInt (z : Z)
| PyFloat (f : spec_float)
| PyStr (s : pystr)
| PyList (l : list pyval)
| PyDict (d : list (pystr * pyval)).

Inductive exn :=
| KeyError
| TypeError
| ValueError
| JSONDecodeError
| IOError
| RequestException
| HTTPError (status : Z).

Inductive outcome (A : Type) :=
| Ret (a : A)
| Raise (e : exn).
Arguments Ret {A} a.
Arguments Raise {A} e.

Fixpoint assoc_get {V} (d : list (pystr * V)) (k : pystr) : option V :=
  match d with
  | [] => None
  | (k', v) :: r => if pystr_eqb k' k then Some v else assoc_get r k
  end.

(** [d[k] = v] on a dict: an existing key keeps its place, a new key goes
    last. *)
Fixpoint assoc_set {V} (d : list (pystr * V)) (k : pystr) (v : V)
  : list (pystr * V) :=
  match d with
  | [] => [(k, v)]
  | (k', v') :: r =>
    if pystr_eqb k' k then (k', v) :: r else (k', v') :: assoc_set r k v
  end.

(** [o[k]] for a string [k]. *)
Definition getitem (o : pyval) (k : pystr) : outcome pyval :=
  match o with
  | PyDict d =>
    match assoc_get d k with
    | Some v => Ret v
    | None => Raise KeyError
    end
  | _ => Raise TypeError
  end.

(** [o[k] = v] for a string [k]; returns the mutated object. *)
Definition setitem (o : pyval) (k : pystr) (v : pyval) : outcome pyval :=
  match o with
  | PyDict d => Ret (PyDict (assoc_set d k v))
  | _ => Raise TypeError
  end.

(** [k in o] for a string [k]: key of a dict, element of a list, substring
    of a string. *)
Definition contains (o : pyval) (k : pystr) : outcome bool :=
  match o with
  | PyDict d => Ret (bool_decide (is_Some (assoc_get d k)))
  | PyList l =>
    Ret (existsb (fun e => match e with
                           | PyStr s => pystr_eqb s k
                           | _ => false
                           end) l)
  | PyStr s => Ret (str_contains s k)
  | _ => Raise TypeError
  end.

(** [len(o)] *)
Definition len (o : pyval) : outcome nat :=
  match o with
  | PyDict d => Ret (length d)
  | PyList l => Ret (length l)
  | PyStr s => Ret (length s)
  | _ => Raise TypeError
  end.

(** Truth value of a float: every float but the two zeros. *)
Definition float_truthy (f : spec_float) : bool :=
  match f with
  | S754_zero _ => false
  | _ => true
  end.

(** [a >= b] on binary64 floats. *)
Definition float_ge (a b : spec_float) : bool := SFleb b a.

End PyVal.
Export PyVal.

(** ** The outside world *)

(** An HTML element as the scripts see it: its text, its attributes and,
    for every selector the code asks, the elements the selector finds
    below it (in document order).  [find] and [find_next] calls are keyed
    the same way. *)
Inductive element :=
| Element (text : pystr) (attrs : list (pystr * pystr))
          (selected : list (pystr * list element)).

Definition el_text (e : element) : pystr :=
  match e with Element t _ _ => t end.
Definition el_attrs (e : element) : list (pystr * pystr) :=
  match e with Element _ a _ => a end.

(** [e.select(sel)] *)
Definition select (e : element) (sel : pystr) : list element :=
  match e with
  | Element _ _ q => default [] (assoc_get q sel)
  end.

(** [e.select_one(sel)], also used for [find] *)
Definition select_one (e : element) (sel : pystr) : option element :=
  head (select e sel).

(** [e.get_text(strip=True)] *)
Definition get_text_strip (e : element) : pystr := strip (el_text e).

(** [e.get(attr, '')] *)
Definition attr_get (e : element) (attr : pystr) : pystr :=
  default [] (assoc_get (el_attrs e) attr).

Record response := {
  status_code : Z;
  resp_url : pystr;       (* the final URL, after redirects *)
  resp_soup : element     (* BeautifulSoup(response.text, "html.parser") *)
}.

Inductive http_result :=
| Answer (r : response)
| ConnectionFailed.       (* the request raises a RequestException *)

(** [{"url", "title", "rating", "genre", "platforms"}] of
    [extract_movie_info]. *)
Record movie_info := {
  mi_url : pystr;
  mi_title : pystr;
  mi_rating : option spec_float;
  mi_genre : pystr;
  mi_platforms : list pystr
}.

(** [{"original_title", "clean_title", "url"}] of
    [get_mejortorrent_titles]. *)
Record title_info := {
  original_title : pystr;
  clean_title : pystr;
  url : pystr
}.

(** What a run does to the outside, in order. *)
Inductive event :=
| EvSleepUniform (lo hi : Z)      (* time.sleep(random.uniform(lo, hi)) *)
| EvSleep (secs : Z)              (* time.sleep(secs) *)
| EvSleepHalf                     (* time.sleep(0.5) *)
| EvGet (target : pystr)          (* a GET request *)
| EvOpenRead (path : pystr)
| EvOpenWrite (path : pystr)
| EvWrite (path : pystr) (data : pystr)
| EvTelegram (original : pystr) (info : movie_info).

Inductive write_fault :=
| NoFault
| OpenFails                       (* open(path, 'w') raises IOError *)
| WriteFails (written : nat).     (* IOError after [written] characters *)

(** The state of the world: the files and what has happened so far. *)
Record world := {
  files : gmap pystr pystr;
  trace : list event
}.

(** The parts of the Python runtime and of the packages the scripts call. *)
Record runtime := {
  str_lower : pystr -> pystr;               (* str.lower *)
  float_of_str : pystr -> option spec_float; (* float(s); None is ValueError *)
  json_dumps : pyval -> pystr;              (* json.dump(..., ensure_ascii=False, indent=2) *)
  json_dumps_compact : pyval -> pystr;      (* json.dump with the defaults *)
  json_loads : pystr -> option pyval;       (* json.load; None is JSONDecodeError *)
  quote_plus : pystr -> pystr               (* urllib.parse.quote_plus *)
}.

(** What the outside answers; every oracle sees the history so far. *)
Record env := {
  http_get : list event -> pystr -> http_result;
  read_fails : list event -> bool;          (* open(path, 'r') raises IOError *)
  write_faults : list event -> write_fault;
  fecha_hoy : list event -> pystr;          (* datetime.now().strftime("%Y-%m-%d") *)
  mejortorrent_titles : list event -> list title_info;
                                            (* get_mejortorrent_titles() *)
  telegram_token : option pystr;            (* os.getenv("TELEGRAM_BOT_TOKEN") *)
  telegram_chat_id : option pystr;
  telegram_post_ok : list event -> bool;    (* requests.post succeeds *)
  scraped_torrents : list event -> list (pystr * pystr);
                                            (* scrape_torrents(): title, url *)
  PROCESSED_FILE : pystr;
  RATING_THRESHOLD : spec_float
}.

(** ** The monad of the scripts: state and exceptions *)

Definition M (A : Type) : Type := world -> outcome A * world.

Definition ret {A} (a : A) : M A := fun w => (Ret a, w).
Definition raise {A} (e : exn) : M A := fun w => (Raise e, w).
Definition bind {A B} (c : M A) (k : A -> M B) : M B :=
  fun w =>
    match c w with
    | (Ret a, w') => k a w'
    | (Raise e, w') => (Raise e, w')
    end.
Definition lift {A} (o : outcome A) : M A := fun w => (o, w).

(** [try: c  except <handled>: h] *)
Definition try_except {A} (c : M A) (handled : exn -> bool) (h : exn -> M A)
  : M A :=
  fun w =>
    match c w with
    | (Ret a, w') => (Ret a, w')
    | (Raise e, w') => if handled e then h e w' else (Raise e, w')
    end.

Definition with_event (w : world) (ev : event) : world :=
  {| files := files w; trace := trace w ++ [ev] |}.
Definition with_files (w : world) (fs : gmap pystr pystr) : world :=
  {| files := fs; trace := trace w |}.

Definition emit (ev : event) : M unit := fun w => (Ret tt, with_event w ev).

Definition get_trace : M (list event) := fun w => (Ret (trace w), w).
Definition get_files : M (gmap pystr pystr) := fun w => (Ret (files w), w).

Declare Scope monad_scope.
Delimit Scope monad_scope with monad.
Notation "x <- c ;; k" := (bind c (fun x => k))
  (at level 100, c at next level, right associativity) : monad_scope.
Notation "c ;;; k" := (bind c (fun _ => k))
  (at level 100, right associativity) : monad_scope.
Open Scope monad_scope.

(** Which exceptions an [except] clause catches. *)
Definition is_Exception (e : exn) : bool := true.
Definition is_IOError (e : exn) : bool :=
  match e with IOError => true | _ => false end.
Definition is_JSONDecodeError_or_IOError (e : exn) : bool :=
  match e with JSONDecodeError | IOError => true | _ => false end.
Definition is_RequestException (e : exn) : bool :=
  match e with RequestException | HTTPError _ => true | _ => false end.

(** ** File primitives *)

Inductive fs_op :=
| FsTruncate (p : pystr)              (* open(p, 'w') *)
| FsAppend (p : pystr) (data : pystr) (* f.write(data), flushed *)
| FsRename (src dst : pystr).         (* os.replace(src, dst) *)

Definition fs_apply (fs : gmap pystr pystr) (op : fs_op) : gmap pystr pystr :=
  match op with
  | FsTruncate p => <[p := []]> fs
  | FsAppend p data => <[p := default [] (fs !! p) ++ data]> fs
  | FsRename src dst =>
    match fs !! src with
    | Some data => <[dst := data]> (delete src fs)
    | None => fs
    end
  end.

(** The files after the first [k] operations of [ops] took effect: where a
    process killed at that point leaves them. *)
Definition fs_after (k : nat) (ops : list fs_op) (fs : gmap pystr pystr)
  : gmap pystr pystr :=
  fold_left fs_apply (take k ops) fs.

Definition run_fs_op (op : fs_op) : M unit :=
  fun w => (Ret tt, with_files w (fs_apply (files w) op)).

(** ** Reading and writing a JSON document *)

Section FileIO.

Variable R : runtime.
Variable E : env.

(** [with open(path, 'r') as f: return json.load(f)] *)
Definition leer_json (path : pystr) : M pyval :=
  tr <- get_trace;;
  emit (EvOpenRead path);;;
  if read_fails E tr then raise IOError
  else
    fs <- get_files;;
    match fs !! path with
    | None => raise IOError
    | Some text =>
      match json_loads R text with
      | Some v => ret v
      | None => raise JSONDecodeError
      end
    end.

(** What [open(path, 'w')] followed by [json.dump] does to the files. *)
Definition escribir_ops (path text : pystr) : list fs_op :=
  [FsTruncate path; FsAppend path text].

(** [with open(path, 'w') as f: json.dump(..., f)], with the faults the
    environment injects: the open may fail, and the write may fail after
    part of the text. *)
Definition escribir_texto (path text : pystr) : M unit :=
  tr <- get_trace;;
  emit (EvOpenWrite path);;;
  match write_faults E tr with
  | OpenFails => raise IOError
  | WriteFails n =>
    run_fs_op (FsTruncate path);;;
    emit (EvWrite path (take n text));;;
    run_fs_op (FsAppend path (take n text));;;
    raise IOError
  | NoFault =>
    run_fs_op (FsTruncate path);;;
    emit (EvWrite path text);;;
    run_fs_op (FsAppend path text)
  end.

End FileIO.

(** ** scraper.py *)

Module Scraper.

Definition FILMAFFINITY_SEARCH_URL : pystr :=
  py "https://www.filmaffinity.com/es/search.php?stext=".
Definition FILMAFFINITY_HOST : pystr := py "https://www.filmaffinity.com".
Definition HISTORIAL_FILE : pystr := py "historial.json".
(** [MIN_RATING = 7.0] *)
Definition MIN_RATING : spec_float := S754_finite false 7881299347898368 (-50).
Definition MAX_PELICULAS_POR_EJECUCION : nat := 20.

Section Program.

Variable R : runtime.
Variable E : env.

(** *** The history *)

(** [{"peliculas": {}}] *)
Definition historial_vacio : pyval := PyDict [(py "peliculas", PyDict [])].

Definition cargar_historial : M pyval :=
  fs <- get_files;;
  if bool_decide (is_Some (fs !! HISTORIAL_FILE)) then
    try_except (leer_json R E HISTORIAL_FILE)
               is_JSONDecodeError_or_IOError
               (fun _ => ret historial_vacio)
  else ret historial_vacio.

Definition guardar_historial (historial : pyval) : M bool :=
  try_except
    (escribir_texto E HISTORIAL_FILE (json_dumps R historial);;; ret true)
    is_IOError
    (fun _ => ret false).

(** [historial["peliculas"][clave] = {...}]; the dict is mutated in place,
    so the updated [historial] is what every holder of it sees. *)
Definition agregar_al_historial (historial : pyval) (titulo_limpio : pystr)
    (nota : pyval) (notificado : bool) : M pyval :=
  let clave := normalizar_titulo (str_lower R) titulo_limpio in
  tr <- get_trace;;
  let registro :=
    PyDict [ (py "titulo", PyStr titulo_limpio);
             (py "nota", nota);
             (py "fecha", PyStr (fecha_hoy E tr));
             (py "notificado", PyBool notificado) ] in
  peliculas <- lift (getitem historial (py "peliculas"));;
  peliculas' <- lift (setitem peliculas clave registro);;
  lift (setitem historial (py "peliculas") peliculas').

Definition ya_analizada (historial : pyval) (titulo_limpio : pystr) : M bool :=
  let clave := normalizar_titulo (str_lower R) titulo_limpio in
  peliculas <- lift (getitem historial (py "peliculas"));;
  lift (contains peliculas clave).

(** *** The lookup client *)

(** [filmaffinity_scraper.get(url, timeout=15)] *)
Definition scraper_get (target : pystr) : M response :=
  tr <- get_trace;;
  emit (EvGet target);;;
  match http_get E tr target with
  | Answer r => ret r
  | ConnectionFailed => raise RequestException
  end.

(** [response.raise_for_status()] *)
Definition raise_for_status (r : response) : M unit :=
  if (400 <=? status_code r) && (status_code r <? 600)
  then raise (HTTPError (status_code r))
  else ret tt.

Definition rating_selectors : list pystr :=
  [ py "#movie-rat-avg"; py ".avg-rating"; py "[itemprop=" ++ DQUOTE ++ py "ratingValue" ++ DQUOTE ++ py "]";
    py ".avgrat-box"; py ".rat-avg" ].

Fixpoint extract_rating_from (selectors : list pystr) (soup : element)
  : option spec_float :=
  match selectors with
  | [] => None
  | selector :: rest =>
    match select_one soup selector with
    | Some elem =>
      let rating_text := str_replace (get_text_strip elem) (py ",") (py ".") in
      match float_of_str R rating_text with
      | Some f => Some f
      | None => extract_rating_from rest soup
      end
    | None => extract_rating_from rest soup
    end
  end.

Definition extract_rating (soup : element) : option spec_float :=
  extract_rating_from rating_selectors soup.

(** [if rating:] on a [float | None] *)
Definition rating_truthy (rating : option spec_float) : bool :=
  match rating with
  | Some f => float_truthy f
  | None => false
  end.

(** The [dt] loop of [extract_movie_info]. *)
Fixpoint genre_from_dt (dts : list element) : option element :=
  match dts with
  | [] => None
  | dt :: rest =>
    if str_contains (el_text dt) (py "Género")
    then select_one dt (py "find_next:dd")
    else genre_from_dt rest
  end.

Fixpoint platforms_from_imgs (imgs : list element) : list pystr :=
  match imgs with
  | [] => []
  | img :: rest =>
    let alt := attr_get img (py "alt") in
    match alt with
    | [] => platforms_from_imgs rest
    | _ => alt :: platforms_from_imgs rest
    end
  end.

Fixpoint platforms_from_links (links : list element) (platforms : list pystr)
  : list pystr :=
  match links with
  | [] => platforms
  | link :: rest =>
    let platform_name := get_text_strip link in
    match platform_name with
    | [] => platforms_from_links rest platforms
    | _ =>
      if existsb (pystr_eqb platform_name) platforms
      then platforms_from_links rest platforms
      else platforms_from_links rest (platforms ++ [platform_name])
    end
  end.

Definition extract_movie_info (soup : element) (url : pystr)
  : option movie_info :=
  let title :=
    match select_one soup (py "#main-title span, .movie-title, h1[itemprop='name']") with
    | Some title_elem => get_text_strip title_elem
    | None => py "Desconocido"
    end in
  let rating := extract_rating soup in
  let genre_elem :=
    match select_one soup (py "[itemprop=" ++ DQUOTE ++ py "genre" ++ DQUOTE
                       ++ py "], .genres span, dd:contains(" ++ DQUOTE
                       ++ py "Género" ++ DQUOTE ++ py ")") with
    | Some g => Some g
    | None => genre_from_dt (select soup (py "dt"))
    end in
  let genre :=
    match genre_elem with
    | Some g => get_text_strip g
    | None => py "No especificado"
    end in
  let platforms :=
    platforms_from_imgs
      (select soup (py ".just-watch-prov img, .streaming-providers img, [alt*='disponible']")) in
  let platforms :=
    platforms_from_links
      (select soup (py "a[href*='justwatch'], .wtp-links a")) platforms in
  let platforms :=
    match platforms with
    | [] => [py "No disponible en streaming"]
    | _ => platforms
    end in
  let info := {| mi_url := url; mi_title := title; mi_rating := rating;
                 mi_genre := genre; mi_platforms := platforms |} in
  if rating_truthy (mi_rating info) then Some info else None.

Definition get_filmaffinity_details (url : pystr) : M (option movie_info) :=
  try_except
    (emit (EvSleepUniform 2 4);;;
     response <- scraper_get url;;
     response <-
       (if status_code response =? 429 then
          emit (EvSleep 30);;;
          scraper_get url
        else ret response);;
     raise_for_status response;;;
     ret (extract_movie_info (resp_soup response) url))
    is_Exception
    (fun _ => ret None).

(** [movie_url] made absolute, as both link branches do. *)
Definition absolute_url (movie_url : pystr) : pystr :=
  match movie_url with
  | [] => []
  | _ =>
    if startswith movie_url (py "http") then movie_url
    else FILMAFFINITY_HOST ++ movie_url
  end.

(** How one iteration of the retry loop ends. *)
Inductive attempt_end :=
| Return (r : option movie_info)   (* [return ...] *)
| Continue.                        (* [continue], or the end of the body *)

(** Lines 253-284: what is done with a page that was fetched without
    error. *)
Definition resolve_page (soup : element) (search_url : pystr)
  : M attempt_end :=
  let movie_card := select_one soup (py ".se-it, .movie-card, [data-movie-id]") in
  let card_url :=
    match movie_card with
    | Some card =>
      match select_one card (py "a[href*='/film']") with
      | Some movie_link => absolute_url (attr_get movie_link (py "href"))
      | None => []
      end
    | None => []
    end in
  match card_url with
  | _ :: _ =>
    r <- get_filmaffinity_details card_url;; ret (Return r)
  | [] =>
    let rating := extract_rating soup in
    if rating_truthy rating then
      ret (Return (extract_movie_info soup search_url))
    else
      let link_url :=
        match select_one soup (py "a[href*='/es/film']") with
        | Some first_movie => absolute_url (attr_get first_movie (py "href"))
        | None => []
        end in
      match link_url with
      | _ :: _ =>
        r <- get_filmaffinity_details link_url;; ret (Return r)
      | [] => ret (Return None)
      end
  end.

(** The body of [for attempt in range(retries)], with its [try]/[except]. *)
Definition search_attempt (search_url : pystr) (retries attempt : Z)
  : M attempt_end :=
  try_except
    (emit (if attempt =? 0 then EvSleepUniform 3 6 else EvSleepUniform 10 20);;;
     response <- scraper_get search_url;;
     if status_code response =? 429 then
       if attempt <? retries - 1 then
         let wait_time := (attempt + 1) * 30 in
         emit (EvSleep wait_time);;;
         ret Continue
       else ret (Return None)
     else if status_code response =? 403 then
       if attempt <? retries - 1 then
         let wait_time := (attempt + 1) * 15 in
         emit (EvSleep wait_time);;;
         ret Continue
       else ret (Return None)
     else
       raise_for_status response;;;
       resolve_page (resp_soup response) search_url)
    is_Exception
    (fun _ => if attempt <? retries - 1 then ret Continue else ret Continue).

Fixpoint search_loop (search_url : pystr) (retries : Z) (attempts : list Z)
  : M (option movie_info) :=
  match attempts with
  | [] => ret None
  | attempt :: rest =>
    r <- search_attempt search_url retries attempt;;
    match r with
    | Return v => ret v
    | Continue => search_loop search_url retries rest
    end
  end.

(** [range(n)] *)
Definition range (n : Z) : list Z :=
  List.map Z.of_nat (seq 0 (Z.to_nat n)).

Definition search_filmaffinity (title : pystr) (retries : Z)
  : M (option movie_info) :=
  let search_url := FILMAFFINITY_SEARCH_URL ++ quote_plus R title in
  search_loop search_url retries (range retries).

(** *** [main] *)

(** The local variables of [main] that its summary line reports, and the
    history it holds. *)
Record locals := {
  historial : pyval;
  saltadas : nat;
  nuevas_analizadas : nat;
  good_movies : list (pystr * movie_info)
}.

(** Lines 433-438: the titles not yet in the history, and the count of the
    others. *)
Fixpoint filtrar_nuevos (historial : pyval) (titles : list title_info)
  : M (list title_info * nat) :=
  match titles with
  | [] => ret ([], 0%nat)
  | title_info :: rest =>
    visto <- ya_analizada historial (clean_title title_info);;
    resto <- filtrar_nuevos historial rest;;
    let '(nuevos, saltadas) := resto in
    ret (if visto then (nuevos, S saltadas) else (title_info :: nuevos, saltadas))
  end.

(** [movie_info and movie_info.get("rating")]: the rating when the
    condition holds. *)
Definition rating_encontrado (movie_info : option movie_info)
  : option spec_float :=
  match movie_info with
  | Some info =>
    match mi_rating info with
    | Some rating => if float_truthy rating then Some rating else None
    | None => None
    end
  | None => None
  end.

(** Lines 450-478: the body of the processing loop. *)
Definition procesar_titulo (st : locals) (title_info : title_info) : M locals :=
  let clean_title := clean_title title_info in
  movie_info <- search_filmaffinity clean_title 3;;
  st' <-
    match movie_info, rating_encontrado movie_info with
    | Some info, Some rating =>
      let notificado := float_ge rating MIN_RATING in
      h <- agregar_al_historial (historial st) clean_title
                                (PyFloat rating) notificado;;
      ret {| historial := h;
             saltadas := saltadas st;
             nuevas_analizadas := S (nuevas_analizadas st);
             good_movies :=
               if notificado
               then good_movies st ++ [(original_title title_info, info)]
               else good_movies st |}
    | _, _ =>
      h <- agregar_al_historial (historial st) clean_title (PyInt 0) false;;
      ret {| historial := h;
             saltadas := saltadas st;
             nuevas_analizadas := S (nuevas_analizadas st);
             good_movies := good_movies st |}
    end;;
  guardar_historial (historial st');;;
  ret st'.

Fixpoint procesar_titulos (st : locals) (titulos : list title_info) : M locals :=
  match titulos with
  | [] => ret st
  | title_info :: rest =>
    st' <- procesar_titulo st title_info;;
    procesar_titulos st' rest
  end.

(** [send_telegram_message]: the request is made; a failure is caught and
    reported as [False]. *)
Definition send_telegram_message (original : pystr) (info : movie_info)
  : M bool :=
  tr <- get_trace;;
  emit (EvTelegram original info);;;
  ret (telegram_post_ok E tr).

Fixpoint enviar_notificaciones (movies : list (pystr * movie_info)) : M unit :=
  match movies with
  | [] => ret tt
  | (original, info) :: rest =>
    send_telegram_message original info;;;
    emit EvSleepHalf;;;
    enviar_notificaciones rest
  end.

(** [main()].  Python's [main] returns [None]; the model returns the local
    variables it holds when it returns. *)
Definition main : M locals :=
  historial <- cargar_historial;;
  peliculas <- lift (getitem historial (py "peliculas"));;
  lift (len peliculas);;;
  tr <- get_trace;;
  let titles := mejortorrent_titles E tr in
  match titles with
  | [] =>
    ret {| historial := historial; saltadas := 0; nuevas_analizadas := 0;
           good_movies := [] |}
  | _ =>
    filtrado <- filtrar_nuevos historial titles;;
    let '(titulos_nuevos, saltadas) := filtrado in
    let titulos_a_procesar := take MAX_PELICULAS_POR_EJECUCION titulos_nuevos in
    st <- procesar_titulos
            {| historial := historial; saltadas := saltadas;
               nuevas_analizadas := 0; good_movies := [] |}
            titulos_a_procesar;;
    match good_movies st, telegram_token E, telegram_chat_id E with
    | _ :: _, Some (_ :: _), Some (_ :: _) =>
      enviar_notificaciones (good_movies st)
    | _, _, _ => ret tt
    end;;;
    ret st
  end.

End Program.

End Scraper.

(** ** movie_notifier.py *)

Module Notifier.

(** The dict of [parse_movie_page]. *)
Record page_info := {
  pi_title : pystr;
  pi_rating : spec_float;
  pi_genres : pystr;
  pi_available : pystr;
  pi_url : pystr
}.

(** Values a Python [set] can hold. *)
Definition hashable (v : pyval) : bool :=
  match v with
  | PyList _ | PyDict _ => false
  | _ => true
  end.

(** Equality of two hashable values of the same type (Python's equality
    across [bool], [int] and [float] is not part of the model). *)
Definition hashable_eqb (a b : pyval) : bool :=
  match a, b with
  | PyNone, PyNone => true
  | PyBool x, PyBool y => Bool.eqb x y
  | PyInt x, PyInt y => x =? y
  | PyFloat x, PyFloat y => SFeqb x y
  | PyStr x, PyStr y => pystr_eqb x y
  | _, _ => false
  end.

(** [v in s] and [s.add(v)]; a set is kept as the list of its elements. *)
Definition set_mem (s : list pyval) (v : pyval) : bool :=
  existsb (hashable_eqb v) s.
Definition set_add (s : list pyval) (v : pyval) : list pyval :=
  if set_mem s v then s else s ++ [v].

(** [set(v)] *)
Definition py_set (v : pyval) : outcome (list pyval) :=
  match v with
  | PyList l =>
    if forallb hashable l then Ret (fold_left set_add l []) else Raise TypeError
  | PyDict d => Ret (fold_left set_add (List.map (fun kv => PyStr (fst kv)) d) [])
  | PyStr s => Ret (fold_left set_add (List.map (fun c => PyStr [c]) s) [])
  | _ => Raise TypeError
  end.

(** [", ".join(parts)] *)
Fixpoint join_comma (parts : list pystr) : pystr :=
  match parts with
  | [] => []
  | [p] => p
  | p :: rest => p ++ py ", " ++ join_comma rest
  end.

(** [s.split("-")[0]] *)
Fixpoint before_dash (s : pystr) : pystr :=
  match s with
  | [] => []
  | c :: r => if (c =? 45)%N then [] else c :: before_dash r
  end.

Definition tags : list pystr :=
  [ py "(DVDRip)"; py "(HDRip)"; py "(BluRay-1080p)"; py "[720p]";
    py "[1080p]"; py "(HDTV)"; py "(4K)"; py "(HDTV-720p)";
    py "(HDTV-1080p)" ].

Definition clean_title (title : pystr) : pystr :=
  let clean := fold_left (fun c tag => str_replace c tag []) tags title in
  strip (before_dash clean).

Fixpoint dedup (l : list pystr) (seen : list pystr) : list pystr :=
  match l with
  | [] => []
  | x :: r =>
    if existsb (pystr_eqb x) seen then dedup r seen
    else x :: dedup r (seen ++ [x])
  end.

Section Program.

Variable R : runtime.
Variable E : env.

Definition load_processed : M (list pyval) :=
  fs <- get_files;;
  if bool_decide (is_Some (fs !! PROCESSED_FILE E)) then
    v <- leer_json R E (PROCESSED_FILE E);;
    lift (py_set v)
  else ret [].

Definition save_processed (processed : list pyval) : M unit :=
  escribir_texto E (PROCESSED_FILE E)
                 (json_dumps_compact R (PyList processed)).

(** [session.get(url, headers=HEADERS)] *)
Definition session_get (target : pystr) : M response :=
  tr <- get_trace;;
  emit (EvGet target);;;
  match http_get E tr target with
  | Answer r => ret r
  | ConnectionFailed => raise RequestException
  end.

Definition parse_movie_page (soup : element) (url : pystr)
  : option page_info :=
  let title :=
    match select_one soup (py "find:h1#main-title") with
    | Some h1 => strip (el_text h1)
    | None => py "Unknown"
    end in
  let rating :=
    match select_one soup (py "find:div#movie-rat-avg") with
    | Some rating_el =>
      float_of_str R (str_replace (strip (el_text rating_el)) (py ",") (py "."))
    | None => Some (S754_zero false)
    end in
  let genres :=
    List.map (fun tag => strip (el_text tag))
             (select soup (py ".movie-info span[itemprop='genre'] a")) in
  let available_on :=
    List.map (fun prov =>
                match assoc_get (el_attrs prov) (py "alt") with
                | Some alt => alt
                | None => py "Unknown"
                end)
             (select soup (py ".vwine-p .vwine-p-item img")) in
  match rating with
  | None => None        (* ValueError, caught: [return None] *)
  | Some rating =>
    Some {| pi_title := title;
            pi_rating := rating;
            pi_genres := match genres with
                         | [] => py "N/A"
                         | _ => join_comma genres
                         end;
            pi_available := match available_on with
                            | [] => py "N/A"
                            | _ => join_comma (dedup available_on [])
                            end;
            pi_url := url |}
  end.

Definition get_filmaffinity_info (movie_title : pystr)
  : M (option page_info) :=
  let search_url :=
    py "https://www.filmaffinity.com/es/search.php?stext="
    ++ str_replace movie_title (py " ") (py "+") in
  try_except
    (response <- session_get search_url;;
     if negb (status_code response =? 200) then ret None
     else
       let soup := resp_soup response in
       if str_contains (resp_url response) (py "movie.php") then
         ret (parse_movie_page soup (resp_url response))
       else
         match select soup (py ".se-it .mc-title a") with
         | [] => ret None
         | first :: _ =>
           match assoc_get (el_attrs first) (py "href") with
           | None => raise KeyError
           | Some href =>
             let first_movie_url := py "https://www.filmaffinity.com" ++ href in
             movie_response <- session_get first_movie_url;;
             ret (parse_movie_page (resp_soup movie_response) first_movie_url)
           end
         end)
    is_Exception
    (fun _ => ret None).

(** What the loop of [main] has sent and holds. *)
Record locals := {
  processed : list pyval;
  sent : list (page_info * pystr)      (* the info and the torrent's url *)
}.

(** The body of [for torrent in new_torrents]. *)
Definition procesar_torrent (st : locals) (torrent : pystr * pystr)
  : M locals :=
  let '(title, torrent_url) := torrent in
  if negb (set_mem (processed st) (PyStr torrent_url)) then
    let clean := clean_title title in
    info <- get_filmaffinity_info clean;;
    let sent' :=
      match info with
      | Some info =>
        if float_ge (pi_rating info) (RATING_THRESHOLD E)
        then sent st ++ [(info, torrent_url)]
        else sent st
      | None => sent st
      end in
    let processed' := set_add (processed st) (PyStr torrent_url) in
    save_processed processed';;;
    emit (EvSleep 1);;;
    ret {| processed := processed'; sent := sent' |}
  else ret st.

Fixpoint procesar_torrents (st : locals) (torrents : list (pystr * pystr))
  : M locals :=
  match torrents with
  | [] => ret st
  | torrent :: rest =>
    st' <- procesar_torrent st torrent;;
    procesar_torrents st' rest
  end.

Definition main : M locals :=
  processed <- load_processed;;
  tr <- get_trace;;
  procesar_torrents {| processed := processed; sent := [] |}
                    (scraped_torrents E tr).

End Program.

End Notifier.

(** ** A reference runtime

    Executable stand-ins for the runtime functions, used where a theorem
    is applied to a concrete run.  The general theorems quantify over the
    [runtime] record and do not depend on them. *)

Module Ref.

Definition ch (a : ascii) : N := N_of_ascii a.

Definition is_digit (c : N) : bool := ((48 <=? c) && (c <=? 57))%N.

(** Decimal digits of a natural number, most significant first. *)
Fixpoint uint_digits (u : Decimal.uint) : pystr :=
  match u with
  | Decimal.Nil => []
  | Decimal.D0 r => 48%N :: uint_digits r
  | Decimal.D1 r => 49%N :: uint_digits r
  | Decimal.D2 r => 50%N :: uint_digits r
  | Decimal.D3 r => 51%N :: uint_digits r
  | Decimal.D4 r => 52%N :: uint_digits r
  | Decimal.D5 r => 53%N :: uint_digits r
  | Decimal.D6 r => 54%N :: uint_digits r
  | Decimal.D7 r => 55%N :: uint_digits r
  | Decimal.D8 r => 56%N :: uint_digits r
  | Decimal.D9 r => 57%N :: uint_digits r
  end.

Definition N_digits (n : N) : pystr := uint_digits (N.to_uint n).

(** [str(z)] for an [int] *)
Definition Z_repr (z : Z) : pystr :=
  match z with
  | Z0 => [48%N]
  | Zpos p => N_digits (Npos p)
  | Zneg p => 45%N :: N_digits (Npos p)
  end.

(** The value of a string of decimal digits. *)
Definition digits_value (ds : pystr) : Z :=
  fold_left (fun acc d => acc * 10 + Z.of_N (d - 48)) ds 0.

(** The leading digits of [s], and what follows them. *)
Fixpoint span_digits (s : pystr) : pystr * pystr :=
  match s with
  | [] => ([], [])
  | c :: r =>
    if is_digit c then let '(ds, rest) := span_digits r in (c :: ds, rest)
    else ([], s)
  end.

(** *** [float(s)] on decimal literals *)

Definition prec64 : Z := 53.
Definition emax64 : Z := 1024.

(** The binary64 value nearest to [sign * digits * 10^exp10]. *)
Definition float_of_decimal (neg : bool) (digits : Z) (exp10 : Z)
  : spec_float :=
  match digits with
  | Zpos d =>
    if 0 <=? exp10 then
      binary_normalize prec64 emax64
        (if neg then - (digits * 10 ^ exp10) else digits * 10 ^ exp10) 0 neg
    else
      SFdiv prec64 emax64 (S754_finite neg d 0)
            (S754_finite false (Z.to_pos (10 ^ (- exp10))) 0)
  | _ => S754_zero neg
  end.

Definition lower_ascii (s : pystr) : pystr :=
  List.map (fun c => if ((65 <=? c) && (c <=? 90))%N then (c + 32)%N else c) s.

(** The exponent part [e[+-]digits] of a literal, if [s] is one. *)
Definition parse_exponent (s : pystr) : option Z :=
  match s with
  | [] => Some 0
  | c :: r =>
    if ((c =? 101) || (c =? 69))%N then
      let '(neg, r) :=
        match r with
        | 45%N :: r' => (true, r')
        | 43%N :: r' => (false, r')
        | _ => (false, r)
        end in
      let '(ds, rest) := span_digits r in
      match ds, rest with
      | _ :: _, [] => Some (if neg then - digits_value ds else digits_value ds)
      | _, _ => None
      end
    else None
  end.

(** [float(s)] for [s] a decimal literal with optional sign, fraction and
    exponent, or one of [nan], [inf], [infinity]; surrounding whitespace
    is ignored. *)
Definition float_of_str (s : pystr) : option spec_float :=
  let s := strip s in
  let '(neg, s) :=
    match s with
    | 45%N :: r => (true, r)
    | 43%N :: r => (false, r)
    | _ => (false, s)
    end in
  let low := lower_ascii s in
  if pystr_eqb low (py "nan") then Some S754_nan
  else if pystr_eqb low (py "inf") || pystr_eqb low (py "infinity")
  then Some (S754_infinity neg)
  else
    let '(ip, r) := span_digits s in
    let '(fp, r, dot) :=
      match r with
      | 46%N :: r' => let '(fp, r'') := span_digits r' in (fp, r'', true)
      | _ => ([], r, false)
      end in
    match ip, fp with
    | [], [] => None
    | _, _ =>
      match parse_exponent r with
      | Some e =>
        Some (float_of_decimal neg (digits_value (ip ++ fp))
                               (e - Z.of_nat (length fp)))
      | None => None
      end
    end.

(** *** [repr(f)] of a float: the shortest decimal that reads back as [f] *)

Definition float_eqb (a b : spec_float) : bool :=
  match a, b with
  | S754_zero s, S754_zero s' => Bool.eqb s s'
  | S754_infinity s, S754_infinity s' => Bool.eqb s s'
  | S754_nan, S754_nan => true
  | S754_finite s m e, S754_finite s' m' e' =>
    Bool.eqb s s' && (m =? m')%positive && (e =? e')
  | _, _ => false
  end.

(** [num / den] rounded to the nearest integer, ties to even. *)
Definition div_round_even (num den : Z) : Z :=
  let q := num / den in
  let r := num mod den in
  match 2 * r ?= den with
  | Lt => q
  | Gt => q + 1
  | Eq => if Z.even q then q else q + 1
  end.

(** The least [n] with [num / den < 10^n], searched upwards from [n]. *)
Fixpoint decimal_exponent_up (fuel : nat) (num den : Z) (n : Z) : Z :=
  match fuel with
  | O => n
  | S fuel =>
    if num <? den * 10 ^ n then n
    else decimal_exponent_up fuel num den (n + 1)
  end.

Fixpoint decimal_exponent_down (fuel : nat) (num den : Z) (n : Z) : Z :=
  match fuel with
  | O => n
  | S fuel =>
    if num * 10 ^ (1 - n) <? den then decimal_exponent_down fuel num den (n - 1)
    else n
  end.

(** [n] with [10^(n-1) <= num / den < 10^n]. *)
Definition decimal_exponent (num den : Z) : Z :=
  if den <=? num then decimal_exponent_up 400 num den 1
  else decimal_exponent_down 400 num den 0.

(** [m * 2^e] rounded to [d] significant decimal digits: the digits as an
    integer, and the decimal exponent [n] (value = 0.digits * 10^n). *)
Definition round_digits (m : positive) (e : Z) (d : Z) : Z * Z :=
  let num := if 0 <=? e then Zpos m * 2 ^ e else Zpos m in
  let den := if 0 <=? e then 1 else 2 ^ (- e) in
  let n := decimal_exponent num den in
  let shift := d - n in
  let digits :=
    if 0 <=? shift then div_round_even (num * 10 ^ shift) den
    else div_round_even num (den * 10 ^ (- shift)) in
  if digits =? 10 ^ d then (10 ^ (d - 1), n + 1) else (digits, n).

Fixpoint shortest_digits (fuel : nat) (m : positive) (e : Z) (d : Z) : Z * Z :=
  match fuel with
  | O => round_digits m e 17
  | S fuel =>
    let '(digits, n) := round_digits m e d in
    if float_eqb (float_of_decimal false digits (n - d)) (S754_finite false m e)
    then (digits, n)
    else shortest_digits fuel m e (d + 1)
  end.

Fixpoint strip_trailing_zeros (fuel : nat) (digits : Z) : Z :=
  match fuel with
  | O => digits
  | S fuel =>
    if (digits mod 10 =? 0) && negb (digits =? 0)
    then strip_trailing_zeros fuel (digits / 10)
    else digits
  end.

Definition zeros (n : Z) : pystr := List.repeat 48%N (Z.to_nat n).

(** [repr] lays the digits out as Python does: positional when
    [-4 <= exponent < 16], scientific otherwise. *)
Definition float_repr (f : spec_float) : pystr :=
  match f with
  | S754_nan => py "nan"
  | S754_infinity s => if s then py "-inf" else py "inf"
  | S754_zero s => if s then py "-0.0" else py "0.0"
  | S754_finite s m e =>
    let '(digits, n) := shortest_digits 17 m e 1 in
    let ds := Z_repr (strip_trailing_zeros 20 digits) in
    let len := Z.of_nat (length ds) in
    let sign := if s then [45%N] else [] in
    sign ++
    if (-4 <? n) && (n <=? 16) then
      if n <=? 0 then py "0." ++ zeros (- n) ++ ds
      else if len <=? n then ds ++ zeros (n - len) ++ py ".0"
      else take (Z.to_nat n) ds ++ [46%N] ++ drop (Z.to_nat n) ds
    else
      let mant :=
        match ds with
        | [d0] => [d0]
        | d0 :: r => d0 :: 46%N :: r
        | [] => []
        end in
      let ex := n - 1 in
      mant ++ [101%N] ++ (if ex <? 0 then [45%N] else [43%N])
           ++ (if Z.abs ex <? 10 then [48%N] else []) ++ Z_repr (Z.abs ex)
  end.

End Ref.

(** *** [json.dumps] and [json.loads] *)

Module Json.

Definition hex_digit (n : N) : N :=
  if (n <? 10)%N then (48 + n)%N else (87 + n)%N.

(** [\uXXXX] *)
Definition u_escape (c : N) : pystr :=
  [92; 117; hex_digit (c / 4096); hex_digit ((c / 256) mod 16);
   hex_digit ((c / 16) mod 16); hex_digit (c mod 16)]%N.

Definition escape_char (ensure_ascii : bool) (c : N) : pystr :=
  if (c =? 34)%N then [92; 34]%N
  else if (c =? 92)%N then [92; 92]%N
  else if (c =? 10)%N then [92; 110]%N
  else if (c =? 13)%N then [92; 114]%N
  else if (c =? 9)%N then [92; 116]%N
  else if (c =? 8)%N then [92; 98]%N
  else if (c =? 12)%N then [92; 102]%N
  else if (c <? 32)%N then u_escape c
  else if ensure_ascii && (127 <? c)%N then
    if (c <? 65536)%N then u_escape c
    else u_escape (55296 + (c - 65536) / 1024)
         ++ u_escape (56320 + (c - 65536) mod 1024)
  else [c].

Definition quote (ensure_ascii : bool) (s : pystr) : pystr :=
  34%N :: List.concat (List.map (escape_char ensure_ascii) s) ++ [34%N].

Definition float_literal (f : spec_float) : pystr :=
  match f with
  | S754_nan => py "NaN"
  | S754_infinity s => if s then py "-Infinity" else py "Infinity"
  | _ => Ref.float_repr f
  end.

Fixpoint join (sep : pystr) (parts : list pystr) : pystr :=
  match parts with
  | [] => []
  | [p] => p
  | p :: rest => p ++ sep ++ join sep rest
  end.

Section Dumps.

(** [indent=None] or [indent=n]; [ensure_ascii]. *)
Variable indent : option nat.
Variable ensure_ascii : bool.

Definition newline_indent (level : nat) : pystr :=
  match indent with
  | Some n => 10%N :: List.repeat 32%N (n * level)
  | None => []
  end.

Definition item_separator (level : nat) : pystr :=
  match indent with
  | Some _ => 44%N :: newline_indent level
  | None => py ", "
  end.

Definition bracket (open close : N) (level : nat) (items : list pystr)
  : pystr :=
  match items with
  | [] => [open; close]
  | _ =>
    open :: newline_indent (S level)
    ++ join (item_separator (S level)) items
    ++ newline_indent level ++ [close]
  end.

Fixpoint dump (level : nat) (v : pyval) {struct v} : pystr :=
  match v with
  | PyNone => py "null"
  | PyBool true => py "true"
  | PyBool false => py "false"
  | PyInt z => Ref.Z_repr z
  | PyFloat f => float_literal f
  | PyStr s => quote ensure_ascii s
  | PyList l =>
    bracket 91 93 level
      ((fix items (l : list pyval) : list pystr :=
          match l with
          | [] => []
          | x :: r => dump (S level) x :: items r
          end) l)
  | PyDict d =>
    bracket 123 125 level
      ((fix members (d : list (pystr * pyval)) : list pystr :=
          match d with
          | [] => []
          | (k, x) :: r =>
            (quote ensure_ascii k ++ py ": " ++ dump (S level) x) :: members r
          end) d)
  end.

End Dumps.

(** [json.dumps(v, ensure_ascii=False, indent=2)] *)
Definition dumps_indent2 (v : pyval) : pystr := dump (Some 2%nat) false 0 v.
(** [json.dumps(v)] *)
Definition dumps (v : pyval) : pystr := dump None true 0 v.

(** **** Reading *)

Definition is_ws (c : N) : bool :=
  ((c =? 32) || (c =? 9) || (c =? 10) || (c =? 13))%N.

Fixpoint skip_ws (s : pystr) : pystr :=
  match s with
  | c :: r => if is_ws c then skip_ws r else s
  | [] => []
  end.

Definition hex_value (c : N) : option N :=
  if Ref.is_digit c then Some (c - 48)%N
  else if ((97 <=? c) && (c <=? 102))%N then Some (c - 87)%N
  else if ((65 <=? c) && (c <=? 70))%N then Some (c - 55)%N
  else None.

Definition hex4 (s : pystr) : option (N * pystr) :=
  match s with
  | a :: b :: c :: d :: r =>
    match hex_value a, hex_value b, hex_value c, hex_value d with
    | Some a, Some b, Some c, Some d =>
      Some ((a * 4096 + b * 256 + c * 16 + d)%N, r)
    | _, _, _, _ => None
    end
  | _ => None
  end.

(** The characters of a string literal after its opening quote; [fuel]
    bounds the scan. *)
Fixpoint parse_string (fuel : nat) (s : pystr) : option (pystr * pystr) :=
  match fuel with
  | O => None
  | S fuel =>
    match s with
    | [] => None
    | c :: r =>
      if (c =? 34)%N then Some ([], r)
      else if (c =? 92)%N then
        match r with
        | e :: r' =>
          let simple (x : N) :=
            match parse_string fuel r' with
            | Some (t, rest) => Some (x :: t, rest)
            | None => None
            end in
          if (e =? 34)%N then simple 34%N
          else if (e =? 92)%N then simple 92%N
          else if (e =? 47)%N then simple 47%N
          else if (e =? 98)%N then simple 8%N
          else if (e =? 102)%N then simple 12%N
          else if (e =? 110)%N then simple 10%N
          else if (e =? 114)%N then simple 13%N
          else if (e =? 116)%N then simple 9%N
          else if (e =? 117)%N then
            match hex4 r' with
            | Some (hi, r'') =>
              let pair :=
                if ((55296 <=? hi) && (hi <? 56320))%N then
                  match r'' with
                  | 92%N :: 117%N :: r3 =>
                    match hex4 r3 with
                    | Some (lo, r4) =>
                      if ((56320 <=? lo) && (lo <? 57344))%N
                      then Some ((65536 + (hi - 55296) * 1024 + (lo - 56320))%N, r4)
                      else None
                    | None => None
                    end
                  | _ => None
                  end
                else None in
              let '(cp, after) := default (hi, r'') pair in
              match parse_string fuel after with
              | Some (t, rest) => Some (cp :: t, rest)
              | None => None
              end
            | None => None
            end
          else None
        | [] => None
        end
      else if (c <? 32)%N then None
      else
        match parse_string fuel r with
        | Some (t, rest) => Some (c :: t, rest)
        | None => None
        end
    end
  end.

(** A number literal: an optional minus, an integer part without leading
    zeros, an optional fraction and an optional exponent. *)
Definition parse_number (s : pystr) : option (pyval * pystr) :=
  let '(neg, r) :=
    match s with
    | 45%N :: r => (true, r)
    | _ => (false, s)
    end in
  let '(ip, r) := Ref.span_digits r in
  let int_ok :=
    match ip with
    | [] => false
    | [_] => true
    | d :: _ => negb (d =? 48)%N
    end in
  if negb int_ok then None
  else
    let '(fp, r1, has_frac) :=
      match r with
      | 46%N :: r' =>
        let '(fp, r'') := Ref.span_digits r' in
        match fp with
        | [] => ([], r, false)
        | _ => (fp, r'', true)
        end
      | _ => ([], r, false)
      end in
    let '(ex, r2, has_exp) :=
      match r1 with
      | c :: r' =>
        if ((c =? 101) || (c =? 69))%N then
          let '(eneg, r'') :=
            match r' with
            | 45%N :: x => (true, x)
            | 43%N :: x => (false, x)
            | _ => (false, r')
            end in
          let '(ds, r3) := Ref.span_digits r'' in
          match ds with
          | [] => (0, r1, false)
          | _ => (if eneg then - Ref.digits_value ds else Ref.digits_value ds,
                  r3, true)
          end
        else (0, r1, false)
      | [] => (0, r1, false)
      end in
    if has_frac || has_exp then
      Some (PyFloat (Ref.float_of_decimal neg (Ref.digits_value (ip ++ fp))
                                          (ex - Z.of_nat (length fp))), r2)
    else
      Some (PyInt (if neg then - Ref.digits_value ip else Ref.digits_value ip), r2).

Definition strip_prefix (prefix s : pystr) : option pystr :=
  if startswith s prefix then Some (drop (length prefix) s) else None.

(** One JSON value at the head of [s]; the members of an object; the
    elements of an array. *)
Fixpoint parse_value (fuel : nat) (s : pystr) : option (pyval * pystr) :=
  match fuel with
  | O => None
  | S fuel =>
    match skip_ws s with
    | [] => None
    | c :: r =>
      if (c =? 123)%N then
        match skip_ws r with
        | 125%N :: r' => Some (PyDict [], r')
        | _ => parse_members fuel r []
        end
      else if (c =? 91)%N then
        match skip_ws r with
        | 93%N :: r' => Some (PyList [], r')
        | _ => parse_elements fuel r []
        end
      else if (c =? 34)%N then
        match parse_string (S (length r)) r with
        | Some (t, rest) => Some (PyStr t, rest)
        | None => None
        end
      else
        let s' := c :: r in
        match strip_prefix (py "null") s' with
        | Some rest => Some (PyNone, rest)
        | None =>
        match strip_prefix (py "true") s' with
        | Some rest => Some (PyBool true, rest)
        | None =>
        match strip_prefix (py "false") s' with
        | Some rest => Some (PyBool false, rest)
        | None =>
        match strip_prefix (py "NaN") s' with
        | Some rest => Some (PyFloat S754_nan, rest)
        | None =>
        match strip_prefix (py "Infinity") s' with
        | Some rest => Some (PyFloat (S754_infinity false), rest)
        | None =>
        match strip_prefix (py "-Infinity") s' with
        | Some rest => Some (PyFloat (S754_infinity true), rest)
        | None => parse_number s'
        end end end end end end
    end
  end
with parse_members (fuel : nat) (s : pystr) (acc : list (pystr * pyval))
  : option (pyval * pystr) :=
  match fuel with
  | O => None
  | S fuel =>
    match skip_ws s with
    | 34%N :: r =>
      match parse_string (S (length r)) r with
      | Some (k, r1) =>
        match skip_ws r1 with
        | 58%N :: r2 =>
          match parse_value fuel r2 with
          | Some (v, r3) =>
            let acc := assoc_set acc k v in
            match skip_ws r3 with
            | 44%N :: r4 => parse_members fuel r4 acc
            | 125%N :: r4 => Some (PyDict acc, r4)
            | _ => None
            end
          | None => None
          end
        | _ => None
        end
      | None => None
      end
    | _ => None
    end
  end
with parse_elements (fuel : nat) (s : pystr) (acc : list pyval)
  : option (pyval * pystr) :=
  match fuel with
  | O => None
  | S fuel =>
    match parse_value fuel s with
    | Some (v, r) =>
      match skip_ws r with
      | 44%N :: r' => parse_elements fuel r' (acc ++ [v])
      | 93%N :: r' => Some (PyList (acc ++ [v]), r')
      | _ => None
      end
    | None => None
    end
  end.

(** [json.loads(s)]; [None] is [JSONDecodeError]. *)
Definition loads (s : pystr) : option pyval :=
  match parse_value (2 * length s + 2) s with
  | Some (v, rest) =>
    match skip_ws rest with
    | [] => Some v
    | _ => None
    end
  | None => None
  end.

End Json.

(** *** [urllib.parse.quote_plus] and the record of reference functions *)

Module RefRuntime.

Definition utf8_encode_char (c : N) : list N :=
  (if c <? 128 then [c]
   else if c <? 2048 then [192 + c / 64; 128 + c mod 64]
   else if c <? 65536 then
     [224 + c / 4096; 128 + (c / 64) mod 64; 128 + c mod 64]
   else [240 + c / 262144; 128 + (c / 4096) mod 64;
         128 + (c / 64) mod 64; 128 + c mod 64])%N.

Definition upper_hex (n : N) : N :=
  if (n <? 10)%N then (48 + n)%N else (55 + n)%N.

Definition percent_byte (b : N) : pystr :=
  [37%N; upper_hex (b / 16); upper_hex (b mod 16)].

Definition is_unreserved (c : N) : bool :=
  ((65 <=? c) && (c <=? 90) || (97 <=? c) && (c <=? 122)
   || (48 <=? c) && (c <=? 57)
   || (c =? 95) || (c =? 46) || (c =? 45) || (c =? 126))%N.

Definition percent_encode_plus (s : pystr) : pystr :=
  List.concat
    (List.map (fun c =>
       if (c =? 32)%N then [43%N]
       else if is_unreserved c then [c]
       else List.concat (List.map percent_byte (utf8_encode_char c))) s).

Definition python : runtime := {|
  str_lower := lower_latin1;
  float_of_str := Ref.float_of_str;
  json_dumps := Json.dumps_indent2;
  json_dumps_compact := Json.dumps;
  json_loads := Json.loads;
  quote_plus := percent_encode_plus
|}.

End RefRuntime.

(** ** What the specification describes, for comparison *)

Module Spec.

(** Atomic file replacement: the text goes to a temporary file, which is
    then renamed over the document. *)
Definition atomic_replace_ops (tmp path text : pystr) : list fs_op :=
  [FsTruncate tmp; FsAppend tmp text; FsRename tmp path].

(** A process killed after any number of the operations leaves under
    [path] either what was there before or what is there at the end. *)
Definition crash_safe (ops : list fs_op) (path : pystr)
    (fs : gmap pystr pystr) : Prop :=
  forall k : nat,
    fs_after k ops fs !! path = fs !! path \/
    fs_after k ops fs !! path = fs_after (length ops) ops fs !! path.

(** The resolution order of section 4.3, on what a response shows. *)
Inductive resolution :=
| ParseThisPage          (* steps 1 and 3: parse the response itself *)
| FollowFirstCandidate   (* step 2 *)
| NotFound.              (* step 4 *)

Definition resolution_order (is_detail_page has_candidate has_embedded_rating : bool)
  : resolution :=
  if is_detail_page then ParseThisPage
  else if has_candidate then FollowFirstCandidate
  else if has_embedded_rating then ParseThisPage
  else NotFound.

End Spec.

(** ** Notions the properties are stated with *)

(** The characters a key is made of: [a-z], [0-9] and the space. *)
Definition is_key_char (c : N) : bool :=
  ((97 <=? c) && (c <=? 122) || (48 <=? c) && (c <=? 57) || (c =? 32))%N.

(** What the twelve replacements of [reemplazos] do to one character. *)
Definition unaccent (c : N) : N :=
  (if c =? 225 then 97 else if c =? 233 then 101 else if c =? 237 then 105
   else if c =? 243 then 111 else if c =? 250 then 117
   else if c =? 241 then 110 else if c =? 224 then 97
   else if c =? 232 then 101 else if c =? 236 then 105
   else if c =? 242 then 111 else if c =? 249 then 117
   else if c =? 252 then 117 else c)%N.

(** A character that normalisation deletes: after the replacements it is
    neither in [a-z0-9] nor whitespace. *)
Definition is_deleted (c : N) : bool := negb (Re.in_az09s (unaccent c)).

(** No whitespace but single spaces; [after_space] tells that a space
    came just before. *)
Fixpoint squeezed (after_space : bool) (s : pystr) : bool :=
  match s with
  | [] => true
  | c :: r =>
    if isspace c
    then (c =? SPACE)%N && negb after_space && squeezed true r
    else squeezed false r
  end.

(** A string that does not start with whitespace. *)
Definition no_lead (s : pystr) : Prop :=
  match s with
  | c :: _ => isspace c = false
  | [] => True
  end.

(** One difference that normalisation ignores, between two lower-cased
    titles: an accent of the table, a deleted character, or whitespace. *)
Inductive tweak : pystr -> pystr -> Prop :=
| tweak_accent (u v : pystr) (a b : N) :
    In ([a], [b]) reemplazos -> tweak (u ++ a :: v) (u ++ b :: v)
| tweak_deleted (u v : pystr) (c : N) :
    is_deleted c = true -> tweak (u ++ c :: v) (u ++ v)
| tweak_space_kind (u v : pystr) (c : N) :
    isspace c = true -> tweak (u ++ c :: v) (u ++ SPACE :: v)
| tweak_space_run (u v : pystr) :
    tweak (u ++ SPACE :: SPACE :: v) (u ++ SPACE :: v)
| tweak_space_lead (v : pystr) : tweak (SPACE :: v) v
| tweak_space_trail (u : pystr) : tweak (u ++ [SPACE]) u.

(** Two titles that differ only in letter case, in accents of the table,
    in deleted characters and in whitespace. *)
Definition same_title (lower : pystr -> pystr) (x y : pystr) : Prop :=
  rtsc tweak (lower x) (lower y).

(** A computation that leaves the files alone, and one that returns
    whatever the world answers. *)
Definition keeps_files {A} (c : M A) : Prop :=
  forall w, files (snd (c w)) = files w.

Definition never_raises {A} (c : M A) : Prop :=
  forall w, exists a, fst (c w) = Ret a.

(** The requests of a trace, and its waits of a fixed length. *)
Definition gets (tr : list event) : list pystr :=
  flat_map (fun ev => match ev with EvGet target => [target] | _ => [] end) tr.



(** The world after more events. *)
Definition extend (w : world) (evs : list event) : world :=
  {| files := files w; trace := trace w ++ evs |}.

(** The link that lines 257-265 of scraper.py follow: that of the first
    result card, made absolute; empty when there is none. *)
Definition card_link (soup : element) : pystr :=
  match select_one soup (py ".se-it, .movie-card, [data-movie-id]") with
  | Some card =>
    match select_one card (py "a[href*='/film']") with
    | Some movie_link => Scraper.absolute_url (attr_get movie_link (py "href"))
    | None => []
    end
  | None => []
  end.

(** The link that lines 273-279 follow: the first link to a film
    anywhere in the page. *)
Definition first_film_link (soup : element) : pystr :=
  match select_one soup (py "a[href*='/es/film']") with
  | Some first_movie => Scraper.absolute_url (attr_get first_movie (py "href"))
  | None => []
  end.

(** [return get_filmaffinity_details(movie_url)] *)
Definition follow (R : runtime) (E : env) (movie_url : pystr)
  : M Scraper.attempt_end :=
  r <- Scraper.get_filmaffinity_details R E movie_url;; ret (Scraper.Return r).

(** The search URL of movie_notifier.py. *)
Definition notifier_search_url (movie_title : pystr) : pystr :=
  py "https://www.filmaffinity.com/es/search.php?stext="
  ++ str_replace movie_title (py " ") (py "+").

(** What the three tests of section 4.3 see in a response of
    movie_notifier.py. *)
Definition is_detail_page (r : response) : bool :=
  str_contains (resp_url r) (py "movie.php").
Definition has_candidate (r : response) : bool :=
  match select (resp_soup r) (py ".se-it .mc-title a") with
  | [] => false
  | _ => true
  end.
Definition has_embedded_rating (r : response) : bool :=
  match select_one (resp_soup r) (py "find:div#movie-rat-avg") with
  | Some _ => true
  | None => false
  end.

(** [historial["peliculas"]], when the history is a dict that holds a dict
    there. *)
Definition peliculas_de (historial : pyval) : option (list (pystr * pyval)) :=
  match historial with
  | PyDict d =>
    match assoc_get d (py "peliculas") with
    | Some (PyDict p) => Some p
    | _ => None
    end
  | _ => None
  end.

(** The record that [agregar_al_historial] stores. *)
Definition registro (titulo : pystr) (nota : pyval) (fecha : pystr)
    (notificado : bool) : pyval :=
  PyDict [ (py "titulo", PyStr titulo); (py "nota", nota);
           (py "fecha", PyStr fecha); (py "notificado", PyBool notificado) ].

(** The key of a title in the history. *)
Definition clave (R : runtime) (titulo_limpio : pystr) : pystr :=
  normalizar_titulo (str_lower R) titulo_limpio.

(** Every value that a computation returns satisfies [P]. *)
Definition yields {A} (P : A -> Prop) (c : M A) : Prop :=
  forall w a, fst (c w) = Ret a -> P a.

(** A result of the lookup with a rating that counts as one. *)
Definition rated (r : option movie_info) : Prop :=
  forall info, r = Some info -> Scraper.rating_truthy (mi_rating info) = true.

(** [ya_analizada] on the dict of films. *)
Definition en_historial (R : runtime) (p : list (pystr * pyval))
    (t : title_info) : bool :=
  bool_decide (is_Some (assoc_get p (clave R (clean_title t)))).

(** The titles of a listing that a history does not hold. *)
Definition titulos_nuevos (R : runtime) (p : list (pystr * pyval))
    (titles : list title_info) : list title_info :=
  List.filter (fun t => negb (en_historial R p t)) titles.


(** ** Concrete worlds *)

Module Demo.

Definition empty_page : element := Element [] [] [].

(** An environment without faults, whose web answers by URL alone. *)
Definition env_of (http : pystr -> http_result) (titles : list title_info)
    (torrents : list (pystr * pystr)) : env := {|
  http_get := fun _ target => http target;
  read_fails := fun _ => false;
  write_faults := fun _ => NoFault;
  fecha_hoy := fun _ => py "2024-01-15";
  mejortorrent_titles := fun _ => titles;
  telegram_token := Some (py "token");
  telegram_chat_id := Some (py "chat");
  telegram_post_ok := fun _ => true;
  scraped_torrents := fun _ => torrents;
  PROCESSED_FILE := py "processed_torrents.json";
  RATING_THRESHOLD := Scraper.MIN_RATING
|}.

Definition offline : pystr -> http_result := fun _ => ConnectionFailed.

Definition answer (status : Z) (final_url : pystr) (page : element)
  : http_result :=
  Answer {| status_code := status; resp_url := final_url; resp_soup := page |}.


Definition title (s : string) : title_info :=
  {| original_title := py s; clean_title := py s; url := py "/pelicula/1/x" |}.

Definition empty_world : world := {| files := ∅; trace := [] |}.

Definition registro (titulo : string) (nota : pyval) (notificado : bool)
  : pyval :=
  PyDict [ (py "titulo", PyStr (py titulo)); (py "nota", nota);
           (py "fecha", PyStr (py "2024-01-15"));
           (py "notificado", PyBool notificado) ].

(** A history with one film, and the world in which it is persisted. *)
Definition historial_dune : pyval :=
  PyDict [ (py "peliculas",
            PyDict [ (py "dune",
                      registro "Dune"
                        (PyFloat (S754_finite false 8782019273372467 (-50)))
                        true) ]) ].

Definition world_dune : world :=
  {| files := {[ Scraper.HISTORIAL_FILE := Json.dumps_indent2 historial_dune ]};
     trace := [] |}.

(** The same history with a second film. *)
Definition historial_dune_alien : pyval :=
  PyDict [ (py "peliculas",
            PyDict [ (py "dune",
                      registro "Dune"
                        (PyFloat (S754_finite false 8782019273372467 (-50)))
                        true);
                     (py "alien", registro "Alien" (PyInt 0) false) ]) ].



(** A page whose rating element reads [rating_text]. *)
Definition rated_page (rating_text : string) : element :=
  Element [] []
    [ (py "#movie-rat-avg", [Element (py rating_text) [] []]);
      (py "find:div#movie-rat-avg", [Element (py rating_text) [] []]) ].

Definition film_link : element :=
  Element (py "Dune") [(py "href", py "/es/film123.html")] [].

(** A page without result card and without rating, with a link to a
    film; and the same page with a rating. *)
Definition page_with_link : element :=
  Element [] [] [ (py "a[href*='/es/film']", [film_link]) ].

Definition rated_page_with_link : element :=
  Element [] []
    [ (py "#movie-rat-avg", [Element (py "7,5") [] []]);
      (py "a[href*='/es/film']", [film_link]) ].

(** A results page with one card. *)
Definition results_page : element :=
  Element [] []
    [ (py ".se-it, .movie-card, [data-movie-id]",
       [Element [] [] [ (py "a[href*='/film']", [film_link]) ]]);
      (py ".se-it .mc-title a", [film_link]) ].

Definition film_url : pystr := py "https://www.filmaffinity.com/es/film123.html".

(** A web with one film, rated 8,1: every page answers with status 200
    and without redirect; the film's page is [rated_page "8,1"], every
    other page is [listing]. *)
Definition web (listing : element) : pystr -> http_result :=
  fun target =>
    if pystr_eqb target film_url then answer 200 target (rated_page "8,1")
    else answer 200 target listing.

(** What the lookup reads from [rated_page "8,1"] at [film_url], and the
    floats 8.1 and 6.9. *)
Definition float_8_1 : spec_float := S754_finite false 4559894622712627 (-49).
Definition float_6_9 : spec_float := S754_finite false 7768709357214106 (-50).

Definition info_dune : movie_info :=
  {| mi_url := film_url; mi_title := py "Desconocido";
     mi_rating := Some float_8_1; mi_genre := py "No especificado";
     mi_platforms := [py "No disponible en streaming"] |}.

Definition page_info_dune : Notifier.page_info :=
  {| Notifier.pi_title := py "Unknown"; Notifier.pi_rating := float_8_1;
     Notifier.pi_genres := py "N/A"; Notifier.pi_available := py "N/A";
     Notifier.pi_url := film_url |}.

Definition st0 : Scraper.locals :=
  {| Scraper.historial := Scraper.historial_vacio; Scraper.saltadas := 0;
     Scraper.nuevas_analizadas := 0; Scraper.good_movies := [] |}.

(** The same web with another page for the film. *)
Definition web_of (film_page listing : element) : pystr -> http_result :=
  fun target =>
    if pystr_eqb target film_url then answer 200 target film_page
    else answer 200 target listing.

(** A listing of 21 titles, one more than a run processes. *)
Definition titles21 : list title_info :=
  List.map title
    [ "Alpha"; "Bravo"; "Charlie"; "Delta"; "Echo"; "Foxtrot"; "Golf";
      "Hotel"; "India"; "Juliett"; "Kilo"; "Lima"; "Mike"; "November";
      "Oscar"; "Papa"; "Quebec"; "Romeo"; "Sierra"; "Tango"; "Uniform" ]%string.

End Demo.

(** ** Notions for the further properties *)

(** What a computation adds to the trace: events that all satisfy [P];
    and at most [n] requests. *)
Definition emits {A} (P : event -> Prop) (c : M A) : Prop :=
  forall w, exists evs,
    trace (snd (c w)) = trace w ++ evs /\ Forall P evs.

Definition requests_at_most {A} (n : nat) (c : M A) : Prop :=
  forall w, exists evs,
    trace (snd (c w)) = trace w ++ evs /\ (length (gets evs) <= n)%nat.

(** The messages of a trace. *)
Definition telegrams (tr : list event) : list (pystr * movie_info) :=
  flat_map (fun ev => match ev with
                      | EvTelegram original info => [(original, info)]
                      | _ => []
                      end) tr.

Definition is_telegram (ev : event) : bool :=
  match ev with EvTelegram _ _ => true | _ => false end.

Definition is_request (ev : event) : bool :=
  match ev with EvGet _ => true | _ => false end.



(** The rating that one selector of [extract_rating] gives: the text of
    its first element, with the comma as decimal point, when it parses. *)
Definition rating_at (R : runtime) (soup : element) (selector : pystr)
  : option spec_float :=
  match select_one soup selector with
  | Some elem =>
    float_of_str R (str_replace (get_text_strip elem) (py ",") (py "."))
  | None => None
  end.

(** ** More concrete worlds *)

Module Demo2.

(** An environment whose web answers 429 to the first request and then
    serves [page] with status 200. *)
Definition env_429_once (page : element) : env := {|
  http_get := fun tr target =>
    if existsb is_request tr then Demo.answer 200 target page
    else Demo.answer 429 target Demo.empty_page;
  read_fails := fun _ => false;
  write_faults := fun _ => NoFault;
  fecha_hoy := fun _ => py "2024-01-15";
  mejortorrent_titles := fun _ => [];
  telegram_token := Some (py "token");
  telegram_chat_id := Some (py "chat");
  telegram_post_ok := fun _ => true;
  scraped_torrents := fun _ => [];
  PROCESSED_FILE := py "processed_torrents.json";
  RATING_THRESHOLD := Scraper.MIN_RATING
|}.

End Demo2.

(** A film that [main] keeps for notification: its rating reaches
    [MIN_RATING]. *)
Definition notable (movie : pystr * movie_info) : Prop :=
  exists rating,
    mi_rating (snd movie) = Some rating
    /\ float_ge rating Scraper.MIN_RATING = true.

(** [get_telegram_config] gives a token and a chat id: both variables
    are set and not empty. *)
Definition telegram_configured (E : env) : bool :=
  match telegram_token E, telegram_chat_id E with
  | Some (_ :: _), Some (_ :: _) => true
  | _, _ => false
  end.

(** What sending the notifications of [movies] adds to the trace. *)
Definition envios (movies : list (pystr * movie_info)) : list event :=
  flat_map (fun movie => [EvTelegram (fst movie) (snd movie); EvSleepHalf])
           movies.

(** ** scraper.py: the listing of MejorTorrent *)

Module Listing.

Definition MEJORTORRENT_URL : pystr :=
  py "https://www40.mejortorrent.eu/torrents".

Section Program.

Variable E : env.
(** [\d] of Python's [re] on a [str]: the decimal digits of Unicode. *)
Variable isdecimal : N -> bool.
(** [clean_title_for_search] *)
Variable clean_title_for_search : pystr -> pystr.

Definition digit_at (s : pystr) : bool :=
  match s with
  | c :: _ => isdecimal c
  | [] => false
  end.

(** A match of the pattern at the start of [s]. *)
Definition id_at (s : pystr) : bool :=
  startswith s (py "/pelicula/") && digit_at (drop 10 s)
  || startswith s (py "/serie/") && digit_at (drop 7 s).

(** [re.search(r'/(pelicula|serie)/\d+', href)] finds a match. *)
Fixpoint has_numeric_id (href : pystr) : bool :=
  match href with
  | [] => false
  | _ :: r => id_at href || has_numeric_id r
  end.

(** The loop over the links; [seen] holds the titles taken so far. *)
Fixpoint titulos_de_enlaces (links : list element) (seen : list pystr)
  : list title_info :=
  match links with
  | [] => []
  | link :: rest =>
    let href := attr_get link (py "href") in
    if negb (has_numeric_id href) then titulos_de_enlaces rest seen
    else
      let title := get_text_strip link in
      if negb (bool_decide (title = []))
         && bool_decide (3 < length title)%nat
         && negb (existsb (pystr_eqb title) seen)
      then
        let clean_title := clean_title_for_search title in
        match clean_title with
        | [] => titulos_de_enlaces rest seen
        | _ :: _ =>
          {| original_title := title; clean_title := clean_title;
             url := href |}
          :: titulos_de_enlaces rest (title :: seen)
        end
      else titulos_de_enlaces rest seen
  end.

(** [get_mejortorrent_titles()] *)
Definition get_mejortorrent_titles : M (list title_info) :=
  try_except
    (response <- Scraper.scraper_get E MEJORTORRENT_URL;;
     Scraper.raise_for_status response;;;
     let soup := resp_soup response in
     let links := select soup (py "a[href*='/pelicula/'], a[href*='/serie/']") in
     ret (titulos_de_enlaces links []))
    is_RequestException
    (fun _ => ret []).

End Program.

End Listing.

Module Demo3.

Definition ascii_digit (c : N) : bool := ((48 <=? c) && (c <=? 57))%N.

Definition enlace (texto href : string) : element :=
  Element (py texto) [(py "href", py href)] [].

(** A listing with a navigation link, a title that occurs twice and a
    title that is too short. *)
Definition portada : element :=
  Element [] []
    [ (py "a[href*='/pelicula/'], a[href*='/serie/']",
       [ enlace "Peliculas" "/pelicula/estrenos";
         enlace " Dune (2021) " "/pelicula/101/dune";
         enlace "Dune (2021)" "/pelicula/102/dune-hd";
         enlace "Up" "/pelicula/103/up";
         enlace "Alien" "/serie/7/12/alien" ]) ].

End Demo3.

Example reemplazos_codepoints :
  reemplazos =
  [ ([225], [97]); ([233], [101]); ([237], [105]); ([243], [111]);
    ([250], [117]); ([241], [110]); ([224], [97]); ([232], [101]);
    ([236], [105]); ([242], [111]); ([249], [117]); ([252], [117]) ]%N.
Proof. reflexivity. Qed.

(** * Properties *)

(** ** Strings *)

Section StringFacts.

Ltac boolN H :=
  rewrite ?orb_true_iff, ?andb_true_iff, ?orb_false_iff, ?andb_false_iff,
    ?negb_true_iff, ?negb_false_iff,
    ?N.leb_le, ?N.eqb_eq, ?N.leb_gt, ?N.eqb_neq in H.

Ltac split_eqb tac :=
  repeat match goal with
         | |- context [N.eqb ?a ?b] =>
           destruct (N.eqb_spec a b); [solve [tac]|]
         end.

Lemma isspace_SPACE : isspace SPACE = true.
Proof. reflexivity. Qed.

Lemma key_char_in_class c : is_key_char c = true -> Re.in_az09s c = true.
Proof.
  unfold is_key_char, Re.in_az09s. intros H.
  destruct ((97 <=? c) && (c <=? 122) || (48 <=? c) && (c <=? 57))%N eqn:E;
    [reflexivity|].
  simpl in *. apply N.eqb_eq in H. subst c. reflexivity.
Qed.

Lemma key_char_space c :
  is_key_char c = true -> isspace c = true -> c = SPACE.
Proof.
  unfold is_key_char, isspace, SPACE. intros H1 H2.
  boolN H1. boolN H2. lia.
Qed.

Lemma class_nonspace_key c :
  Re.in_az09s c = true -> isspace c = false -> is_key_char c = true.
Proof.
  unfold Re.in_az09s, is_key_char. intros H1 H2. rewrite H2 in H1.
  rewrite orb_false_r in H1. rewrite H1. reflexivity.
Qed.

Lemma unaccent_key c : is_key_char c = true -> unaccent c = c.
Proof.
  unfold is_key_char, unaccent. intros H. boolN H.
  split_eqb lia. reflexivity.
Qed.

Lemma unaccent_space c : isspace c = true -> unaccent c = c.
Proof.
  unfold isspace, unaccent. intros H. boolN H.
  split_eqb lia. reflexivity.
Qed.

Lemma unaccent_nonspace c : isspace c = false -> isspace (unaccent c) = false.
Proof.
  unfold unaccent. intros H.
  split_eqb ltac:(subst; reflexivity). exact H.
Qed.

Lemma unaccent_idem c : unaccent (unaccent c) = unaccent c.
Proof.
  unfold unaccent at 2 3.
  split_eqb ltac:(subst; reflexivity).
  unfold unaccent. split_eqb congruence. reflexivity.
Qed.

(** *** [strip] *)


Lemma lstrip_no_lead s : no_lead (lstrip s).
Proof.
  induction s as [|c r IH]; simpl; [exact I|].
  destruct (isspace c) eqn:E; [exact IH|exact E].
Qed.

Lemma lstrip_fix s : no_lead s -> lstrip s = s.
Proof. destruct s as [|c r]; simpl; [reflexivity|]. intros ->. reflexivity. Qed.

Lemma rstrip_no_lead s : no_lead s -> no_lead (rstrip s).
Proof.
  destruct s as [|c r]; simpl; [exact id|]. intros H.
  destruct (rstrip r); [rewrite H|]; exact H.
Qed.

Lemma rstrip_app P Y :
  rstrip (P ++ Y) =
  match rstrip Y with
  | [] => rstrip P
  | y => P ++ y
  end.
Proof.
  induction P as [|c P IH]; simpl.
  - destruct (rstrip Y); reflexivity.
  - rewrite IH. destruct (rstrip Y) as [|y0 y]; [reflexivity|].
    destruct P; reflexivity.
Qed.

Lemma rstrip_idem s : rstrip (rstrip s) = rstrip s.
Proof.
  induction s as [|c r IH]; simpl; [reflexivity|].
  destruct (rstrip r) as [|r0 r'] eqn:E.
  - destruct (isspace c) eqn:Ec; simpl; [reflexivity|]. rewrite Ec. reflexivity.
  - change (rstrip (c :: r0 :: r') = c :: r0 :: r').
    simpl. simpl in IH. rewrite IH. reflexivity.
Qed.

Lemma strip_idem s : strip (strip s) = strip s.
Proof.
  unfold strip. rewrite (lstrip_fix (rstrip (lstrip s))).
  - apply rstrip_idem.
  - apply rstrip_no_lead, lstrip_no_lead.
Qed.

Lemma lstrip_Forall (P : N -> Prop) s : Forall P s -> Forall P (lstrip s).
Proof.
  induction 1 as [|c r Hc Hr IH]; simpl; [constructor|].
  destruct (isspace c); [exact IH|constructor; assumption].
Qed.

Lemma rstrip_Forall (P : N -> Prop) s : Forall P s -> Forall P (rstrip s).
Proof.
  induction 1 as [|c r Hc Hr IH]; simpl; [constructor|].
  destruct (rstrip r) as [|r0 r'].
  - destruct (isspace c); repeat constructor; assumption.
  - constructor; assumption.
Qed.

Lemma strip_Forall (P : N -> Prop) s : Forall P s -> Forall P (strip s).
Proof. intros H. apply rstrip_Forall, lstrip_Forall, H. Qed.

(** *** The two substitutions *)

Lemma sub_non_az09s_class s :
  Forall (fun c => Re.in_az09s c = true) (Re.sub_non_az09s s).
Proof.
  induction s as [|c r IH]; simpl; [constructor|].
  destruct (Re.in_az09s c) eqn:E; [constructor; assumption|exact IH].
Qed.

Lemma sub_non_az09s_fix s :
  Forall (fun c => Re.in_az09s c = true) s -> Re.sub_non_az09s s = s.
Proof.
  induction 1 as [|c r Hc Hr IH]; simpl; [reflexivity|].
  rewrite Hc, IH. reflexivity.
Qed.

Lemma sub_non_az09s_app s t :
  Re.sub_non_az09s (s ++ t) = Re.sub_non_az09s s ++ Re.sub_non_az09s t.
Proof.
  induction s as [|c r IH]; simpl; [reflexivity|].
  destruct (Re.in_az09s c); simpl; rewrite IH; reflexivity.
Qed.

Lemma sub_ws_from_key b s :
  Forall (fun c => Re.in_az09s c = true) s ->
  Forall (fun c => is_key_char c = true) (Re.sub_ws_from b s).
Proof.
  intros H. revert b. induction H as [|c r Hc Hr IH]; intros b; simpl;
    [constructor|].
  destruct (isspace c) eqn:E.
  - destruct b; [apply IH|constructor; [reflexivity|apply IH]].
  - constructor; [apply class_nonspace_key; assumption|apply IH].
Qed.

Lemma sub_ws_from_no_lead s : no_lead (Re.sub_ws_from true s).
Proof.
  induction s as [|c r IH]; simpl; [exact I|].
  destruct (isspace c) eqn:E; [exact IH|exact E].
Qed.

Lemma sub_ws_from_squeezed b s : squeezed b (Re.sub_ws_from b s) = true.
Proof.
  revert b. induction s as [|c r IH]; intros b; simpl; [reflexivity|].
  destruct (isspace c) eqn:E.
  - destruct b; [apply IH|]. simpl. apply IH.
  - simpl. rewrite E. apply IH.
Qed.

Lemma squeezed_fix b s : squeezed b s = true -> Re.sub_ws_from b s = s.
Proof.
  revert b. induction s as [|c r IH]; intros b; simpl; [reflexivity|].
  destruct (isspace c) eqn:E; intros H.
  - apply andb_true_iff in H as [H Hr]. apply andb_true_iff in H as [Hc Hb].
    apply N.eqb_eq in Hc. apply negb_true_iff in Hb. subst b c.
    rewrite (IH true Hr). reflexivity.
  - rewrite (IH false H). reflexivity.
Qed.

Lemma squeezed_weaken s : squeezed true s = true -> squeezed false s = true.
Proof.
  destruct s as [|c r]; simpl; [reflexivity|].
  destruct (isspace c); [|exact id].
  rewrite andb_false_r. discriminate.
Qed.

Lemma lstrip_squeezed s : squeezed false s = true -> squeezed false (lstrip s) = true.
Proof.
  induction s as [|c r IH]; simpl; [reflexivity|].
  destruct (isspace c) eqn:E; intros H.
  - apply andb_true_iff in H as [_ Hr]. apply IH, squeezed_weaken, Hr.
  - simpl. rewrite E. exact H.
Qed.

Lemma rstrip_squeezed b s : squeezed b s = true -> squeezed b (rstrip s) = true.
Proof.
  revert b. induction s as [|c r IH]; intros b; simpl; [reflexivity|].
  intros H. destruct (rstrip r) as [|r0 r'] eqn:Er.
  - destruct (isspace c) eqn:E; [reflexivity|]. simpl. rewrite E. reflexivity.
  - remember (r0 :: r') as R eqn:ER. clear ER.
    simpl. destruct (isspace c) eqn:E.
    + apply andb_true_iff in H as [H Hr]. rewrite H. apply IH, Hr.
    + apply IH, H.
Qed.

Lemma strip_squeezed s : squeezed false s = true -> squeezed false (strip s) = true.
Proof. intros H. apply rstrip_squeezed, lstrip_squeezed, H. Qed.

(** *** The replacements *)

Lemma startswith_nil s : startswith s [] = true.
Proof. destruct s; reflexivity. Qed.

Lemma replace_single a b s :
  replace_from [a] [b] 0 s = List.map (fun c => if (c =? a)%N then b else c) s.
Proof.
  induction s as [|c r IH]; simpl; [reflexivity|].
  rewrite (N.eqb_sym c a), startswith_nil.
  destruct (a =? c)%N; simpl; rewrite IH; reflexivity.
Qed.

Lemma reemplazos_map t :
  fold_left (fun t '(acento, letra) => str_replace t acento letra)
            reemplazos t
  = List.map unaccent t.
Proof.
  rewrite reemplazos_codepoints. cbn [fold_left]. unfold str_replace.
  rewrite !replace_single, !List.map_map.
  apply List.map_ext. intros c. unfold unaccent.
  split_eqb ltac:(subst; reflexivity). reflexivity.
Qed.

End StringFacts.

(** ** [normalizar_titulo] *)

Section NormalizarFacts.

Variable lower : pystr -> pystr.

Lemma normalizar_unfold x :
  normalizar_titulo lower x
  = strip (Re.sub_ws (Re.sub_non_az09s (List.map unaccent (strip (lower x))))).
Proof. unfold normalizar_titulo. rewrite reemplazos_map. reflexivity. Qed.

(** A key is made of [a-z], [0-9] and spaces only. *)
Lemma normalizar_key_chars x :
  Forall (fun c => is_key_char c = true) (normalizar_titulo lower x).
Proof.
  rewrite normalizar_unfold. apply strip_Forall.
  apply sub_ws_from_key, sub_non_az09s_class.
Qed.

(** A key has no whitespace but single spaces between words. *)
Lemma normalizar_squeezed x : squeezed false (normalizar_titulo lower x) = true.
Proof.
  rewrite normalizar_unfold. apply strip_squeezed, sub_ws_from_squeezed.
Qed.

Lemma normalizar_stripped x :
  strip (normalizar_titulo lower x) = normalizar_titulo lower x.
Proof. rewrite normalizar_unfold. apply strip_idem. Qed.

Lemma map_unaccent_key k :
  Forall (fun c => is_key_char c = true) k -> List.map unaccent k = k.
Proof.
  induction 1 as [|c r Hc Hr IH]; simpl; [reflexivity|].
  rewrite (unaccent_key c Hc), IH. reflexivity.
Qed.

(** A string with the three properties of a key, that [lower] leaves
    alone, is its own key. *)
Lemma normalizar_fix k :
  lower k = k ->
  Forall (fun c => is_key_char c = true) k ->
  squeezed false k = true ->
  strip k = k ->
  normalizar_titulo lower k = k.
Proof.
  intros Hl Hk Hs Ht. rewrite normalizar_unfold, Hl, Ht.
  rewrite (map_unaccent_key k Hk).
  rewrite sub_non_az09s_fix.
  - unfold Re.sub_ws. rewrite (squeezed_fix false k Hs). exact Ht.
  - eapply Forall_impl; [exact Hk|]. intros c. apply key_char_in_class.
Qed.

End NormalizarFacts.

(** C9: the dedup-key normalisation is idempotent, for every [str.lower]
    that leaves strings of [a-z], [0-9] and spaces unchanged (as Python's
    does): normalising a key gives the key back. *)
Theorem normalizar_titulo_idempotent (lower : pystr -> pystr)
    (lower_key : forall s, Forall (fun c => is_key_char c = true) s -> lower s = s)
    (x : pystr) :
  normalizar_titulo lower (normalizar_titulo lower x)
  = normalizar_titulo lower x.
Proof.
  apply normalizar_fix.
  - apply lower_key, normalizar_key_chars.
  - apply normalizar_key_chars.
  - apply normalizar_squeezed.
  - apply normalizar_stripped.
Qed.

Lemma lower_latin1_key s :
  Forall (fun c => is_key_char c = true) s -> lower_latin1 s = s.
Proof.
  induction 1 as [|c r Hc Hr IH]; [reflexivity|].
  unfold lower_latin1 in *. simpl. rewrite IH. f_equal.
  unfold is_key_char in Hc.
  rewrite ?orb_true_iff, ?andb_true_iff, ?N.leb_le, ?N.eqb_eq in Hc.
  destruct ((65 <=? c) && (c <=? 90)
            || (192 <=? c) && (c <=? 222) && negb (c =? 215))%N eqn:E;
    [|reflexivity].
  rewrite ?orb_true_iff, ?andb_true_iff, ?N.leb_le in E. lia.
Qed.

Lemma normalizar_titulo_idempotent_witness :
  normalizar_titulo lower_latin1
    (normalizar_titulo lower_latin1 (py "El Niño: 2ª Parte (2021)"))
  = normalizar_titulo lower_latin1 (py "El Niño: 2ª Parte (2021)").
Proof.
  exact (normalizar_titulo_idempotent lower_latin1 lower_latin1_key
           (py "El Niño: 2ª Parte (2021)")).
Defined.

Example normalizar_nino :
  normalizar_titulo lower_latin1 (py "El Niño: 2ª Parte (2021)")
  = py "el nino 2 parte 2021".
Proof. vm_compute. reflexivity. Qed.

(** ** Which differences between titles the key ignores *)

Section Variants.

Local Abbreviation keep t := (Re.sub_non_az09s (List.map unaccent t)).

Lemma keep_app s t : keep (s ++ t) = keep s ++ keep t.
Proof. rewrite List.map_app. apply sub_non_az09s_app. Qed.

Lemma keep_space c s : isspace c = true -> keep (c :: s) = c :: keep s.
Proof.
  intros H. simpl. rewrite (unaccent_space c H).
  unfold Re.in_az09s. rewrite H, orb_true_r. reflexivity.
Qed.

(** What [keep] leaves of one character is nothing, or one character of
    the same kind (whitespace or not). *)
Lemma keep_one c :
  keep [c] = [] \/ exists c', keep [c] = [c'] /\ isspace c' = isspace c.
Proof.
  simpl. destruct (Re.in_az09s (unaccent c)) eqn:E; [right|left; reflexivity].
  exists (unaccent c). split; [reflexivity|].
  destruct (isspace c) eqn:Ec.
  - rewrite (unaccent_space c Ec). exact Ec.
  - apply unaccent_nonspace, Ec.
Qed.

Lemma sub_ws_from_app b A :
  exists b', forall Z,
    Re.sub_ws_from b (A ++ Z) = Re.sub_ws_from b A ++ Re.sub_ws_from b' Z.
Proof.
  revert b. induction A as [|c A IH]; intros b.
  - exists b. reflexivity.
  - simpl. destruct (isspace c).
    + destruct (IH true) as [b' Hb']. exists b'. intros Z. rewrite Hb'.
      destruct b; reflexivity.
    + destruct (IH false) as [b' Hb']. exists b'. intros Z. rewrite Hb'.
      reflexivity.
Qed.

Lemma strip_sub_ws s :
  strip (Re.sub_ws s) = rstrip (Re.sub_ws_from true s).
Proof.
  unfold strip, Re.sub_ws. f_equal.
  destruct s as [|c r]; [reflexivity|]. simpl.
  destruct (isspace c) eqn:E.
  - simpl. apply lstrip_fix, sub_ws_from_no_lead.
  - simpl. rewrite E. reflexivity.
Qed.

Lemma keep_lstrip t :
  Re.sub_ws_from true (keep (lstrip t)) = Re.sub_ws_from true (keep t).
Proof.
  induction t as [|c r IH]; [reflexivity|].
  cbn [lstrip]. destruct (isspace c) eqn:E; [|reflexivity].
  rewrite (keep_space c r E). cbn [Re.sub_ws_from]. rewrite E. exact IH.
Qed.

Lemma rstrip_sub_ws_space b c :
  isspace c = true -> rstrip (Re.sub_ws_from b [c]) = [].
Proof. intros E. simpl. rewrite E. destruct b; reflexivity. Qed.

Lemma keep_rstrip b s :
  rstrip (Re.sub_ws_from b (keep (rstrip s)))
  = rstrip (Re.sub_ws_from b (keep s)).
Proof.
  revert b. induction s as [|c r IH]; intros b; [reflexivity|].
  change (c :: r) with ([c] ++ r) at 2. rewrite keep_app.
  destruct (sub_ws_from_app b (keep [c])) as [b' Hb'].
  rewrite Hb', rstrip_app.
  assert (rstrip (c :: r) = c :: rstrip r \/
          (rstrip (c :: r) = [] /\ rstrip r = [] /\ isspace c = true)) as [H|H].
  { simpl. destruct (rstrip r); [|left; reflexivity].
    destruct (isspace c); [right|left]; auto. }
  - rewrite H. change (c :: rstrip r) with ([c] ++ rstrip r).
    rewrite keep_app, Hb', rstrip_app, IH. reflexivity.
  - destruct H as (H & Hr & Hc). rewrite H.
    specialize (IH b'). rewrite Hr in IH. simpl in IH. rewrite <- IH.
    rewrite (keep_space c [] Hc). simpl. rewrite Hc.
    destruct b; reflexivity.
Qed.

Variable lower : pystr -> pystr.

(** The key, computed in one pass over the lower-cased title. *)
Lemma normalizar_canon x :
  normalizar_titulo lower x
  = rstrip (Re.sub_ws_from true (keep (lower x))).
Proof.
  rewrite normalizar_unfold, strip_sub_ws. unfold strip.
  rewrite keep_rstrip, keep_lstrip. reflexivity.
Qed.

Lemma reemplazos_unaccent a b :
  In ([a], [b]) reemplazos -> unaccent a = unaccent b.
Proof.
  rewrite reemplazos_codepoints. simpl.
  intros H. repeat (destruct H as [H|H]; [injection H as <- <-; reflexivity|]).
  destruct H.
Qed.

Lemma sub_ws_from_space_kind b A c B :
  isspace c = true ->
  Re.sub_ws_from b (A ++ c :: B) = Re.sub_ws_from b (A ++ SPACE :: B).
Proof.
  intros E. revert b. induction A as [|a A IH]; intros b; simpl.
  - rewrite E. reflexivity.
  - destruct (isspace a); destruct b; rewrite ?IH; reflexivity.
Qed.

Lemma sub_ws_from_space_run b A B :
  Re.sub_ws_from b (A ++ SPACE :: SPACE :: B)
  = Re.sub_ws_from b (A ++ SPACE :: B).
Proof.
  revert b. induction A as [|a A IH]; intros b; simpl.
  - destruct b; reflexivity.
  - destruct (isspace a); destruct b; rewrite ?IH; reflexivity.
Qed.

Lemma tweak_key u v :
  tweak u v ->
  rstrip (Re.sub_ws_from true (keep u)) = rstrip (Re.sub_ws_from true (keep v)).
Proof.
  destruct 1 as [u v a b H|u v c H|u v c H|u v|v|u].
  - rewrite !List.map_app. simpl. rewrite (reemplazos_unaccent a b H).
    reflexivity.
  - rewrite !keep_app. change (c :: v) with ([c] ++ v). rewrite keep_app.
    unfold is_deleted in H. apply negb_true_iff in H. simpl. rewrite H.
    reflexivity.
  - rewrite !keep_app, (keep_space c v H), (keep_space SPACE v isspace_SPACE).
    rewrite (sub_ws_from_space_kind true _ c _ H). reflexivity.
  - rewrite !keep_app, !(keep_space SPACE _ isspace_SPACE).
    rewrite sub_ws_from_space_run. reflexivity.
  - rewrite (keep_space SPACE v isspace_SPACE). reflexivity.
  - rewrite keep_app, (keep_space SPACE [] isspace_SPACE).
    change (keep []) with (@nil N).
    destruct (sub_ws_from_app true (keep u)) as [b' Hb'].
    rewrite Hb', rstrip_app.
    rewrite (rstrip_sub_ws_space b' SPACE isspace_SPACE). reflexivity.
Qed.

(** Titles that differ only in case, table accents, deleted characters
    and whitespace have the same key. *)
Lemma same_title_key x y :
  same_title lower x y -> normalizar_titulo lower x = normalizar_titulo lower y.
Proof.
  unfold same_title. rewrite !normalizar_canon.
  generalize (lower x) (lower y). intros u v H.
  induction H as [u|u w v [Hs|Hs] _ IH]; [reflexivity| |].
  - rewrite (tweak_key u w Hs). exact IH.
  - rewrite <- (tweak_key w u Hs). exact IH.
Qed.

End Variants.

(** C5, as the code has it: two raw titles that differ only in letter
    case (they are equal after [str.lower]), in the twelve accented
    letters of the table [reemplazos], in characters that normalisation
    deletes, or in whitespace (kind, runs, leading and trailing) have the
    same key; in particular, when [str.lower] lower-cases the two words as
    Python does, the keys of "Café" and "cafe" are equal. *)
Theorem normalizar_titulo_same_title (lower : pystr -> pystr) :
  (forall x y : pystr,
     same_title lower x y ->
     normalizar_titulo lower x = normalizar_titulo lower y)
  /\ (lower (py "Café") = py "café" ->
      lower (py "cafe") = py "cafe" ->
      normalizar_titulo lower (py "Café") = normalizar_titulo lower (py "cafe")).
Proof.
  split; [apply same_title_key|].
  intros H1 H2. apply same_title_key. unfold same_title. rewrite H1, H2.
  apply rtsc_lr.
  apply (tweak_accent [99; 97; 102]%N [] 233%N 101%N).
  rewrite reemplazos_codepoints. simpl. auto.
Qed.

Lemma normalizar_titulo_same_title_witness :
  same_title lower_latin1 (py "Café  Society!") (py "cafe society")
  /\ normalizar_titulo lower_latin1 (py "Café  Society!")
     = normalizar_titulo lower_latin1 (py "cafe society")
  /\ normalizar_titulo lower_latin1 (py "Café")
     = normalizar_titulo lower_latin1 (py "cafe").
Proof.
  assert (H : same_title lower_latin1 (py "Café  Society!") (py "cafe society")).
  { unfold same_title.
    change (lower_latin1 (py "Café  Society!"))
      with ([99; 97; 102] ++ 233 :: [32; 32; 115; 111; 99; 105; 101; 116; 121; 33])%N.
    eapply rtc_l.
    { left. apply (tweak_accent _ _ 233%N 101%N).
      rewrite reemplazos_codepoints. simpl. auto. }
    change ([99; 97; 102] ++ 101 :: [32; 32; 115; 111; 99; 105; 101; 116; 121; 33])%N
      with ([99; 97; 102; 101] ++ SPACE :: SPACE :: [115; 111; 99; 105; 101; 116; 121; 33])%N.
    eapply rtc_l. { left. apply tweak_space_run. }
    change ([99; 97; 102; 101] ++ SPACE :: [115; 111; 99; 105; 101; 116; 121; 33])%N
      with ([99; 97; 102; 101; 32; 115; 111; 99; 105; 101; 116; 121] ++ 33 :: [])%N.
    eapply rtc_l. { left. apply tweak_deleted. reflexivity. }
    apply rtc_refl. }
  split; [exact H|]. split.
  - exact (proj1 (normalizar_titulo_same_title lower_latin1) _ _ H).
  - apply (proj2 (normalizar_titulo_same_title lower_latin1)); reflexivity.
Defined.

(** "Château" and "Chateau" differ only in an accent, one that is not in
    the table: the letter is deleted and the keys differ. *)
Lemma normalizar_titulo_accent_counterexample :
  lower_latin1 (py "Château") = py "château"
  /\ lower_latin1 (py "Chateau") = py "chateau"
  /\ normalizar_titulo lower_latin1 (py "Château") = py "chteau"
  /\ normalizar_titulo lower_latin1 (py "Chateau") = py "chateau"
  /\ normalizar_titulo lower_latin1 (py "Château")
     <> normalizar_titulo lower_latin1 (py "Chateau").
Proof. repeat split; try (vm_compute; reflexivity). vm_compute. discriminate. Qed.

(** Punctuation is deleted, not turned into a space. *)
Example normalizar_spider_man :
  normalizar_titulo lower_latin1 (py "Spider-Man") = py "spiderman"
  /\ normalizar_titulo lower_latin1 (py "Spider Man") = py "spider man".
Proof. split; vm_compute; reflexivity. Qed.

(** ** The persisted document *)

Section FileFacts.

Variable R : runtime.
Variable E : env.

Lemma leer_json_run path w :
  leer_json R E path w =
  ( (if read_fails E (trace w) then Raise IOError
     else match files w !! path with
          | None => Raise IOError
          | Some text =>
            match json_loads R text with
            | Some v => Ret v
            | None => Raise JSONDecodeError
            end
          end),
    with_event w (EvOpenRead path) ).
Proof.
  unfold leer_json, bind, get_trace, emit, get_files, raise, ret, with_event.
  simpl.
  destruct (read_fails E (trace w)); [reflexivity|]. simpl.
  destruct (files w !! path) as [text|]; [|reflexivity].
  destruct (json_loads R text); reflexivity.
Qed.

Lemma escribir_texto_run path text w :
  escribir_texto E path text w =
  match write_faults E (trace w) with
  | NoFault =>
    (Ret tt,
     {| files := fs_after 2 (escribir_ops path text) (files w);
        trace := trace w ++ [EvOpenWrite path; EvWrite path text] |})
  | OpenFails => (Raise IOError, with_event w (EvOpenWrite path))
  | WriteFails n =>
    (Raise IOError,
     {| files := fs_after 2 (escribir_ops path (take n text)) (files w);
        trace := trace w ++ [EvOpenWrite path; EvWrite path (take n text)] |})
  end.
Proof.
  unfold escribir_texto, bind, get_trace, emit, run_fs_op, raise, with_event,
    with_files, fs_after. simpl.
  destruct (write_faults E (trace w)); simpl; rewrite <- ?app_assoc; reflexivity.
Qed.

(** What the two file operations of a write leave under [path]. *)
Lemma escribir_ops_after path text fs :
  fs_after 0 (escribir_ops path text) fs = fs
  /\ fs_after 1 (escribir_ops path text) fs = <[path := []]> fs
  /\ forall k, (2 <= k)%nat ->
       fs_after k (escribir_ops path text) fs = <[path := text]> fs.
Proof.
  split; [reflexivity|]. split; [reflexivity|].
  intros k Hk. destruct k as [|[|k]]; [lia|lia|].
  unfold fs_after, escribir_ops. simpl.
  rewrite lookup_insert_eq, take_nil. simpl. apply insert_insert_eq.
Qed.

(** [cargar_historial] never raises: whatever goes wrong with an existing
    document, it answers with the empty history. *)
Lemma cargar_historial_run w :
  Scraper.cargar_historial R E w =
  match files w !! Scraper.HISTORIAL_FILE with
  | None => (Ret Scraper.historial_vacio, w)
  | Some text =>
    (Ret (if read_fails E (trace w) then Scraper.historial_vacio
          else default Scraper.historial_vacio (json_loads R text)),
     with_event w (EvOpenRead Scraper.HISTORIAL_FILE))
  end.
Proof.
  unfold Scraper.cargar_historial, bind, get_files. cbv beta iota.
  destruct (files w !! Scraper.HISTORIAL_FILE) as [text|] eqn:Hf.
  - rewrite bool_decide_eq_true_2 by eauto.
    unfold try_except. rewrite leer_json_run, Hf.
    destruct (read_fails E (trace w)); [reflexivity|].
    destruct (json_loads R text); reflexivity.
  - rewrite bool_decide_eq_false_2 by (intros [? ?]; discriminate).
    reflexivity.
Qed.

Lemma load_processed_run w :
  Notifier.load_processed R E w =
  match files w !! PROCESSED_FILE E with
  | None => (Ret [], w)
  | Some text =>
    ((if read_fails E (trace w) then Raise IOError
      else match json_loads R text with
           | Some v => Notifier.py_set v
           | None => Raise JSONDecodeError
           end),
     with_event w (EvOpenRead (PROCESSED_FILE E)))
  end.
Proof.
  unfold Notifier.load_processed, bind, get_files. cbv beta iota.
  destruct (files w !! PROCESSED_FILE E) as [text|] eqn:Hf.
  - rewrite bool_decide_eq_true_2 by eauto.
    rewrite leer_json_run, Hf.
    destruct (read_fails E (trace w)); [reflexivity|].
    destruct (json_loads R text); [|reflexivity].
    unfold lift. destruct (Notifier.py_set p); reflexivity.
  - rewrite bool_decide_eq_false_2 by (intros [? ?]; discriminate).
    reflexivity.
Qed.

End FileFacts.




Section SaveFacts.

Variable R : runtime.
Variable E : env.

Lemma guardar_historial_run historial w :
  Scraper.guardar_historial R E historial w =
  match write_faults E (trace w) with
  | NoFault =>
    (Ret true,
     {| files := fs_after 2 (escribir_ops Scraper.HISTORIAL_FILE
                                          (json_dumps R historial)) (files w);
        trace := trace w ++ [EvOpenWrite Scraper.HISTORIAL_FILE;
                             EvWrite Scraper.HISTORIAL_FILE
                                     (json_dumps R historial)] |})
  | OpenFails =>
    (Ret false, with_event w (EvOpenWrite Scraper.HISTORIAL_FILE))
  | WriteFails n =>
    (Ret false,
     {| files := fs_after 2 (escribir_ops Scraper.HISTORIAL_FILE
                               (take n (json_dumps R historial))) (files w);
        trace := trace w ++ [EvOpenWrite Scraper.HISTORIAL_FILE;
                             EvWrite Scraper.HISTORIAL_FILE
                                     (take n (json_dumps R historial))] |})
  end.
Proof.
  unfold Scraper.guardar_historial, try_except, bind.
  rewrite escribir_texto_run.
  destruct (write_faults E (trace w)); reflexivity.
Qed.


End SaveFacts.

(** What the specification describes would be crash-safe. *)
Lemma atomic_replace_crash_safe tmp path text fs :
  tmp <> path -> Spec.crash_safe (Spec.atomic_replace_ops tmp path text) path fs.
Proof.
  intros Hne k. destruct k as [|[|[|k]]].
  - left. reflexivity.
  - left. unfold fs_after. simpl. apply lookup_insert_ne, Hne.
  - left. unfold fs_after. simpl.
    rewrite lookup_insert_eq. simpl.
    rewrite lookup_insert_ne by exact Hne. apply lookup_insert_ne, Hne.
  - right. unfold fs_after. simpl. rewrite take_nil. reflexivity.
Qed.




(** ** The lookup client *)

Section MonadFacts.

Context {A B : Type}.

Lemma keeps_files_ret (a : A) : keeps_files (ret a).
Proof. intros w. reflexivity. Qed.

Lemma keeps_files_raise e : keeps_files (@raise A e).
Proof. intros w. reflexivity. Qed.

Lemma keeps_files_lift (o : outcome A) : keeps_files (lift o).
Proof. intros w. reflexivity. Qed.

Lemma keeps_files_bind (c : M A) (k : A -> M B) :
  keeps_files c -> (forall a, keeps_files (k a)) -> keeps_files (bind c k).
Proof.
  intros Hc Hk w. unfold bind. specialize (Hc w).
  destruct (c w) as [[a|e] w1]; simpl in *; [|exact Hc].
  rewrite Hk. exact Hc.
Qed.

Lemma keeps_files_try (c : M A) handled (h : exn -> M A) :
  keeps_files c -> (forall e, keeps_files (h e)) ->
  keeps_files (try_except c handled h).
Proof.
  intros Hc Hh w. unfold try_except. specialize (Hc w).
  destruct (c w) as [[a|e] w1]; simpl in *; [exact Hc|].
  destruct (handled e); [|exact Hc]. rewrite Hh. exact Hc.
Qed.

Lemma never_raises_try (c : M A) (h : exn -> M A) :
  (forall e, never_raises (h e)) -> never_raises (try_except c is_Exception h).
Proof.
  intros Hh w. unfold try_except.
  destruct (c w) as [[a|e] w1]; simpl; [eauto|]. apply Hh.
Qed.

Lemma never_raises_ret (a : A) : never_raises (ret a).
Proof. intros w. exists a. reflexivity. Qed.

Lemma never_raises_bind (c : M A) (k : A -> M B) :
  never_raises c -> (forall a, never_raises (k a)) -> never_raises (bind c k).
Proof.
  intros Hc Hk w. unfold bind. destruct (Hc w) as [a Ha].
  destruct (c w) as [o w1]. simpl in Ha. subst o. apply Hk.
Qed.

End MonadFacts.

Lemma keeps_files_emit ev : keeps_files (emit ev).
Proof. intros w. reflexivity. Qed.

Lemma keeps_files_get_trace : keeps_files get_trace.
Proof. intros w. reflexivity. Qed.

Lemma never_raises_emit ev : never_raises (emit ev).
Proof. intros w. exists tt. reflexivity. Qed.

Lemma never_raises_get_trace : never_raises get_trace.
Proof. intros w. eexists. reflexivity. Qed.

Create HintDb frame.
Create HintDb total.

#[local] Hint Resolve keeps_files_ret keeps_files_raise keeps_files_lift
  keeps_files_emit keeps_files_get_trace : frame.
#[local] Hint Resolve never_raises_ret never_raises_emit
  never_raises_get_trace : total.

Ltac frame :=
  repeat first
    [ apply keeps_files_bind; [|intros ?]
    | apply keeps_files_try; [|intros ?]
    | progress auto with frame
    | match goal with
      | |- keeps_files (if ?b then _ else _) => destruct b
      | |- keeps_files (match ?x with _ => _ end) => destruct x
      end ].

Section LookupFacts.

Variable R : runtime.
Variable E : env.

Lemma scraper_get_keeps target : keeps_files (Scraper.scraper_get E target).
Proof. unfold Scraper.scraper_get. frame. Qed.

Lemma raise_for_status_keeps r : keeps_files (Scraper.raise_for_status r).
Proof. unfold Scraper.raise_for_status. frame. Qed.

#[local] Hint Resolve scraper_get_keeps raise_for_status_keeps : frame.

Lemma get_filmaffinity_details_keeps target :
  keeps_files (Scraper.get_filmaffinity_details R E target).
Proof. unfold Scraper.get_filmaffinity_details. frame. Qed.

Lemma get_filmaffinity_details_total target :
  never_raises (Scraper.get_filmaffinity_details R E target).
Proof.
  unfold Scraper.get_filmaffinity_details.
  apply never_raises_try. intros e. apply never_raises_ret.
Qed.

#[local] Hint Resolve get_filmaffinity_details_keeps : frame.

Lemma resolve_page_keeps soup search_url :
  keeps_files (Scraper.resolve_page R E soup search_url).
Proof. unfold Scraper.resolve_page. frame. Qed.

#[local] Hint Resolve resolve_page_keeps : frame.

Lemma search_attempt_keeps search_url retries attempt :
  keeps_files (Scraper.search_attempt R E search_url retries attempt).
Proof. unfold Scraper.search_attempt. frame. Qed.

Lemma search_attempt_total search_url retries attempt :
  never_raises (Scraper.search_attempt R E search_url retries attempt).
Proof.
  unfold Scraper.search_attempt. apply never_raises_try. intros e.
  destruct (attempt <? retries - 1); apply never_raises_ret.
Qed.

#[local] Hint Resolve search_attempt_keeps : frame.


Lemma search_loop_total search_url retries attempts :
  never_raises (Scraper.search_loop R E search_url retries attempts).
Proof.
  induction attempts as [|a rest IH]; simpl; [apply never_raises_ret|].
  apply never_raises_bind; [apply search_attempt_total|].
  intros [v|]; [apply never_raises_ret|exact IH].
Qed.


Lemma search_filmaffinity_total title retries :
  never_raises (Scraper.search_filmaffinity R E title retries).
Proof. apply search_loop_total. Qed.

End LookupFacts.

Section RateLimited.

Variable R : runtime.
Variable E : env.

(** Every request is answered with status 429. *)
Hypothesis always_429 :
  forall tr target, exists r, http_get E tr target = Answer r /\ status_code r = 429.

Lemma extend_nil w : extend w [] = w.
Proof. destruct w. unfold extend. simpl. rewrite app_nil_r. reflexivity. Qed.











End RateLimited.






Section Resolution.

Variable R : runtime.
Variable E : env.

Lemma resolve_page_cases soup search_url :
  Scraper.resolve_page R E soup search_url
  = match card_link soup with
    | _ :: _ => follow R E (card_link soup)
    | [] =>
      if Scraper.rating_truthy (Scraper.extract_rating R soup)
      then ret (Scraper.Return (Scraper.extract_movie_info R soup search_url))
      else match first_film_link soup with
           | _ :: _ => follow R E (first_film_link soup)
           | [] => ret (Scraper.Return None)
           end
    end.
Proof.
  unfold Scraper.resolve_page, card_link, first_film_link, follow.
  reflexivity.
Qed.

Lemma session_get_run target w :
  Notifier.session_get E target w
  = (match http_get E (trace w) target with
     | Answer r => Ret r
     | ConnectionFailed => Raise RequestException
     end, with_event w (EvGet target)).
Proof.
  unfold Notifier.session_get, bind, get_trace, emit, ret, raise.
  destruct (http_get E (trace w) target); reflexivity.
Qed.

Lemma get_filmaffinity_info_run movie_title w r :
  http_get E (trace w) (notifier_search_url movie_title) = Answer r ->
  status_code r = 200 ->
  Notifier.get_filmaffinity_info R E movie_title w
  = let w1 := with_event w (EvGet (notifier_search_url movie_title)) in
    if is_detail_page r
    then (Ret (Notifier.parse_movie_page R (resp_soup r) (resp_url r)), w1)
    else match select (resp_soup r) (py ".se-it .mc-title a") with
         | [] => (Ret None, w1)
         | first :: _ =>
           match assoc_get (el_attrs first) (py "href") with
           | None => (Ret None, w1)
           | Some href =>
             let target := py "https://www.filmaffinity.com" ++ href in
             (match http_get E (trace w1) target with
              | Answer r2 =>
                Ret (Notifier.parse_movie_page R (resp_soup r2) target)
              | ConnectionFailed => Ret None
              end, with_event w1 (EvGet target))
           end
         end.
Proof.
  unfold notifier_search_url. intros Hr Hs.
  unfold Notifier.get_filmaffinity_info, try_except.
  unfold bind at 1. rewrite session_get_run, Hr, Hs.
  cbn [negb Z.eqb Pos.eqb]. unfold is_detail_page.
  destruct (str_contains (resp_url r) (py "movie.php")); [reflexivity|].
  destruct (select (resp_soup r) (py ".se-it .mc-title a")) as [|first rest];
    [reflexivity|].
  destruct (assoc_get (el_attrs first) (py "href")) as [href|];
    [|reflexivity].
  unfold bind. rewrite session_get_run.
  destruct (http_get E (trace (with_event w _)) _); reflexivity.
Qed.

End Resolution.

(** C6, as the code has it.  [search_filmaffinity] (scraper.py) never
    looks at the URL of the response; with the page of a response that
    passed [raise_for_status] it (1) follows the link of the first result
    card, if that card has one; (2) else, if the page itself holds a
    rating other than zero, reads the page in place; (3) else follows the
    first link to a film anywhere in the page; (4) else returns [None].
    [get_filmaffinity_info] (movie_notifier.py), on an answer with status
    200, follows the order of the specification without its third step:
    a response whose URL contains "movie.php" is parsed; else the first
    result is followed; else the answer is [None], whether or not the
    page holds a rating. *)
Theorem resolve_page_order (R : runtime) (E : env) (soup : element)
    (search_url movie_title : pystr) (w : world) (r : response) :
  (card_link soup <> [] ->
   Scraper.resolve_page R E soup search_url = follow R E (card_link soup))
  /\ (card_link soup = [] ->
      Scraper.rating_truthy (Scraper.extract_rating R soup) = true ->
      Scraper.resolve_page R E soup search_url
      = ret (Scraper.Return (Scraper.extract_movie_info R soup search_url)))
  /\ (card_link soup = [] ->
      Scraper.rating_truthy (Scraper.extract_rating R soup) = false ->
      first_film_link soup <> [] ->
      Scraper.resolve_page R E soup search_url
      = follow R E (first_film_link soup))
  /\ (card_link soup = [] ->
      Scraper.rating_truthy (Scraper.extract_rating R soup) = false ->
      first_film_link soup = [] ->
      Scraper.resolve_page R E soup search_url = ret (Scraper.Return None))
  /\ (http_get E (trace w) (notifier_search_url movie_title) = Answer r ->
      status_code r = 200 ->
      let w1 := with_event w (EvGet (notifier_search_url movie_title)) in
      match Spec.resolution_order (is_detail_page r) (has_candidate r) false
      with
      | Spec.ParseThisPage =>
        Notifier.get_filmaffinity_info R E movie_title w
        = (Ret (Notifier.parse_movie_page R (resp_soup r) (resp_url r)), w1)
      | Spec.FollowFirstCandidate =>
        exists first rest,
          select (resp_soup r) (py ".se-it .mc-title a") = first :: rest
          /\ forall href,
              assoc_get (el_attrs first) (py "href") = Some href ->
              let target := py "https://www.filmaffinity.com" ++ href in
              Notifier.get_filmaffinity_info R E movie_title w
              = (match http_get E (trace w1) target with
                 | Answer r2 =>
                   Ret (Notifier.parse_movie_page R (resp_soup r2) target)
                 | ConnectionFailed => Ret None
                 end, with_event w1 (EvGet target))
      | Spec.NotFound =>
        Notifier.get_filmaffinity_info R E movie_title w = (Ret None, w1)
      end).
Proof.
  rewrite resolve_page_cases.
  split; [|split; [|split; [|split]]].
  - destruct (card_link soup); [congruence|reflexivity].
  - intros -> ->. reflexivity.
  - intros -> ->. destruct (first_film_link soup); [congruence|reflexivity].
  - intros -> -> ->. reflexivity.
  - intros Hr Hs w1.
    rewrite (get_filmaffinity_info_run R E movie_title w r Hr Hs).
    fold w1. unfold Spec.resolution_order, has_candidate.
    destruct (is_detail_page r); [reflexivity|].
    destruct (select (resp_soup r) (py ".se-it .mc-title a"))
      as [|first rest]; [reflexivity|].
    exists first, rest. split; [reflexivity|].
    intros href ->. reflexivity.
Qed.

Lemma resolve_page_order_witness :
  let R := RefRuntime.python in
  let E := Demo.env_of (Demo.web Demo.results_page) [] [] in
  let url := Scraper.FILMAFFINITY_SEARCH_URL ++ py "Dune" in
  Scraper.resolve_page R E Demo.results_page url = follow R E Demo.film_url
  /\ Scraper.resolve_page R E (Demo.rated_page "7,5") url
     = ret (Scraper.Return
              (Scraper.extract_movie_info R (Demo.rated_page "7,5") url))
  /\ Scraper.resolve_page R E Demo.page_with_link url
     = follow R E Demo.film_url
  /\ Scraper.resolve_page R E Demo.empty_page url = ret (Scraper.Return None)
  /\ fst (Notifier.get_filmaffinity_info R E (py "Dune") Demo.empty_world)
     = Ret (Notifier.parse_movie_page R (Demo.rated_page "8,1") Demo.film_url).
Proof.
  intros R E url.
  pose (r := {| status_code := 200; resp_url := notifier_search_url (py "Dune");
                resp_soup := Demo.results_page |}).
  split; [|split; [|split; [|split]]].
  - apply (proj1 (resolve_page_order R E Demo.results_page url []
                    Demo.empty_world r)).
    vm_compute. discriminate.
  - apply (proj1 (proj2 (resolve_page_order R E (Demo.rated_page "7,5") url []
                           Demo.empty_world r)));
      vm_compute; reflexivity.
  - apply (proj1 (proj2 (proj2 (resolve_page_order R E Demo.page_with_link url
                                  [] Demo.empty_world r))));
      vm_compute; try reflexivity. discriminate.
  - apply (proj1 (proj2 (proj2 (proj2
             (resolve_page_order R E Demo.empty_page url [] Demo.empty_world
                                 r)))));
      vm_compute; reflexivity.
  - destruct (proj2 (proj2 (proj2 (proj2
                (resolve_page_order R E Demo.empty_page url (py "Dune")
                                    Demo.empty_world r))))
                eq_refl eq_refl) as (first & rest & Hsel & Hget).
    injection Hsel as <- <-.
    rewrite (Hget (py "/es/film123.html") eq_refl).
    vm_compute. reflexivity.
Defined.

(** A page of movie_notifier.py that is no detail page by its URL and
    lists no result, but holds a rating: the specification's third step
    would parse it in place, the code answers [None].  In scraper.py a
    page without result card and without rating, with a link to a film:
    that link is followed, where the specification's order ends with "not
    found"; and the same page with a rating is read in place, so the link
    is no candidate entry of the second step either. *)
Lemma resolve_page_order_counterexample :
  let R := RefRuntime.python in
  let rated := Demo.rated_page "7,5" in
  let r := {| status_code := 200;
              resp_url := notifier_search_url (py "Dune");
              resp_soup := rated |} in
  let url := Scraper.FILMAFFINITY_SEARCH_URL ++ py "Dune" in
  http_get (Demo.env_of (Demo.web rated) [] []) []
           (notifier_search_url (py "Dune")) = Answer r
  /\ is_detail_page r = false /\ has_candidate r = false
  /\ has_embedded_rating r = true
  /\ Spec.resolution_order (is_detail_page r) (has_candidate r)
                           (has_embedded_rating r) = Spec.ParseThisPage
  /\ Notifier.get_filmaffinity_info R (Demo.env_of (Demo.web rated) [] [])
                                    (py "Dune") Demo.empty_world
     = (Ret None,
        {| files := ∅; trace := [EvGet (notifier_search_url (py "Dune"))] |})
  /\ card_link Demo.page_with_link = []
  /\ Scraper.extract_rating R Demo.page_with_link = None
  /\ fst (Scraper.resolve_page R
            (Demo.env_of (Demo.web Demo.page_with_link) [] [])
            Demo.page_with_link url Demo.empty_world)
     = Ret (Scraper.Return
              (Scraper.extract_movie_info R (Demo.rated_page "8,1")
                                          Demo.film_url))
  /\ Scraper.extract_movie_info R (Demo.rated_page "8,1") Demo.film_url
     <> None
  /\ first_film_link Demo.rated_page_with_link = Demo.film_url
  /\ Scraper.resolve_page R
       (Demo.env_of (Demo.web Demo.rated_page_with_link) [] [])
       Demo.rated_page_with_link url Demo.empty_world
     = (Ret (Scraper.Return
               (Scraper.extract_movie_info R Demo.rated_page_with_link url)),
        Demo.empty_world).
Proof.
  intros R rated r url.
  repeat split; try (vm_compute; reflexivity).
  vm_compute. discriminate.
Qed.

(** ** The history in memory *)

Lemma pystr_eqb_refl (s : pystr) : pystr_eqb s s = true.
Proof. unfold pystr_eqb. apply bool_decide_eq_true_2. reflexivity. Qed.

Lemma pystr_eqb_neq (s t : pystr) : s <> t -> pystr_eqb s t = false.
Proof. intros H. unfold pystr_eqb. apply bool_decide_eq_false_2. exact H. Qed.

Lemma pystr_eqb_eq (s t : pystr) : pystr_eqb s t = true -> s = t.
Proof. unfold pystr_eqb. apply bool_decide_eq_true_1. Qed.

Lemma assoc_get_set_eq {V} (d : list (pystr * V)) k v :
  assoc_get (assoc_set d k v) k = Some v.
Proof.
  induction d as [|[k' v'] d IH]; simpl.
  - rewrite pystr_eqb_refl. reflexivity.
  - destruct (pystr_eqb k' k) eqn:Hk; simpl; rewrite Hk; [reflexivity|exact IH].
Qed.

Lemma assoc_get_set_ne {V} (d : list (pystr * V)) k k' v :
  k <> k' -> assoc_get (assoc_set d k v) k' = assoc_get d k'.
Proof.
  intros Hne. induction d as [|[k0 v0] d IH]; simpl.
  - rewrite pystr_eqb_neq by exact Hne. reflexivity.
  - destruct (pystr_eqb k0 k) eqn:Hk; simpl.
    + apply pystr_eqb_eq in Hk. subst k0.
      rewrite pystr_eqb_neq by exact Hne. reflexivity.
    + destruct (pystr_eqb k0 k'); [reflexivity|exact IH].
Qed.

Lemma peliculas_de_inv h p :
  peliculas_de h = Some p ->
  exists d, h = PyDict d /\ assoc_get d (py "peliculas") = Some (PyDict p).
Proof.
  destruct h as [| | | | | |d]; try discriminate. simpl.
  destruct (assoc_get d (py "peliculas")) as [[| | | | | |p']|] eqn:Hd;
    try discriminate.
  intros [= ->]. exists d. split; [reflexivity|exact Hd].
Qed.

Lemma peliculas_de_set d p' :
  peliculas_de (PyDict (assoc_set d (py "peliculas") (PyDict p'))) = Some p'.
Proof. unfold peliculas_de. rewrite assoc_get_set_eq. reflexivity. Qed.

Section HistoryFacts.

Variable R : runtime.
Variable E : env.

Lemma agregar_al_historial_run h p titulo nota notificado w :
  peliculas_de h = Some p ->
  exists h',
    Scraper.agregar_al_historial R E h titulo nota notificado w = (Ret h', w)
    /\ peliculas_de h'
       = Some (assoc_set p (clave R titulo)
                 (registro titulo nota (fecha_hoy E (trace w)) notificado)).
Proof.
  intros Hp. destruct (peliculas_de_inv h p Hp) as (d & -> & Hd).
  eexists. split.
  - unfold Scraper.agregar_al_historial, bind, get_trace, lift, getitem.
    rewrite Hd. simpl. reflexivity.
  - apply peliculas_de_set.
Qed.

Lemma ya_analizada_run h p titulo w :
  peliculas_de h = Some p ->
  Scraper.ya_analizada R h titulo w
  = (Ret (bool_decide (is_Some (assoc_get p (clave R titulo)))), w).
Proof.
  intros Hp. destruct (peliculas_de_inv h p Hp) as (d & -> & Hd).
  unfold Scraper.ya_analizada, bind, lift, getitem. rewrite Hd. reflexivity.
Qed.

Lemma guardar_historial_total h :
  never_raises (Scraper.guardar_historial R E h).
Proof.
  intros w. rewrite guardar_historial_run.
  destruct (write_faults E (trace w)); eexists; reflexivity.
Qed.

End HistoryFacts.

Section LoopFacts.

Variable R : runtime.
Variable E : env.

(** One turn of the processing loop, for a history that holds its dict of
    films: what is recorded, what is kept for notification, and the world
    the save leaves. *)
Lemma procesar_titulo_run st ti w p mi :
  peliculas_de (Scraper.historial st) = Some p ->
  fst (Scraper.search_filmaffinity R E (clean_title ti) 3 w) = Ret mi ->
  let w1 := snd (Scraper.search_filmaffinity R E (clean_title ti) 3 w) in
  let nota := match Scraper.rating_encontrado mi with
              | Some rating => PyFloat rating
              | None => PyInt 0
              end in
  let notificado := match Scraper.rating_encontrado mi with
                    | Some rating => float_ge rating Scraper.MIN_RATING
                    | None => false
                    end in
  exists h',
    peliculas_de h'
    = Some (assoc_set p (clave R (clean_title ti))
              (registro (clean_title ti) nota (fecha_hoy E (trace w1))
                        notificado))
    /\ Scraper.procesar_titulo R E st ti w
       = (Ret {| Scraper.historial := h';
                 Scraper.saltadas := Scraper.saltadas st;
                 Scraper.nuevas_analizadas := S (Scraper.nuevas_analizadas st);
                 Scraper.good_movies :=
                   match mi, notificado with
                   | Some info, true =>
                     Scraper.good_movies st ++ [(original_title ti, info)]
                   | _, _ => Scraper.good_movies st
                   end |},
          snd (Scraper.guardar_historial R E h' w1)).
Proof.
  intros Hp Hs. cbv zeta.
  unfold Scraper.procesar_titulo. unfold bind at 1.
  destruct (Scraper.search_filmaffinity R E (clean_title ti) 3 w) as [o w1].
  simpl in Hs. subst o. cbn [snd].
  destruct (Scraper.rating_encontrado mi) as [rating|] eqn:Hr.
  - destruct mi as [info|]; [|discriminate Hr].
    destruct (agregar_al_historial_run R E (Scraper.historial st) p
                (clean_title ti) (PyFloat rating)
                (float_ge rating Scraper.MIN_RATING) w1 Hp)
      as (h' & Hrun & Hp').
    exists h'. split; [exact Hp'|].
    destruct (guardar_historial_total R E h' w1) as [b Hb].
    unfold bind. cbv beta. rewrite Hr, Hrun. cbn [ret Scraper.historial].
    destruct (Scraper.guardar_historial R E h' w1) as [o w2].
    simpl in Hb. subst o. cbn [snd].
    destruct (float_ge rating Scraper.MIN_RATING); reflexivity.
  - destruct (agregar_al_historial_run R E (Scraper.historial st) p
                (clean_title ti) (PyInt 0) false w1 Hp)
      as (h' & Hrun & Hp').
    exists h'. split; [exact Hp'|].
    destruct (guardar_historial_total R E h' w1) as [b Hb].
    destruct mi as [info|]; unfold bind; cbv beta; rewrite ?Hr, Hrun;
      cbn [ret Scraper.historial];
      destruct (Scraper.guardar_historial R E h' w1) as [o w2];
      simpl in Hb; subst o; reflexivity.
Qed.

End LoopFacts.




(** ** What the lookup returns *)

Section YieldFacts.

Context {A B : Type}.

Lemma yields_ret (P : A -> Prop) a : P a -> yields P (ret a).
Proof. intros H w a' [= <-]. exact H. Qed.

Lemma yields_raise (P : A -> Prop) e : yields P (raise e).
Proof. intros w a H. discriminate H. Qed.

Lemma yields_bind (P : B -> Prop) (c : M A) (k : A -> M B) :
  (forall a, yields P (k a)) -> yields P (bind c k).
Proof.
  intros Hk w b. unfold bind.
  destruct (c w) as [[a|e] w1]; [apply Hk|discriminate].
Qed.

Lemma yields_try (P : A -> Prop) (c : M A) handled (h : exn -> M A) :
  yields P c -> (forall e, yields P (h e)) -> yields P (try_except c handled h).
Proof.
  intros Hc Hh w a. unfold try_except. specialize (Hc w).
  destruct (c w) as [[a'|e] w1]; simpl in *; [exact (Hc a)|].
  destruct (handled e); [apply Hh|discriminate].
Qed.

End YieldFacts.

Section RatedFacts.

Variable R : runtime.
Variable E : env.

Lemma extract_movie_info_some soup url info :
  Scraper.extract_movie_info R soup url = Some info ->
  mi_rating info = Scraper.extract_rating R soup
  /\ Scraper.rating_truthy (mi_rating info) = true
  /\ mi_url info = url.
Proof.
  unfold Scraper.extract_movie_info. cbv zeta. cbn [mi_rating].
  destruct (Scraper.rating_truthy (Scraper.extract_rating R soup)) eqn:Hr;
    [|discriminate].
  intros [= <-]. cbn [mi_rating mi_url]. auto.
Qed.

Lemma extract_movie_info_none soup url :
  Scraper.extract_movie_info R soup url = None
  <-> Scraper.rating_truthy (Scraper.extract_rating R soup) = false.
Proof.
  unfold Scraper.extract_movie_info. cbv zeta. cbn [mi_rating].
  destruct (Scraper.rating_truthy (Scraper.extract_rating R soup));
    split; intros H; try reflexivity; discriminate H.
Qed.

Lemma extract_movie_info_rated soup url :
  rated (Scraper.extract_movie_info R soup url).
Proof. intros info H. apply (extract_movie_info_some soup url info H). Qed.

Lemma rated_None : rated None.
Proof. intros info H. discriminate H. Qed.

Lemma get_filmaffinity_details_rated url :
  yields rated (Scraper.get_filmaffinity_details R E url).
Proof.
  unfold Scraper.get_filmaffinity_details.
  apply yields_try; [|intros e; apply yields_ret, rated_None].
  repeat (apply yields_bind; intros ?).
  apply yields_ret, extract_movie_info_rated.
Qed.

Lemma follow_rated url :
  yields (fun r => match r with
                   | Scraper.Return v => rated v
                   | Scraper.Continue => True
                   end) (follow R E url).
Proof.
  unfold follow. intros w a. unfold bind.
  pose proof (get_filmaffinity_details_rated url w) as H.
  destruct (Scraper.get_filmaffinity_details R E url w) as [[v|e] w1];
    [|discriminate].
  intros [= <-]. apply H. reflexivity.
Qed.

Lemma resolve_page_rated soup search_url :
  yields (fun r => match r with
                   | Scraper.Return v => rated v
                   | Scraper.Continue => True
                   end) (Scraper.resolve_page R E soup search_url).
Proof.
  rewrite resolve_page_cases.
  destruct (card_link soup); [|apply follow_rated].
  destruct (Scraper.rating_truthy (Scraper.extract_rating R soup)).
  - apply yields_ret, extract_movie_info_rated.
  - destruct (first_film_link soup); [|apply follow_rated].
    apply yields_ret, rated_None.
Qed.

Lemma search_attempt_rated search_url retries attempt :
  yields (fun r => match r with
                   | Scraper.Return v => rated v
                   | Scraper.Continue => True
                   end)
         (Scraper.search_attempt R E search_url retries attempt).
Proof.
  unfold Scraper.search_attempt.
  apply yields_try.
  - apply yields_bind; intros _. apply yields_bind; intros response.
    destruct (status_code response =? 429).
    { destruct (attempt <? retries - 1).
      - apply yields_bind; intros _. apply yields_ret. exact I.
      - apply yields_ret, rated_None. }
    destruct (status_code response =? 403).
    { destruct (attempt <? retries - 1).
      - apply yields_bind; intros _. apply yields_ret. exact I.
      - apply yields_ret, rated_None. }
    apply yields_bind; intros _. apply resolve_page_rated.
  - intros e. destruct (attempt <? retries - 1); apply yields_ret; exact I.
Qed.

Lemma search_loop_rated search_url retries attempts :
  yields rated (Scraper.search_loop R E search_url retries attempts).
Proof.
  induction attempts as [|a rest IH]; simpl.
  - apply yields_ret, rated_None.
  - intros w v. unfold bind.
    pose proof (search_attempt_rated search_url retries a w) as H.
    destruct (Scraper.search_attempt R E search_url retries a w)
      as [[[r|]|e] w1]; [| |discriminate].
    + intros [= <-]. apply (H (Scraper.Return r)). reflexivity.
    + apply IH.
Qed.

(** A result of [search_filmaffinity] always carries a rating other than
    zero. *)
Lemma search_filmaffinity_rated title retries :
  yields rated (Scraper.search_filmaffinity R E title retries).
Proof. apply search_loop_rated. Qed.

End RatedFacts.

(** ** Comparison with the threshold *)

Lemma SFcompare_antisym x y c :
  SFcompare x y = Some c -> SFcompare y x = Some (CompOpp c).
Proof.
  destruct x as [sx|sx| |sx mx ex], y as [sy|sy| |sy my ey]; simpl;
    try discriminate; intros [= <-];
    try (destruct sx; try destruct sy; reflexivity);
    try (destruct sy; reflexivity).
  f_equal. rewrite (Z.compare_antisym ex ey).
  change (Pos.compare_cont Eq my mx) with (Pos.compare my mx).
  change (Pos.compare_cont Eq mx my) with (Pos.compare mx my).
  rewrite (Pos.compare_antisym mx my).
  destruct sx, sy; try reflexivity;
    destruct (ex ?= ey); simpl; try reflexivity;
    destruct (mx ?= my)%positive; reflexivity.
Qed.

Lemma float_ge_below a b : SFltb a b = true -> float_ge a b = false.
Proof.
  unfold SFltb, float_ge, SFleb.
  destruct (SFcompare a b) as [[| |]|] eqn:Hc; try discriminate.
  intros _. rewrite (SFcompare_antisym a b Lt Hc). reflexivity.
Qed.

Lemma float_ge_refl_finite s m e :
  float_ge (S754_finite s m e) (S754_finite s m e) = true.
Proof.
  unfold float_ge, SFleb. simpl.
  rewrite Z.compare_refl.
  change (Pos.compare_cont Eq m m) with (Pos.compare m m).
  rewrite Pos.compare_refl. destruct s; reflexivity.
Qed.

Section NotifierFacts.

Variable R : runtime.
Variable E : env.

Lemma get_filmaffinity_info_total movie_title :
  never_raises (Notifier.get_filmaffinity_info R E movie_title).
Proof.
  unfold Notifier.get_filmaffinity_info.
  apply never_raises_try. intros e. apply never_raises_ret.
Qed.

Lemma session_get_keeps target : keeps_files (Notifier.session_get E target).
Proof. unfold Notifier.session_get. frame. Qed.

Lemma get_filmaffinity_info_keeps movie_title :
  keeps_files (Notifier.get_filmaffinity_info R E movie_title).
Proof.
  unfold Notifier.get_filmaffinity_info.
  apply keeps_files_try; [|intros e; apply keeps_files_ret].
  apply keeps_files_bind; [apply session_get_keeps|]. intros response.
  destruct (negb (status_code response =? 200)); [apply keeps_files_ret|].
  destruct (str_contains (resp_url response) (py "movie.php"));
    [apply keeps_files_ret|].
  destruct (select (resp_soup response) (py ".se-it .mc-title a"));
    [apply keeps_files_ret|].
  destruct (assoc_get (el_attrs e) (py "href")); [|apply keeps_files_raise].
  apply keeps_files_bind; [apply session_get_keeps|].
  intros r. apply keeps_files_ret.
Qed.

(** One turn of the loop of movie_notifier.py for a torrent that is not
    yet processed. *)
Lemma procesar_torrent_run st title torrent_url w info :
  Notifier.set_mem (Notifier.processed st) (PyStr torrent_url) = false ->
  fst (Notifier.get_filmaffinity_info R E (Notifier.clean_title title) w)
  = Ret info ->
  let w1 := snd (Notifier.get_filmaffinity_info R E
                   (Notifier.clean_title title) w) in
  let processed' :=
    Notifier.set_add (Notifier.processed st) (PyStr torrent_url) in
  let st' :=
    {| Notifier.processed := processed';
       Notifier.sent :=
         match info with
         | Some info =>
           if float_ge (Notifier.pi_rating info) (RATING_THRESHOLD E)
           then Notifier.sent st ++ [(info, torrent_url)]
           else Notifier.sent st
         | None => Notifier.sent st
         end |} in
  Notifier.procesar_torrent R E st (title, torrent_url) w
  = match Notifier.save_processed R E processed' w1 with
    | (Ret _, w2) => (Ret st', with_event w2 (EvSleep 1))
    | (Raise e, w2) => (Raise e, w2)
    end.
Proof.
  intros Hnew Hinfo. cbv zeta.
  unfold Notifier.procesar_torrent. rewrite Hnew. cbn [negb].
  unfold bind at 1.
  destruct (Notifier.get_filmaffinity_info R E (Notifier.clean_title title) w)
    as [o w1].
  simpl in Hinfo. subst o. cbn [snd].
  unfold bind, emit, ret.
  destruct (Notifier.save_processed R E _ w1) as [[[]|e] w2]; reflexivity.
Qed.

End NotifierFacts.

(** C8: for a title whose lookup gives a result, the record stored
    under the title's key holds the rating and
    [notificado = (rating >= MIN_RATING)], and the film is put among those
    to notify exactly when that flag is [True]; a rating equal to the
    threshold gives [True], a rating below it gives [False].
    movie_notifier.py sends its message for a result exactly when
    [rating >= RATING_THRESHOLD]. *)
Theorem procesar_titulo_notificado (R : runtime) (E : env)
    (st : Scraper.locals) (ti : title_info) (w : world)
    (p : list (pystr * pyval)) (info : movie_info) :
  peliculas_de (Scraper.historial st) = Some p ->
  fst (Scraper.search_filmaffinity R E (clean_title ti) 3 w)
  = Ret (Some info) ->
  let w1 := snd (Scraper.search_filmaffinity R E (clean_title ti) 3 w) in
  (exists rating st' w' p',
      mi_rating info = Some rating
      /\ Scraper.procesar_titulo R E st ti w = (Ret st', w')
      /\ peliculas_de (Scraper.historial st') = Some p'
      /\ assoc_get p' (clave R (clean_title ti))
         = Some (registro (clean_title ti) (PyFloat rating)
                          (fecha_hoy E (trace w1))
                          (float_ge rating Scraper.MIN_RATING))
      /\ Scraper.good_movies st'
         = if float_ge rating Scraper.MIN_RATING
           then Scraper.good_movies st ++ [(original_title ti, info)]
           else Scraper.good_movies st)
  /\ float_ge Scraper.MIN_RATING Scraper.MIN_RATING = true
  /\ (forall rating, SFltb rating Scraper.MIN_RATING = true ->
                     float_ge rating Scraper.MIN_RATING = false)
  /\ (forall nst title torrent_url ninfo nst',
         Notifier.set_mem (Notifier.processed nst) (PyStr torrent_url)
         = false ->
         fst (Notifier.get_filmaffinity_info R E (Notifier.clean_title title) w)
         = Ret (Some ninfo) ->
         fst (Notifier.procesar_torrent R E nst (title, torrent_url) w)
         = Ret nst' ->
         Notifier.sent nst'
         = if float_ge (Notifier.pi_rating ninfo) (RATING_THRESHOLD E)
           then Notifier.sent nst ++ [(ninfo, torrent_url)]
           else Notifier.sent nst).
Proof.
  intros Hp Hs w1.
  split; [|split; [|split]].
  - pose proof (search_filmaffinity_rated R E (clean_title ti) 3 w _ Hs
                  info eq_refl) as Hrated.
    destruct (mi_rating info) as [rating|] eqn:Hrat; [|discriminate Hrated].
    simpl in Hrated.
    destruct (procesar_titulo_run R E st ti w p (Some info) Hp Hs)
      as (h' & Hp' & Hrun).
    cbn [Scraper.rating_encontrado] in Hp', Hrun.
    rewrite Hrat, Hrated in Hp', Hrun. fold w1 in Hp', Hrun.
    eexists rating, _, _, _. split; [reflexivity|].
    split; [exact Hrun|]. cbn [Scraper.historial Scraper.good_movies].
    split; [exact Hp'|]. split; [apply assoc_get_set_eq|reflexivity].
  - apply float_ge_refl_finite.
  - intros rating. apply float_ge_below.
  - intros nst title torrent_url ninfo nst' Hnew Hinfo.
    rewrite (procesar_torrent_run R E nst title torrent_url w (Some ninfo)
               Hnew Hinfo).
    destruct (Notifier.save_processed R E _ _) as [[[]|e] w2];
      [|discriminate].
    intros [= <-]. reflexivity.
Qed.

Lemma procesar_titulo_notificado_witness :
  let R := RefRuntime.python in
  let E := Demo.env_of (Demo.web Demo.results_page) [] [] in
  (exists st' w',
      Scraper.procesar_titulo R E Demo.st0 (Demo.title "Dune")
                              Demo.empty_world = (Ret st', w')
      /\ Scraper.good_movies st' = [(py "Dune", Demo.info_dune)])
  /\ float_ge Demo.float_6_9 Scraper.MIN_RATING = false
  /\ (exists nst',
         fst (Notifier.procesar_torrent R E
                {| Notifier.processed := []; Notifier.sent := [] |}
                (py "Dune (HDRip)", py "/pelicula/1/dune")
                Demo.empty_world) = Ret nst'
         /\ Notifier.sent nst'
            = [(Demo.page_info_dune, py "/pelicula/1/dune")]).
Proof.
  intros R E.
  pose proof (procesar_titulo_notificado R E Demo.st0 (Demo.title "Dune")
                Demo.empty_world [] Demo.info_dune) as H.
  destruct H as (H1 & _ & H3 & H4).
  - vm_compute. reflexivity.
  - vm_compute. reflexivity.
  - split; [|split].
    + destruct H1 as (rating & st' & w' & p' & Hrat & Hrun & _ & _ & Hgood).
      injection Hrat as <-.
      exists st', w'. split; [exact Hrun|]. rewrite Hgood.
      vm_compute. reflexivity.
    + apply H3. vm_compute. reflexivity.
    + exists {| Notifier.processed := [PyStr (py "/pelicula/1/dune")];
                Notifier.sent :=
                  [(Demo.page_info_dune, py "/pelicula/1/dune")] |}.
      split; [vm_compute; reflexivity|].
      rewrite (H4 {| Notifier.processed := []; Notifier.sent := [] |}
                  (py "Dune (HDRip)") (py "/pelicula/1/dune")
                  Demo.page_info_dune).
      * vm_compute. reflexivity.
      * vm_compute. reflexivity.
      * vm_compute. reflexivity.
      * vm_compute. reflexivity.
Defined.

Section Details.

Variable R : runtime.
Variable E : env.

Lemma scraper_get_run target w :
  Scraper.scraper_get E target w
  = (match http_get E (trace w) target with
     | Answer r => Ret r
     | ConnectionFailed => Raise RequestException
     end, with_event w (EvGet target)).
Proof.
  unfold Scraper.scraper_get, bind, get_trace, emit, ret, raise.
  destruct (http_get E (trace w) target); reflexivity.
Qed.

(** A detail page that answers with status 200: one wait, one request,
    and what [extract_movie_info] reads from the page. *)
Lemma get_filmaffinity_details_200 url w r :
  http_get E (trace w ++ [EvSleepUniform 2 4]) url = Answer r ->
  status_code r = 200 ->
  Scraper.get_filmaffinity_details R E url w
  = (Ret (Scraper.extract_movie_info R (resp_soup r) url),
     extend w [EvSleepUniform 2 4; EvGet url]).
Proof.
  intros Hr Hs.
  unfold Scraper.get_filmaffinity_details, try_except.
  unfold bind at 1. unfold emit at 1. unfold bind at 1.
  rewrite scraper_get_run. cbn [with_event trace]. rewrite Hr.
  unfold bind at 1. rewrite Hs. cbn [Z.eqb Pos.eqb ret].
  unfold bind, Scraper.raise_for_status. rewrite Hs.
  cbn. unfold extend, with_event. cbn [trace files].
  rewrite <- app_assoc. reflexivity.
Qed.

End Details.

(** C10: a page whose rating reads as zero gives no result: the dict that
    [extract_movie_info] built is dropped, exactly as for a page without
    rating; [get_filmaffinity_details] then answers [None] for it, and the
    loop of [main] stores the title as not found, with note [0] and
    [notificado = False]. *)
Theorem extract_movie_info_zero_rating (R : runtime) (E : env)
    (soup : element) (url : pystr) (s : bool) :
  Scraper.extract_rating R soup = Some (S754_zero s) ->
  Scraper.extract_movie_info R soup url = None
  /\ (forall soup', Scraper.extract_rating R soup' = None ->
        Scraper.extract_movie_info R soup' url
        = Scraper.extract_movie_info R soup url)
  /\ (forall w r,
        http_get E (trace w ++ [EvSleepUniform 2 4]) url = Answer r ->
        status_code r = 200 -> resp_soup r = soup ->
        fst (Scraper.get_filmaffinity_details R E url w) = Ret None)
  /\ (forall st ti w p,
        peliculas_de (Scraper.historial st) = Some p ->
        fst (Scraper.search_filmaffinity R E (clean_title ti) 3 w)
        = Ret None ->
        exists st' w' p',
          Scraper.procesar_titulo R E st ti w = (Ret st', w')
          /\ peliculas_de (Scraper.historial st') = Some p'
          /\ assoc_get p' (clave R (clean_title ti))
             = Some (registro (clean_title ti) (PyInt 0)
                       (fecha_hoy E
                          (trace (snd (Scraper.search_filmaffinity R E
                                         (clean_title ti) 3 w))))
                       false)
          /\ Scraper.good_movies st' = Scraper.good_movies st).
Proof.
  intros Hz.
  assert (H0 : Scraper.extract_movie_info R soup url = None).
  { apply extract_movie_info_none. rewrite Hz. reflexivity. }
  split; [exact H0|]. split; [|split].
  - intros soup' Hn. rewrite H0. apply extract_movie_info_none.
    rewrite Hn. reflexivity.
  - intros w r Hr Hs Hsoup.
    rewrite (get_filmaffinity_details_200 R E url w r Hr Hs), Hsoup.
    cbn [fst]. rewrite H0. reflexivity.
  - intros st ti w p Hp Hs.
    destruct (procesar_titulo_run R E st ti w p None Hp Hs)
      as (h' & Hp' & Hrun).
    cbn [Scraper.rating_encontrado] in Hp', Hrun.
    eexists _, _, _. split; [exact Hrun|]. cbn [Scraper.historial].
    split; [exact Hp'|]. split; [apply assoc_get_set_eq|reflexivity].
Qed.

Lemma extract_movie_info_zero_rating_witness :
  let R := RefRuntime.python in
  let E := Demo.env_of
             (Demo.web_of (Demo.rated_page "0,0") Demo.results_page) [] [] in
  Scraper.extract_movie_info R (Demo.rated_page "0,0") Demo.film_url = None
  /\ fst (Scraper.get_filmaffinity_details R E Demo.film_url Demo.empty_world)
     = Ret None
  /\ exists st' w',
      Scraper.procesar_titulo R E Demo.st0 (Demo.title "Dune")
                              Demo.empty_world = (Ret st', w')
      /\ Scraper.good_movies st' = [].
Proof.
  intros R E.
  destruct (extract_movie_info_zero_rating R E (Demo.rated_page "0,0")
              Demo.film_url false) as (H1 & _ & H3 & H4).
  - vm_compute. reflexivity.
  - split; [exact H1|]. split.
    + apply (H3 Demo.empty_world
                {| status_code := 200; resp_url := Demo.film_url;
                   resp_soup := Demo.rated_page "0,0" |});
        vm_compute; reflexivity.
    + destruct (H4 Demo.st0 (Demo.title "Dune") Demo.empty_world [])
        as (st' & w' & p' & Hrun & _ & _ & Hgood).
      * vm_compute. reflexivity.
      * vm_compute. reflexivity.
      * exists st', w'. split; [exact Hrun|exact Hgood].
Defined.

(** ** The loop of [main] *)

Section MainFacts.

Variable R : runtime.
Variable E : env.

Lemma filtrar_nuevos_run h p titles w :
  peliculas_de h = Some p ->
  Scraper.filtrar_nuevos R h titles w
  = (Ret (titulos_nuevos R p titles,
          length (List.filter (en_historial R p) titles)), w).
Proof.
  intros Hp. induction titles as [|t rest IH]; [reflexivity|].
  cbn [Scraper.filtrar_nuevos]. unfold bind at 1.
  rewrite (ya_analizada_run R h p _ w Hp).
  unfold bind at 1. rewrite IH. unfold ret.
  unfold titulos_nuevos. cbn [List.filter].
  fold (en_historial R p t).
  destruct (en_historial R p t); reflexivity.
Qed.



(** The loop over the titles to process, when no write fails: every
    title of the list is in the history at the end, what was there
    stays, and after the last title the document on disk is the JSON
    text of the history. *)
Lemma procesar_titulos_run titulos :
  (forall tr, write_faults E tr = NoFault) ->
  forall st w p,
    peliculas_de (Scraper.historial st) = Some p ->
    exists st' w' p',
      Scraper.procesar_titulos R E st titulos w = (Ret st', w')
      /\ peliculas_de (Scraper.historial st') = Some p'
      /\ (forall k, is_Some (assoc_get p k) -> is_Some (assoc_get p' k))
      /\ (forall t, In t titulos ->
                    is_Some (assoc_get p' (clave R (clean_title t))))
      /\ Scraper.saltadas st' = Scraper.saltadas st
      /\ (titulos <> [] ->
          files w' !! Scraper.HISTORIAL_FILE
          = Some (json_dumps R (Scraper.historial st')))
      /\ (titulos = [] -> st' = st /\ w' = w).
Proof.
  intros Hw. induction titulos as [|t rest IH]; intros st w p Hp.
  - exists st, w, p. repeat split; auto; try contradiction.
  - destruct (search_filmaffinity_total R E (clean_title t) 3 w) as [mi Hs].
    destruct (procesar_titulo_run R E st t w p mi Hp Hs)
      as (h1 & Hp1 & Hrun).
    set (p1 := assoc_set p (clave R (clean_title t)) _) in Hp1.
    set (st1 := {| Scraper.historial := h1 |}) in Hrun.
    set (w1 := snd (Scraper.guardar_historial R E h1 _)) in Hrun.
    destruct (IH st1 w1 p1 Hp1)
      as (st' & w' & p' & Hrest & Hp' & Hkeep & Hin & Hsal & Hfile & Hnil).
    exists st', w', p'.
    split.
    { cbn [Scraper.procesar_titulos]. unfold bind. rewrite Hrun. exact Hrest. }
    split; [exact Hp'|].
    assert (Hk1 : forall k, is_Some (assoc_get p k) ->
                            is_Some (assoc_get p1 k)).
    { intros k Hk. subst p1.
      destruct (decide (clave R (clean_title t) = k)) as [<-|Hne].
      - rewrite assoc_get_set_eq. eauto.
      - rewrite assoc_get_set_ne by exact Hne. exact Hk. }
    split; [intros k Hk; apply Hkeep, Hk1, Hk|].
    split.
    { intros t' [<-|Ht'].
      - apply Hkeep. subst p1. rewrite assoc_get_set_eq. eauto.
      - apply Hin, Ht'. }
    split; [rewrite Hsal; reflexivity|].
    split; [|discriminate].
    intros _. destruct rest as [|t2 rest'].
    + destruct Hnil as [-> ->]; [reflexivity|].
      subst w1 st1. cbn [Scraper.historial].
      rewrite guardar_historial_run, Hw. cbn [snd files].
      destruct (escribir_ops_after Scraper.HISTORIAL_FILE (json_dumps R h1)
                  (files (snd (Scraper.search_filmaffinity R E
                                 (clean_title t) 3 w)))) as (_ & _ & H2).
      rewrite (H2 2%nat) by lia. apply lookup_insert_eq.
    + apply Hfile. discriminate.
Qed.

Lemma send_telegram_message_run original info w :
  Scraper.send_telegram_message E original info w
  = (Ret (telegram_post_ok E (trace w)),
     with_event w (EvTelegram original info)).
Proof. reflexivity. Qed.

Lemma enviar_notificaciones_total movies :
  never_raises (Scraper.enviar_notificaciones E movies).
Proof.
  induction movies as [|[original info] rest IH]; simpl.
  - apply never_raises_ret.
  - apply never_raises_bind; [intros w; eexists; reflexivity|]. intros _.
    apply never_raises_bind; [apply never_raises_emit|]. intros _. exact IH.
Qed.

Lemma enviar_notificaciones_keeps movies :
  keeps_files (Scraper.enviar_notificaciones E movies).
Proof.
  induction movies as [|[original info] rest IH]; simpl.
  - apply keeps_files_ret.
  - apply keeps_files_bind; [intros w; reflexivity|]. intros _.
    apply keeps_files_bind; [apply keeps_files_emit|]. intros _. exact IH.
Qed.

End MainFacts.

Section SecondRun.

Variable R : runtime.
Variable E : env.
Variable titles : list title_info.

Hypothesis no_write_fault : forall tr, write_faults E tr = NoFault.
Hypothesis same_listing : forall tr, mejortorrent_titles E tr = titles.

(** [main], for a persisted document that loads as a history holding
    its dict of films. *)
Lemma main_run w h0 p0 :
  fst (Scraper.cargar_historial R E w) = Ret h0 ->
  peliculas_de h0 = Some p0 ->
  let wa := snd (Scraper.cargar_historial R E w) in
  exists st wb wc,
    Scraper.procesar_titulos R E
      {| Scraper.historial := h0;
         Scraper.saltadas := length (List.filter (en_historial R p0) titles);
         Scraper.nuevas_analizadas := 0;
         Scraper.good_movies := [] |}
      (take Scraper.MAX_PELICULAS_POR_EJECUCION (titulos_nuevos R p0 titles))
      wa = (Ret st, wb)
    /\ Scraper.main R E w = (Ret st, wc)
    /\ files wc = files wb
    /\ (Scraper.good_movies st = [] -> wc = wb).
Proof.
  intros Hc Hp wa.
  destruct (procesar_titulos_run R E
              (take Scraper.MAX_PELICULAS_POR_EJECUCION
                    (titulos_nuevos R p0 titles)) no_write_fault
              {| Scraper.historial := h0;
                 Scraper.saltadas :=
                   length (List.filter (en_historial R p0) titles);
                 Scraper.nuevas_analizadas := 0;
                 Scraper.good_movies := [] |} wa p0 Hp)
    as (st & wb & p' & Hrun & _ & _ & _ & _ & _ & Hnil).
  destruct (peliculas_de_inv h0 p0 Hp) as (d & -> & Hd).
  unfold Scraper.main. unfold bind at 1.
  subst wa. destruct (Scraper.cargar_historial R E w) as [o wa].
  simpl in Hc. subst o. cbn [snd] in *.
  unfold bind at 1. unfold lift at 1. unfold getitem. rewrite Hd.
  unfold bind at 1. unfold lift at 1. cbn [len].
  unfold bind at 1. unfold get_trace at 1. rewrite same_listing.
  destruct titles as [|t0 rest] eqn:Ht.
  - destruct Hnil as [-> ->]; [reflexivity|].
    exists {| Scraper.historial := PyDict d; Scraper.saltadas := 0;
              Scraper.nuevas_analizadas := 0; Scraper.good_movies := [] |},
           wa, wa.
    repeat split; reflexivity.
  - rewrite <- Ht in *. clear Hnil.
    unfold bind at 1. rewrite (filtrar_nuevos_run R (PyDict d) p0 titles wa Hp).
    cbv beta iota. unfold bind at 1. rewrite Hrun.
    destruct (Scraper.good_movies st) as [|g gs] eqn:Hg.
    + exists st, wb, wb. repeat split; reflexivity.
    + destruct (telegram_token E) as [[|c1 tk]|];
        try (exists st, wb, wb;
             split; [reflexivity|split; [reflexivity|split;
               [reflexivity|reflexivity]]]).
      destruct (telegram_chat_id E) as [[|c2 ch]|];
        try (exists st, wb, wb;
             split; [reflexivity|split; [reflexivity|split;
               [reflexivity|reflexivity]]]).
      destruct (enviar_notificaciones_total E (g :: gs) wb) as [[] He].
      pose proof (enviar_notificaciones_keeps E (g :: gs) wb) as Hk.
      unfold bind.
      destruct (Scraper.enviar_notificaciones E (g :: gs) wb) as [o wc].
      simpl in He, Hk. subst o.
      exists st, wb, wc.
      split; [reflexivity|split; [reflexivity|split; [exact Hk|]]].
      rewrite Hg. discriminate.
Qed.

End SecondRun.

Lemma cargar_historial_frame (R : runtime) (E : env) w :
  files (snd (Scraper.cargar_historial R E w)) = files w
  /\ exists evs,
      trace (snd (Scraper.cargar_historial R E w)) = trace w ++ evs
      /\ forall ev, In ev evs -> ev = EvOpenRead Scraper.HISTORIAL_FILE.
Proof.
  rewrite cargar_historial_run.
  destruct (files w !! Scraper.HISTORIAL_FILE); cbn [snd].
  - split; [reflexivity|]. exists [EvOpenRead Scraper.HISTORIAL_FILE].
    split; [reflexivity|]. intros ev [<-|[]]. reflexivity.
  - split; [reflexivity|]. exists []. split; [symmetry; apply app_nil_r|].
    intros ev [].
Qed.





(** * Further properties *)

(** ** The shape of a key *)

Lemma squeezed_no_double b k :
  squeezed b k = true -> forall u v, k <> u ++ SPACE :: SPACE :: v.
Proof.
  intros Hs u. revert b k Hs.
  induction u as [|c u IH]; intros b k Hs v ->.
  - cbn [app squeezed] in Hs. rewrite isspace_SPACE in Hs.
    cbn [negb] in Hs. rewrite !andb_true_iff in Hs.
    destruct Hs as [_ [[_ Hs] _]]. discriminate Hs.
  - cbn [app squeezed] in Hs. destruct (isspace c).
    + rewrite !andb_true_iff in Hs. destruct Hs as [_ Hs].
      exact (IH true _ Hs v eq_refl).
    + exact (IH false _ Hs v eq_refl).
Qed.

Lemma rstrip_no_trail s u c : isspace c = true -> rstrip s <> u ++ [c].
Proof.
  intros Hc. revert u. induction s as [|c0 r IH]; intros u; simpl.
  - destruct u; discriminate.
  - destruct (rstrip r) as [|r0 r'] eqn:Hr.
    + destruct (isspace c0) eqn:H0; [destruct u; discriminate|].
      destruct u as [|u0 u]; [|destruct u; discriminate].
      intros [= ->]. congruence.
    + destruct u as [|u0 u]; [discriminate|].
      intros [= -> Hu]. exact (IH u Hu).
Qed.

(** X1: whatever the title, its key is made of [a-z], [0-9] and spaces
    only, has no two spaces in a row, and neither starts nor ends with a
    space. *)
Theorem normalizar_titulo_key_shape (lower : pystr -> pystr) (x : pystr) :
  let k := normalizar_titulo lower x in
  Forall (fun c => is_key_char c = true) k
  /\ (forall u v, k <> u ++ SPACE :: SPACE :: v)
  /\ (forall v, k <> SPACE :: v)
  /\ (forall u, k <> u ++ [SPACE]).
Proof.
  intros k. subst k.
  split; [apply normalizar_key_chars|].
  split; [apply (squeezed_no_double false), normalizar_squeezed|].
  split.
  - intros v Hk.
    pose proof (normalizar_stripped lower x) as Hs. unfold strip in Hs.
    pose proof (rstrip_no_lead _ (lstrip_no_lead (normalizar_titulo lower x)))
      as Hl.
    rewrite Hs, Hk in Hl. cbn [no_lead] in Hl. rewrite isspace_SPACE in Hl.
    discriminate.
  - intros u Hk.
    pose proof (normalizar_stripped lower x) as Hs. unfold strip in Hs.
    rewrite Hk in Hs at 2.
    exact (rstrip_no_trail _ u SPACE isspace_SPACE Hs).
Qed.

(** ** The history: insert, lookup, save and load *)

(** X2: once a title is recorded, [ya_analizada] answers [True] for every
    title with the same key, so for every variant in case, table accents,
    deleted characters and whitespace; the answers for titles with another
    key do not change. *)
Theorem agregar_then_ya_analizada (R : runtime) (E : env) (h : pyval)
    (p : list (pystr * pyval)) (x y : pystr) (nota : pyval)
    (notificado : bool) (w : world) :
  peliculas_de h = Some p ->
  same_title (str_lower R) x y ->
  exists h',
    Scraper.agregar_al_historial R E h x nota notificado w = (Ret h', w)
    /\ Scraper.ya_analizada R h' y w = (Ret true, w)
    /\ forall z, clave R z <> clave R x ->
                 Scraper.ya_analizada R h' z w = Scraper.ya_analizada R h z w.
Proof.
  intros Hp Hxy.
  destruct (agregar_al_historial_run R E h p x nota notificado w Hp)
    as (h' & Hrun & Hp').
  exists h'. split; [exact Hrun|]. split.
  - rewrite (ya_analizada_run R h' _ y w Hp').
    unfold clave. rewrite <- (same_title_key (str_lower R) x y Hxy).
    rewrite assoc_get_set_eq. reflexivity.
  - intros z Hz.
    rewrite (ya_analizada_run R h' _ z w Hp'), (ya_analizada_run R h p z w Hp).
    rewrite assoc_get_set_ne by congruence. reflexivity.
Qed.

Lemma agregar_then_ya_analizada_witness :
  exists h',
    Scraper.agregar_al_historial RefRuntime.python
      (Demo.env_of Demo.offline [] []) Demo.historial_dune (py "Alien")
      (PyInt 0) false Demo.empty_world = (Ret h', Demo.empty_world)
    /\ Scraper.ya_analizada RefRuntime.python h' (py "ALIEN")
                            Demo.empty_world
       = (Ret true, Demo.empty_world).
Proof.
  destruct (agregar_then_ya_analizada RefRuntime.python
              (Demo.env_of Demo.offline [] []) Demo.historial_dune
              [(py "dune",
                Demo.registro "Dune"
                  (PyFloat (S754_finite false 8782019273372467 (-50))) true)]
              (py "Alien") (py "ALIEN") (PyInt 0) false Demo.empty_world)
    as (h' & Hrun & Hya & _).
  - reflexivity.
  - unfold same_title.
    change (str_lower RefRuntime.python (py "ALIEN"))
      with (str_lower RefRuntime.python (py "Alien")).
    apply rtc_refl.
  - exists h'. split; [exact Hrun|exact Hya].
Defined.

(** X3: a persisted document that parses, but holds no dict of films under
    "peliculas", makes [main] raise ([KeyError] for a dict without the
    key, [TypeError] for another value) right after loading, before the
    listing is fetched and before any request. *)
Theorem main_malformed_history (R : runtime) (E : env) (w : world)
    (h : pyval) (e : exn) :
  fst (Scraper.cargar_historial R E w) = Ret h ->
  getitem h (py "peliculas") = Raise e ->
  Scraper.main R E w = (Raise e, snd (Scraper.cargar_historial R E w)).
Proof.
  intros Hc Hg. unfold Scraper.main. unfold bind at 1.
  destruct (Scraper.cargar_historial R E w) as [o wa].
  simpl in Hc. subst o. cbn [snd].
  unfold bind at 1. unfold lift at 1. rewrite Hg. reflexivity.
Qed.

Lemma main_malformed_history_witness :
  Scraper.main RefRuntime.python (Demo.env_of Demo.offline Demo.titles21 [])
    {| files := {[ Scraper.HISTORIAL_FILE := py "{}" ]}; trace := [] |}
  = (Raise KeyError,
     {| files := {[ Scraper.HISTORIAL_FILE := py "{}" ]};
        trace := [EvOpenRead Scraper.HISTORIAL_FILE] |}).
Proof.
  rewrite (main_malformed_history RefRuntime.python
             (Demo.env_of Demo.offline Demo.titles21 [])
             {| files := {[ Scraper.HISTORIAL_FILE := py "{}" ]};
                trace := [] |} (PyDict []) KeyError).
  - vm_compute. reflexivity.
  - vm_compute. reflexivity.
  - reflexivity.
Defined.

(** X4: save, then load: when [guardar_historial] returned [True], the
    document can be read and the JSON text of the history parses back to
    the history, [cargar_historial] returns that history. *)
Theorem guardar_then_cargar (R : runtime) (E : env) (h : pyval) (w : world) :
  fst (Scraper.guardar_historial R E h w) = Ret true ->
  json_loads R (json_dumps R h) = Some h ->
  read_fails E (trace (snd (Scraper.guardar_historial R E h w))) = false ->
  fst (Scraper.cargar_historial R E (snd (Scraper.guardar_historial R E h w)))
  = Ret h.
Proof.
  intros Hg Hrt Hrd. rewrite cargar_historial_run, Hrd.
  rewrite guardar_historial_run in Hg |- *.
  destruct (write_faults E (trace w)); try discriminate Hg.
  cbn [snd files].
  destruct (escribir_ops_after Scraper.HISTORIAL_FILE (json_dumps R h)
                               (files w)) as (_ & _ & H2).
  rewrite (H2 2%nat) by lia. rewrite lookup_insert_eq.
  cbn [fst]. rewrite Hrt. reflexivity.
Qed.

Lemma guardar_then_cargar_witness :
  let R := RefRuntime.python in
  let E := Demo.env_of Demo.offline [] [] in
  fst (Scraper.cargar_historial R E
         (snd (Scraper.guardar_historial R E Demo.historial_dune_alien
                                         Demo.world_dune)))
  = Ret Demo.historial_dune_alien.
Proof.
  intros R E.
  apply (guardar_then_cargar R E Demo.historial_dune_alien Demo.world_dune).
  - vm_compute. reflexivity.
  - vm_compute. reflexivity.
  - reflexivity.
Defined.

(** ** Requests *)

Section RequestFacts.

Context {A B : Type}.

Lemma requests_weaken (n m : nat) (c : M A) :
  (n <= m)%nat -> requests_at_most n c -> requests_at_most m c.
Proof.
  intros Hnm Hc w. destruct (Hc w) as (evs & Htr & Hn).
  exists evs. split; [exact Htr|lia].
Qed.

Lemma requests_ret (a : A) : requests_at_most 0 (ret a).
Proof. intros w. exists []. split; [symmetry; apply app_nil_r|simpl; lia]. Qed.

Lemma requests_raise e : requests_at_most 0 (@raise A e).
Proof. intros w. exists []. split; [symmetry; apply app_nil_r|simpl; lia]. Qed.

Lemma requests_lift (o : outcome A) : requests_at_most 0 (lift o).
Proof. intros w. exists []. split; [symmetry; apply app_nil_r|simpl; lia]. Qed.

Lemma gets_app a b : gets (a ++ b) = gets a ++ gets b.
Proof. unfold gets. apply flat_map_app. Qed.

Lemma requests_bind (n m : nat) (c : M A) (k : A -> M B) :
  requests_at_most n c -> (forall a, requests_at_most m (k a)) ->
  requests_at_most (n + m) (bind c k).
Proof.
  intros Hc Hk w. unfold bind. destruct (Hc w) as (evs & Htr & Hn).
  destruct (c w) as [[a|e] w1]; cbn [snd] in *.
  - destruct (Hk a w1) as (evs2 & Htr2 & Hm).
    exists (evs ++ evs2). split.
    + rewrite Htr2, Htr, app_assoc. reflexivity.
    + rewrite gets_app, length_app. lia.
  - exists evs. split; [exact Htr|lia].
Qed.

Lemma requests_try (n m : nat) (c : M A) handled (h : exn -> M A) :
  requests_at_most n c -> (forall e, requests_at_most m (h e)) ->
  requests_at_most (n + m) (try_except c handled h).
Proof.
  intros Hc Hh w. unfold try_except. destruct (Hc w) as (evs & Htr & Hn).
  destruct (c w) as [[a|e] w1]; cbn [snd] in *.
  - exists evs. split; [exact Htr|lia].
  - destruct (handled e).
    + destruct (Hh e w1) as (evs2 & Htr2 & Hm).
      exists (evs ++ evs2). split.
      * rewrite Htr2, Htr, app_assoc. reflexivity.
      * rewrite gets_app, length_app. lia.
    + exists evs. split; [exact Htr|lia].
Qed.

End RequestFacts.


Lemma requests_get_trace : requests_at_most 0 get_trace.
Proof. intros w. exists []. split; [symmetry; apply app_nil_r|simpl; lia]. Qed.

Section LookupRequests.

Variable R : runtime.
Variable E : env.









End LookupRequests.


(** ** The retry loop under other failures *)

Section RetryLoop.

Variable R : runtime.
Variable E : env.
Variable search_url : pystr.
Variable retries : Z.
Variable attempt_events : Z -> list event.
Variable last : Scraper.attempt_end.

Hypothesis last_gives_up : last = Scraper.Return None \/ last = Scraper.Continue.
Hypothesis attempt_run : forall attempt w,
  Scraper.search_attempt R E search_url retries attempt w
  = (Ret (if attempt <? retries - 1 then Scraper.Continue else last),
     extend w (attempt_events attempt)).



End RetryLoop.











(** ** The detail page *)

(** X8: when the detail page answers 429, [get_filmaffinity_details]
    waits 30 seconds and asks once more; the result is read from the
    second answer, and is [None] if that one is an error too.  There is no
    third request. *)
Theorem get_filmaffinity_details_retry (R : runtime) (E : env) (url : pystr)
    (w : world) (r1 r2 : response) :
  http_get E (trace w ++ [EvSleepUniform 2 4]) url = Answer r1 ->
  status_code r1 = 429 ->
  http_get E (trace w ++ [EvSleepUniform 2 4; EvGet url; EvSleep 30]) url
  = Answer r2 ->
  Scraper.get_filmaffinity_details R E url w
  = (Ret (if (400 <=? status_code r2) && (status_code r2 <? 600) then None
          else Scraper.extract_movie_info R (resp_soup r2) url),
     extend w [EvSleepUniform 2 4; EvGet url; EvSleep 30; EvGet url]).
Proof.
  intros H1 Hs H2.
  unfold Scraper.get_filmaffinity_details, try_except.
  unfold bind at 1. unfold emit at 1. unfold bind at 1.
  rewrite scraper_get_run. cbn [with_event trace files]. rewrite H1.
  unfold bind at 1. rewrite Hs. cbn [Z.eqb Pos.eqb].
  unfold bind at 1. unfold emit at 1. rewrite scraper_get_run.
  unfold with_event. cbn [trace files].
  rewrite <- !app_assoc. cbn [app]. rewrite H2.
  unfold bind, Scraper.raise_for_status, extend, with_event. cbn [trace files].
  destruct ((400 <=? status_code r2) && (status_code r2 <? 600));
    cbn; rewrite <- ?app_assoc; reflexivity.
Qed.

Lemma get_filmaffinity_details_retry_witness :
  Scraper.get_filmaffinity_details RefRuntime.python
    (Demo2.env_429_once (Demo.rated_page "8,1")) Demo.film_url
    Demo.empty_world
  = (Ret (Some Demo.info_dune),
     {| files := ∅;
        trace := [ EvSleepUniform 2 4; EvGet Demo.film_url; EvSleep 30;
                   EvGet Demo.film_url ] |}).
Proof.
  rewrite (get_filmaffinity_details_retry RefRuntime.python
             (Demo2.env_429_once (Demo.rated_page "8,1")) Demo.film_url
             Demo.empty_world
             {| status_code := 429; resp_url := Demo.film_url;
                resp_soup := Demo.empty_page |}
             {| status_code := 200; resp_url := Demo.film_url;
                resp_soup := Demo.rated_page "8,1" |}).
  - vm_compute. reflexivity.
  - reflexivity.
  - reflexivity.
  - reflexivity.
Defined.

Lemma platforms_from_imgs_nonempty imgs :
  Forall (fun p => p <> []) (Scraper.platforms_from_imgs imgs).
Proof.
  induction imgs as [|img rest IH]; simpl; [constructor|].
  destruct (attr_get img (py "alt")) eqn:Ha; [exact IH|].
  constructor; [discriminate|exact IH].
Qed.

Lemma platforms_from_links_nonempty links platforms :
  Forall (fun p => p <> []) platforms ->
  Forall (fun p => p <> []) (Scraper.platforms_from_links links platforms).
Proof.
  revert platforms. induction links as [|link rest IH]; intros platforms H;
    simpl; [exact H|].
  destruct (get_text_strip link) eqn:Hn; [apply IH, H|].
  match goal with
  | |- context [existsb ?f platforms] => destruct (existsb f platforms)
  end; [apply IH, H|].
  apply IH. apply Forall_app. split; [exact H|].
  constructor; [discriminate|constructor].
Qed.

(** X9: a result of [extract_movie_info] carries the URL it was given
    and the rating of [extract_rating], which is not zero; its list of
    platforms is never empty and holds no empty name. *)
Theorem extract_movie_info_shape (R : runtime) (soup : element) (url : pystr)
    (info : movie_info) :
  Scraper.extract_movie_info R soup url = Some info ->
  mi_url info = url
  /\ (exists rating, mi_rating info = Some rating
                     /\ Scraper.extract_rating R soup = Some rating
                     /\ float_truthy rating = true)
  /\ mi_platforms info <> []
  /\ Forall (fun p => p <> []) (mi_platforms info).
Proof.
  intros H.
  destruct (extract_movie_info_some R soup url info H) as (Hr & Ht & Hu).
  split; [exact Hu|]. split.
  { destruct (mi_rating info) as [rating|]; [|discriminate Ht].
    exists rating. split; [reflexivity|]. split; [symmetry; exact Hr|exact Ht]. }
  unfold Scraper.extract_movie_info in H. cbv zeta in H.
  cbn [mi_rating] in H.
  destruct (Scraper.rating_truthy (Scraper.extract_rating R soup));
    [|discriminate H].
  injection H as <-. cbn [mi_platforms].
  pose proof (platforms_from_links_nonempty
                (select soup (py "a[href*='justwatch'], .wtp-links a"))
                _ (platforms_from_imgs_nonempty
                     (select soup (py ".just-watch-prov img, .streaming-providers img, [alt*='disponible']"))))
    as Hp.
  destruct (Scraper.platforms_from_links _ _) as [|p0 ps].
  - split; [discriminate|]. constructor; [discriminate|constructor].
  - split; [discriminate|exact Hp].
Qed.

Lemma extract_movie_info_shape_witness :
  mi_url Demo.info_dune = Demo.film_url
  /\ mi_platforms Demo.info_dune <> [].
Proof.
  destruct (extract_movie_info_shape RefRuntime.python (Demo.rated_page "8,1")
              Demo.film_url Demo.info_dune) as (Hu & _ & Hp & _).
  - vm_compute. reflexivity.
  - split; [exact Hu|exact Hp].
Defined.

Lemma extract_rating_from_cons R soup sel rest :
  Scraper.extract_rating_from R (sel :: rest) soup
  = match rating_at R soup sel with
    | Some f => Some f
    | None => Scraper.extract_rating_from R rest soup
    end.
Proof.
  cbn [Scraper.extract_rating_from]. unfold rating_at.
  destruct (select_one soup sel); reflexivity.
Qed.

Lemma extract_rating_from_first R soup sels f :
  Scraper.extract_rating_from R sels soup = Some f
  <-> exists pre sel post,
        sels = pre ++ sel :: post
        /\ rating_at R soup sel = Some f
        /\ Forall (fun s => rating_at R soup s = None) pre.
Proof.
  induction sels as [|sel rest IH].
  - split; [discriminate|]. intros (pre & s & post & H & _).
    destruct pre; discriminate H.
  - rewrite extract_rating_from_cons.
    destruct (rating_at R soup sel) as [f0|] eqn:Hsel.
    + split.
      * intros [= ->]. exists [], sel, rest. repeat split; auto.
      * intros (pre & s & post & Heq & Hs & Hpre).
        destruct pre as [|s0 pre]; simpl in Heq; injection Heq as -> ->.
        -- congruence.
        -- inversion Hpre; congruence.
    + rewrite IH. split.
      * intros (pre & s & post & -> & Hs & Hpre).
        exists (sel :: pre), s, post. repeat split; auto.
      * intros (pre & s & post & Heq & Hs & Hpre).
        destruct pre as [|s0 pre]; simpl in Heq; injection Heq as -> ->.
        -- congruence.
        -- inversion Hpre; subst. exists pre, s, post. repeat split; auto.
Qed.

Lemma extract_rating_from_none R soup sels :
  Scraper.extract_rating_from R sels soup = None
  <-> Forall (fun s => rating_at R soup s = None) sels.
Proof.
  induction sels as [|sel rest IH].
  - split; [constructor|reflexivity].
  - rewrite extract_rating_from_cons.
    destruct (rating_at R soup sel) as [f0|] eqn:Hsel.
    + split; [discriminate|]. intros H. inversion H; congruence.
    + rewrite IH. split.
      * intros H. constructor; [exact Hsel|exact H].
      * intros H. inversion H; assumption.
Qed.

(** X10: [extract_rating] gives the rating of the first selector of its
    list, in order, whose first element reads as a float once the comma
    is turned into a dot; it gives [None] exactly when no selector has
    such an element. *)
Theorem extract_rating_first (R : runtime) (soup : element) :
  (forall f,
      Scraper.extract_rating R soup = Some f
      <-> exists pre sel post,
            Scraper.rating_selectors = pre ++ sel :: post
            /\ rating_at R soup sel = Some f
            /\ Forall (fun s => rating_at R soup s = None) pre)
  /\ (Scraper.extract_rating R soup = None
      <-> Forall (fun s => rating_at R soup s = None)
                 Scraper.rating_selectors).
Proof.
  split; [intros f; apply extract_rating_from_first|].
  apply extract_rating_from_none.
Qed.

(** ** What [main] does *)

Section EmitFacts.

Context {A B : Type}.
Variable P : event -> Prop.

Lemma emits_ret (a : A) : emits P (ret a).
Proof. intros w. exists []. split; [symmetry; apply app_nil_r|constructor]. Qed.

Lemma emits_raise e : emits P (@raise A e).
Proof. intros w. exists []. split; [symmetry; apply app_nil_r|constructor]. Qed.

Lemma emits_lift (o : outcome A) : emits P (lift o).
Proof. intros w. exists []. split; [symmetry; apply app_nil_r|constructor]. Qed.

Lemma emits_bind (c : M A) (k : A -> M B) :
  emits P c -> (forall a, emits P (k a)) -> emits P (bind c k).
Proof.
  intros Hc Hk w. unfold bind. destruct (Hc w) as (evs & Htr & Hn).
  destruct (c w) as [[a|e] w1]; cbn [snd] in *.
  - destruct (Hk a w1) as (evs2 & Htr2 & Hm).
    exists (evs ++ evs2). split.
    + rewrite Htr2, Htr, app_assoc. reflexivity.
    + apply Forall_app. split; assumption.
  - exists evs. split; assumption.
Qed.

Lemma emits_try (c : M A) handled (h : exn -> M A) :
  emits P c -> (forall e, emits P (h e)) -> emits P (try_except c handled h).
Proof.
  intros Hc Hh w. unfold try_except. destruct (Hc w) as (evs & Htr & Hn).
  destruct (c w) as [[a|e] w1]; cbn [snd] in *.
  - exists evs. split; assumption.
  - destruct (handled e).
    + destruct (Hh e w1) as (evs2 & Htr2 & Hm).
      exists (evs ++ evs2). split.
      * rewrite Htr2, Htr, app_assoc. reflexivity.
      * apply Forall_app. split; assumption.
    + exists evs. split; assumption.
Qed.

End EmitFacts.

Lemma emits_emit (P : event -> Prop) ev : P ev -> emits P (emit ev).
Proof.
  intros Hev w. exists [ev]. split; [reflexivity|].
  constructor; [exact Hev|constructor].
Qed.

Lemma emits_get_trace (P : event -> Prop) : emits P get_trace.
Proof. intros w. exists []. split; [symmetry; apply app_nil_r|constructor]. Qed.

Lemma emits_get_files (P : event -> Prop) : emits P get_files.
Proof. intros w. exists []. split; [symmetry; apply app_nil_r|constructor]. Qed.

Lemma emits_run_fs_op (P : event -> Prop) op : emits P (run_fs_op op).
Proof. intros w. exists []. split; [symmetry; apply app_nil_r|constructor]. Qed.

Ltac quiet :=
  repeat first
    [ apply emits_bind; [|intros ?]
    | apply emits_try; [|intros ?]
    | apply emits_ret | apply emits_raise | apply emits_lift
    | apply emits_get_trace | apply emits_get_files | apply emits_run_fs_op
    | apply emits_emit; reflexivity
    | match goal with
      | |- emits _ (if ?b then _ else _) => destruct b
      | |- emits _ (match ?x with _ => _ end) => destruct x
      end ].

Lemma telegrams_app a b : telegrams (a ++ b) = telegrams a ++ telegrams b.
Proof. unfold telegrams. apply flat_map_app. Qed.

Lemma telegrams_quiet evs :
  Forall (fun ev => is_telegram ev = false) evs -> telegrams evs = [].
Proof.
  induction 1 as [|ev evs Hev Hevs IH]; [reflexivity|].
  unfold telegrams in *. cbn [flat_map]. rewrite IH.
  destruct ev; try discriminate; reflexivity.
Qed.

Lemma telegrams_envios movies : telegrams (envios movies) = movies.
Proof.
  induction movies as [|[o i] rest IH]; [reflexivity|].
  unfold envios, telegrams in *. cbn. rewrite IH. reflexivity.
Qed.

Section QuietFacts.

Variable R : runtime.
Variable E : env.

Let quiet_event := fun ev => is_telegram ev = false.

Lemma search_filmaffinity_quiet title retries :
  emits quiet_event (Scraper.search_filmaffinity R E title retries).
Proof.
  unfold Scraper.search_filmaffinity.
  generalize (Scraper.range retries) as attempts.
  generalize (Scraper.FILMAFFINITY_SEARCH_URL ++ quote_plus R title) as url.
  assert (Hget : forall target, emits quiet_event (Scraper.scraper_get E target)).
  { intros target. unfold Scraper.scraper_get. quiet. }
  assert (Hst : forall r, emits quiet_event (Scraper.raise_for_status r)).
  { intros r. unfold Scraper.raise_for_status. quiet. }
  assert (Hdet : forall target,
             emits quiet_event (Scraper.get_filmaffinity_details R E target)).
  { intros target. unfold Scraper.get_filmaffinity_details.
    apply emits_try; [|intros e; apply emits_ret].
    apply emits_bind; [apply emits_emit; reflexivity|]. intros _.
    apply emits_bind; [apply Hget|]. intros response.
    apply emits_bind.
    - destruct (status_code response =? 429); [|apply emits_ret].
      apply emits_bind; [apply emits_emit; reflexivity|]. intros _. apply Hget.
    - intros r2. apply emits_bind; [apply Hst|]. intros _. apply emits_ret. }
  assert (Hfol : forall target, emits quiet_event (follow R E target)).
  { intros target. unfold follow. apply emits_bind; [apply Hdet|].
    intros r. apply emits_ret. }
  assert (Hres : forall soup url,
             emits quiet_event (Scraper.resolve_page R E soup url)).
  { intros soup url. rewrite resolve_page_cases.
    destruct (card_link soup); [|apply Hfol].
    destruct (Scraper.rating_truthy _); [apply emits_ret|].
    destruct (first_film_link soup); [apply emits_ret|apply Hfol]. }
  assert (Hatt : forall url a,
             emits quiet_event (Scraper.search_attempt R E url retries a)).
  { intros url a. unfold Scraper.search_attempt.
    apply emits_try.
    - apply emits_bind.
      { apply emits_emit. destruct (a =? 0); reflexivity. }
      intros _. apply emits_bind; [apply Hget|]. intros response.
      destruct (status_code response =? 429).
      { destruct (a <? retries - 1); [|apply emits_ret].
        apply emits_bind; [apply emits_emit; reflexivity|].
        intros _. apply emits_ret. }
      destruct (status_code response =? 403).
      { destruct (a <? retries - 1); [|apply emits_ret].
        apply emits_bind; [apply emits_emit; reflexivity|].
        intros _. apply emits_ret. }
      apply emits_bind; [apply Hst|]. intros _. apply Hres.
    - intros e. destruct (a <? retries - 1); apply emits_ret. }
  intros url attempts. induction attempts as [|a rest IH]; simpl.
  - apply emits_ret.
  - apply emits_bind; [apply Hatt|]. intros [v|]; [apply emits_ret|exact IH].
Qed.

Lemma guardar_historial_quiet h :
  emits quiet_event (Scraper.guardar_historial R E h).
Proof.
  intros w. rewrite guardar_historial_run.
  destruct (write_faults E (trace w)); cbn [snd trace with_event];
    eexists; (split; [reflexivity|]); repeat constructor.
Qed.

Lemma cargar_historial_quiet :
  emits quiet_event (Scraper.cargar_historial R E).
Proof.
  intros w. destruct (cargar_historial_frame R E w) as (_ & evs & Htr & Hevs).
  exists evs. split; [exact Htr|]. apply List.Forall_forall.
  intros ev Hev. rewrite (Hevs ev Hev). reflexivity.
Qed.

(** The loop over the titles to process, whatever the web and the disk
    do. *)
Lemma procesar_titulos_loop titulos :
  forall st w p,
    peliculas_de (Scraper.historial st) = Some p ->
    exists st' w' p' added evs,
      Scraper.procesar_titulos R E st titulos w = (Ret st', w')
      /\ peliculas_de (Scraper.historial st') = Some p'
      /\ Scraper.saltadas st' = Scraper.saltadas st
      /\ Scraper.nuevas_analizadas st'
         = (Scraper.nuevas_analizadas st + length titulos)%nat
      /\ Scraper.good_movies st' = Scraper.good_movies st ++ added
      /\ (length added <= length titulos)%nat
      /\ Forall notable added
      /\ trace w' = trace w ++ evs
      /\ telegrams evs = [].
Proof.
  induction titulos as [|t rest IH]; intros st w p Hp.
  - exists st, w, p, [], []. cbn [Scraper.procesar_titulos length].
    repeat split; auto; rewrite ?app_nil_r, ?Nat.add_0_r; auto.
  - destruct (search_filmaffinity_total R E (clean_title t) 3 w) as [mi Hs].
    pose proof (search_filmaffinity_rated R E (clean_title t) 3 w mi Hs)
      as Hrated.
    destruct (procesar_titulo_run R E st t w p mi Hp Hs)
      as (h1 & Hp1 & Hrun).
    destruct (search_filmaffinity_quiet (clean_title t) 3 w)
      as (evs1 & Htr1 & Hq1).
    destruct (guardar_historial_quiet h1
                (snd (Scraper.search_filmaffinity R E (clean_title t) 3 w)))
      as (evs2 & Htr2 & Hq2).
    set (st1 := {| Scraper.historial := h1 |}) in Hrun.
    set (w1 := snd (Scraper.guardar_historial R E h1 _)) in Hrun, Htr2.
    destruct (IH st1 w1 _ Hp1)
      as (st' & w' & p' & added & evs & Hrest & Hp' & Hsal & Hnue & Hgood
          & Hlen & Hnot & Htr & Hq).
    assert (Hhead : exists first,
               Scraper.good_movies st1 = Scraper.good_movies st ++ first
               /\ (length first <= 1)%nat /\ Forall notable first).
    { subst st1. cbn [Scraper.good_movies].
      destruct mi as [info|].
      - destruct (Scraper.rating_encontrado (Some info)) as [rating|] eqn:Hr.
        + destruct (float_ge rating Scraper.MIN_RATING) eqn:Hge.
          * exists [(original_title t, info)]. split; [reflexivity|].
            split; [simpl; lia|]. constructor; [|constructor].
            exists rating. split; [|exact Hge].
            cbn [snd]. cbn [Scraper.rating_encontrado] in Hr.
            destruct (mi_rating info) as [r0|]; [|discriminate Hr].
            destruct (float_truthy r0); [|discriminate Hr]. exact Hr.
          * exists []. rewrite app_nil_r. repeat split; auto.
        + exists []. rewrite app_nil_r. repeat split; auto.
      - exists []. rewrite app_nil_r. repeat split; auto. }
    destruct Hhead as (first & Hfirst & Hlen1 & Hnot1).
    exists st', w', p', (first ++ added), (evs1 ++ evs2 ++ evs).
    split.
    { cbn [Scraper.procesar_titulos]. unfold bind. rewrite Hrun. exact Hrest. }
    split; [exact Hp'|].
    split; [rewrite Hsal; reflexivity|].
    split; [rewrite Hnue; subst st1; cbn [Scraper.nuevas_analizadas length]; lia|].
    split; [rewrite Hgood, Hfirst, app_assoc; reflexivity|].
    split; [rewrite length_app; cbn [length]; lia|].
    split; [apply Forall_app; split; assumption|].
    split.
    + rewrite Htr. subst w1. rewrite Htr2, Htr1, <- !app_assoc. reflexivity.
    + rewrite !telegrams_app, Hq.
      rewrite (telegrams_quiet evs1 Hq1), (telegrams_quiet evs2 Hq2).
      reflexivity.
Qed.

Lemma enviar_notificaciones_run movies w :
  Scraper.enviar_notificaciones E movies w = (Ret tt, extend w (envios movies)).
Proof.
  revert w. induction movies as [|[o i] rest IH]; intros w.
  - simpl. rewrite extend_nil. reflexivity.
  - cbn [Scraper.enviar_notificaciones]. unfold bind at 1.
    rewrite send_telegram_message_run. unfold bind at 1. unfold emit at 1.
    rewrite IH. unfold extend, with_event, envios. cbn.
    rewrite <- !app_assoc. reflexivity.
Qed.

(** [main], for a persisted document that loads as a history holding
    its dict of films, whatever the web and the disk do. *)
Lemma main_run_any w h0 p0 :
  fst (Scraper.cargar_historial R E w) = Ret h0 ->
  peliculas_de h0 = Some p0 ->
  let wa := snd (Scraper.cargar_historial R E w) in
  let titles := mejortorrent_titles E (trace wa) in
  exists st wb,
    Scraper.procesar_titulos R E
      {| Scraper.historial := h0;
         Scraper.saltadas := length (List.filter (en_historial R p0) titles);
         Scraper.nuevas_analizadas := 0;
         Scraper.good_movies := [] |}
      (take Scraper.MAX_PELICULAS_POR_EJECUCION (titulos_nuevos R p0 titles))
      wa = (Ret st, wb)
    /\ Scraper.main R E w
       = (Ret st,
          if telegram_configured E
          then extend wb (envios (Scraper.good_movies st)) else wb).
Proof.
  intros Hc Hp wa titles.
  destruct (procesar_titulos_loop
              (take Scraper.MAX_PELICULAS_POR_EJECUCION
                    (titulos_nuevos R p0 titles))
              {| Scraper.historial := h0;
                 Scraper.saltadas :=
                   length (List.filter (en_historial R p0) titles);
                 Scraper.nuevas_analizadas := 0;
                 Scraper.good_movies := [] |} wa p0 Hp)
    as (st & wb & p' & added & evs & Hrun & _).
  exists st, wb. split; [exact Hrun|].
  destruct (peliculas_de_inv h0 p0 Hp) as (d & -> & Hd).
  unfold Scraper.main. unfold bind at 1.
  subst titles wa. destruct (Scraper.cargar_historial R E w) as [o wa].
  simpl in Hc. subst o. cbn [snd] in *.
  unfold bind at 1. unfold lift at 1. unfold getitem. rewrite Hd.
  unfold bind at 1. unfold lift at 1. cbn [len].
  unfold bind at 1. unfold get_trace at 1.
  destruct (mejortorrent_titles E (trace wa)) as [|t0 rest] eqn:Ht.
  - cbn in Hrun. injection Hrun as <- <-. cbn [Scraper.good_movies envios].
    unfold envios. cbn [flat_map]. rewrite extend_nil.
    destruct (telegram_configured E); reflexivity.
  - rewrite <- Ht in *.
    unfold bind at 1.
    rewrite (filtrar_nuevos_run R (PyDict d) p0 _ wa Hp).
    cbv beta iota. unfold bind at 1. rewrite Hrun.
    unfold telegram_configured.
    destruct (Scraper.good_movies st) as [|g gs] eqn:Hg.
    + unfold envios. cbn [flat_map]. rewrite extend_nil.
      destruct (telegram_token E) as [[|c1 tk]|];
        destruct (telegram_chat_id E) as [[|c2 ch]|]; reflexivity.
    + destruct (telegram_token E) as [[|c1 tk]|]; try reflexivity.
      destruct (telegram_chat_id E) as [[|c2 ch]|]; try reflexivity.
      unfold bind. rewrite enviar_notificaciones_run. reflexivity.
Qed.

End QuietFacts.



(** X12: the messages that [main] sends are exactly the films it kept
    for notification, in the order they were found, when a Telegram token
    and chat id are configured; without them it sends none.  Nothing else
    in a run sends a message. *)
Theorem main_notifications (R : runtime) (E : env) (w : world) (h0 : pyval)
    (p0 : list (pystr * pyval)) :
  fst (Scraper.cargar_historial R E w) = Ret h0 ->
  peliculas_de h0 = Some p0 ->
  exists st w' evs,
    Scraper.main R E w = (Ret st, w')
    /\ trace w' = trace w ++ evs
    /\ telegrams evs
       = (if telegram_configured E then Scraper.good_movies st else []).
Proof.
  intros Hc Hp.
  destruct (main_run_any R E w h0 p0 Hc Hp) as (st & wb & Hrun & Hmain).
  match type of Hrun with
  | Scraper.procesar_titulos _ _ ?s ?l ?wa = _ =>
    destruct (procesar_titulos_loop R E l s wa p0 Hp)
      as (st' & wb' & p' & added & evs & Hrun' & _ & _ & _ & _ & _ & _
          & Htr & Hq)
  end.
  rewrite Hrun in Hrun'. injection Hrun' as <- <-.
  destruct (cargar_historial_quiet R E w) as (evs0 & Htr0 & Hq0).
  exists st.
  destruct (telegram_configured E).
  - exists (extend wb (envios (Scraper.good_movies st))),
           (evs0 ++ evs ++ envios (Scraper.good_movies st)).
    split; [exact Hmain|]. split.
    + cbn [extend trace]. rewrite Htr, Htr0, <- !app_assoc. reflexivity.
    + rewrite !telegrams_app, Hq, (telegrams_quiet evs0 Hq0).
      apply telegrams_envios.
  - exists wb, (evs0 ++ evs).
    split; [exact Hmain|]. split.
    + rewrite Htr, Htr0, <- !app_assoc. reflexivity.
    + rewrite telegrams_app, Hq, (telegrams_quiet evs0 Hq0). reflexivity.
Qed.

Lemma main_notifications_witness :
  exists st w' evs,
    Scraper.main RefRuntime.python
      (Demo.env_of (Demo.web Demo.results_page) [Demo.title "Dune"] [])
      Demo.empty_world = (Ret st, w')
    /\ trace w' = evs
    /\ telegrams evs = Scraper.good_movies st.
Proof.
  destruct (main_notifications RefRuntime.python
              (Demo.env_of (Demo.web Demo.results_page) [Demo.title "Dune"] [])
              Demo.empty_world Scraper.historial_vacio [])
    as (st & w' & evs & Hmain & Htr & Htel).
  - reflexivity.
  - reflexivity.
  - exists st, w', evs. split; [exact Hmain|]. split; [exact Htr|exact Htel].
Defined.

(** ** movie_notifier.py *)

Lemma before_dash_no_dash s : Forall (fun c => c <> 45%N) (Notifier.before_dash s).
Proof.
  induction s as [|c r IH]; simpl; [constructor|].
  destruct (N.eqb_spec c 45); [constructor|]. constructor; assumption.
Qed.

(** X13: the title that movie_notifier.py searches for holds no hyphen
    and neither starts nor ends with whitespace. *)
Theorem notifier_clean_title_shape (title : pystr) :
  Forall (fun c => c <> 45%N) (Notifier.clean_title title)
  /\ forall c, isspace c = true ->
       (forall v, Notifier.clean_title title <> c :: v)
       /\ (forall u, Notifier.clean_title title <> u ++ [c]).
Proof.
  unfold Notifier.clean_title. cbv zeta.
  split; [apply strip_Forall, before_dash_no_dash|].
  intros c Hc. split.
  - intros v Hv. unfold strip in Hv.
    pose proof (rstrip_no_lead _ (lstrip_no_lead
                  (Notifier.before_dash
                     (fold_left (fun c0 tag => str_replace c0 tag [])
                                Notifier.tags title)))) as Hl.
    rewrite Hv in Hl. cbn [no_lead] in Hl. congruence.
  - intros u. apply rstrip_no_trail, Hc.
Qed.

Lemma notifier_clean_title_shape_witness :
  Notifier.clean_title (py "Dune (HDRip) - 1a Temporada") = py "Dune"
  /\ Notifier.clean_title (py "Dune (HDRip) - 1a Temporada") <> [SPACE].
Proof.
  split; [vm_compute; reflexivity|].
  exact (proj1 (proj2 (notifier_clean_title_shape
                         (py "Dune (HDRip) - 1a Temporada"))
                      SPACE isspace_SPACE) []).
Defined.

Section NotifierRequests.

Variable R : runtime.
Variable E : env.

Lemma requests_session_get target :
  requests_at_most 1 (Notifier.session_get E target).
Proof.
  intros w. rewrite session_get_run. exists [EvGet target].
  split; [reflexivity|simpl; lia].
Qed.

Lemma requests_get_filmaffinity_info movie_title :
  requests_at_most 2 (Notifier.get_filmaffinity_info R E movie_title).
Proof.
  unfold Notifier.get_filmaffinity_info.
  apply (requests_try 2 0); [|intros e; apply requests_ret].
  apply (requests_bind 1 1); [apply requests_session_get|]. intros response.
  destruct (negb (status_code response =? 200));
    [apply (requests_weaken 0); [lia|apply requests_ret]|].
  destruct (str_contains (resp_url response) (py "movie.php"));
    [apply (requests_weaken 0); [lia|apply requests_ret]|].
  destruct (select (resp_soup response) (py ".se-it .mc-title a"));
    [apply (requests_weaken 0); [lia|apply requests_ret]|].
  destruct (assoc_get (el_attrs e) (py "href"));
    [|apply (requests_weaken 0); [lia|apply requests_raise]].
  apply (requests_bind 1 0); [apply requests_session_get|].
  intros r. apply requests_ret.
Qed.

End NotifierRequests.

(** X14: whatever the web answers, [get_filmaffinity_info] returns; it
    raises nothing, leaves the files alone and makes at most two
    requests.  When the search is not answered with status 200, or is
    not answered at all, the result is [None] after that one request. *)
Theorem get_filmaffinity_info_safe (R : runtime) (E : env)
    (movie_title : pystr) (w : world) :
  (exists r evs,
      Notifier.get_filmaffinity_info R E movie_title w
      = (Ret r, {| files := files w; trace := trace w ++ evs |})
      /\ (length (gets evs) <= 2)%nat)
  /\ ((forall resp,
          http_get E (trace w) (notifier_search_url movie_title)
          = Answer resp -> status_code resp = 200 -> False) ->
      Notifier.get_filmaffinity_info R E movie_title w
      = (Ret None, with_event w (EvGet (notifier_search_url movie_title)))).
Proof.
  split.
  - destruct (get_filmaffinity_info_total R E movie_title w) as [r Hr].
    pose proof (get_filmaffinity_info_keeps R E movie_title w) as Hf.
    destruct (requests_get_filmaffinity_info R E movie_title w)
      as (evs & Htr & Hn).
    exists r, evs.
    destruct (Notifier.get_filmaffinity_info R E movie_title w)
      as [o [fs tr]].
    simpl in Hr, Hf, Htr. subst o fs tr. split; [reflexivity|exact Hn].
  - unfold notifier_search_url. intros Hno.
    unfold Notifier.get_filmaffinity_info, try_except.
    unfold bind. rewrite session_get_run.
    destruct (http_get E (trace w) _) as [resp|] eqn:Hg; [|reflexivity].
    destruct (Z.eqb_spec (status_code resp) 200) as [H200|H200];
      [destruct (Hno resp eq_refl H200)|reflexivity].
Qed.

Lemma get_filmaffinity_info_safe_witness :
  Notifier.get_filmaffinity_info RefRuntime.python
    (Demo.env_of Demo.offline [] []) (py "Dune") Demo.empty_world
  = (Ret None,
     {| files := ∅; trace := [EvGet (notifier_search_url (py "Dune"))] |}).
Proof.
  rewrite (proj2 (get_filmaffinity_info_safe RefRuntime.python
                    (Demo.env_of Demo.offline [] []) (py "Dune")
                    Demo.empty_world)).
  - reflexivity.
  - intros resp Hresp. discriminate Hresp.
Defined.

(** *** The set of processed torrents *)

Lemma hashable_eqb_str u x :
  Notifier.hashable_eqb (PyStr u) x = true <-> x = PyStr u.
Proof.
  destruct x; simpl; split; try discriminate.
  - intros H. apply pystr_eqb_eq in H. subst. reflexivity.
  - intros [= ->]. apply pystr_eqb_refl.
Qed.

Lemma set_mem_str s u : Notifier.set_mem s (PyStr u) = true <-> In (PyStr u) s.
Proof.
  unfold Notifier.set_mem. rewrite existsb_exists. split.
  - intros (x & Hx & Heq). apply hashable_eqb_str in Heq. subst x. exact Hx.
  - intros H. exists (PyStr u). split; [exact H|]. apply hashable_eqb_str.
    reflexivity.
Qed.

Lemma set_add_In s v x : In x s -> In x (Notifier.set_add s v).
Proof.
  intros H. unfold Notifier.set_add.
  destruct (Notifier.set_mem s v); [exact H|]. apply in_or_app. left. exact H.
Qed.

Lemma set_add_str s u : In (PyStr u) (Notifier.set_add s (PyStr u)).
Proof.
  unfold Notifier.set_add.
  destruct (Notifier.set_mem s (PyStr u)) eqn:Hm.
  - apply set_mem_str, Hm.
  - apply in_or_app. right. left. reflexivity.
Qed.

Lemma fold_set_add_acc l acc x :
  In x acc -> In x (fold_left Notifier.set_add l acc).
Proof.
  revert acc. induction l as [|y l IH]; intros acc H; simpl; [exact H|].
  apply IH, set_add_In, H.
Qed.

Lemma fold_set_add_str l acc u :
  In (PyStr u) l -> In (PyStr u) (fold_left Notifier.set_add l acc).
Proof.
  revert acc. induction l as [|y l IH]; intros acc H; [destruct H|].
  simpl. destruct H as [->|H].
  - apply fold_set_add_acc, set_add_str.
  - apply IH, H.
Qed.

Lemma set_add_hashable s v :
  Forall (fun x => Notifier.hashable x = true) s ->
  Notifier.hashable v = true ->
  Forall (fun x => Notifier.hashable x = true) (Notifier.set_add s v).
Proof.
  intros Hs Hv. unfold Notifier.set_add.
  destruct (Notifier.set_mem s v); [exact Hs|].
  apply Forall_app. split; [exact Hs|]. constructor; [exact Hv|constructor].
Qed.

Lemma fold_set_add_hashable l acc :
  Forall (fun x => Notifier.hashable x = true) l ->
  Forall (fun x => Notifier.hashable x = true) acc ->
  Forall (fun x => Notifier.hashable x = true)
         (fold_left Notifier.set_add l acc).
Proof.
  revert acc. induction l as [|y l IH]; intros acc Hl Hacc; simpl;
    [exact Hacc|].
  inversion Hl; subst. apply IH; [assumption|].
  apply set_add_hashable; assumption.
Qed.

Lemma py_set_hashable v s :
  Notifier.py_set v = Ret s -> Forall (fun x => Notifier.hashable x = true) s.
Proof.
  destruct v as [| | | |u|l|d]; simpl; try discriminate.
  - intros [= <-]. apply fold_set_add_hashable; [|constructor].
    apply List.Forall_forall. intros x Hx.
    apply List.in_map_iff in Hx as (c & <- & _). reflexivity.
  - destruct (forallb Notifier.hashable l) eqn:Hl; [|discriminate].
    intros [= <-]. apply fold_set_add_hashable; [|constructor].
    apply List.Forall_forall. intros x Hx.
    rewrite forallb_forall in Hl. apply Hl, Hx.
  - intros [= <-]. apply fold_set_add_hashable; [|constructor].
    apply List.Forall_forall. intros x Hx.
    apply List.in_map_iff in Hx as (c & <- & _). reflexivity.
Qed.

Section NotifierLoop.

Variable R : runtime.
Variable E : env.

Hypothesis no_write_fault : forall tr, write_faults E tr = NoFault.

Lemma save_processed_run processed w :
  Notifier.save_processed R E processed w
  = (Ret tt,
     {| files := <[PROCESSED_FILE E :=
                    json_dumps_compact R (PyList processed)]> (files w);
        trace := trace w ++ [EvOpenWrite (PROCESSED_FILE E);
                             EvWrite (PROCESSED_FILE E)
                               (json_dumps_compact R (PyList processed))] |}).
Proof.
  unfold Notifier.save_processed.
  rewrite escribir_texto_run, no_write_fault.
  destruct (escribir_ops_after (PROCESSED_FILE E)
              (json_dumps_compact R (PyList processed)) (files w))
    as (_ & _ & H2).
  rewrite (H2 2%nat) by lia. reflexivity.
Qed.

(** The loop over the torrents, when no write fails: every torrent of
    the list is in the set at the end, what was there stays, and either
    nothing happened at all or the document on disk is the JSON text of
    the set. *)
Lemma procesar_torrents_run torrents :
  forall st w,
    Forall (fun x => Notifier.hashable x = true) (Notifier.processed st) ->
    exists st' w',
      Notifier.procesar_torrents R E st torrents w = (Ret st', w')
      /\ Forall (fun x => Notifier.hashable x = true) (Notifier.processed st')
      /\ (forall x, In x (Notifier.processed st) ->
                    In x (Notifier.processed st'))
      /\ (forall t, In t torrents ->
                    In (PyStr (snd t)) (Notifier.processed st'))
      /\ ((st' = st /\ w' = w)
          \/ files w' !! PROCESSED_FILE E
             = Some (json_dumps_compact R (PyList (Notifier.processed st')))).
Proof.
  induction torrents as [|[title url] rest IH]; intros st w Hh.
  - exists st, w. repeat split; auto. intros t [].
  - cbn [Notifier.procesar_torrents].
    destruct (Notifier.set_mem (Notifier.processed st) (PyStr url)) eqn:Hm.
    + destruct (IH st w Hh) as (st' & w' & Hrun & Hh' & Hkeep & Hin & Hfile).
      exists st', w'. split.
      { unfold bind, Notifier.procesar_torrent. rewrite Hm. exact Hrun. }
      split; [exact Hh'|]. split; [exact Hkeep|]. split; [|exact Hfile].
      intros t [<-|Ht]; [|apply Hin, Ht].
      apply Hkeep, set_mem_str, Hm.
    + destruct (get_filmaffinity_info_total R E (Notifier.clean_title title) w)
        as [info Hinfo].
      pose proof (procesar_torrent_run R E st title url w info Hm Hinfo)
        as Hstep. cbv zeta in Hstep.
      rewrite save_processed_run in Hstep.
      set (st1 := {| Notifier.processed :=
                       Notifier.set_add (Notifier.processed st) (PyStr url) |})
        in Hstep.
      set (w1 := with_event _ (EvSleep 1)) in Hstep.
      assert (Hh1 : Forall (fun x => Notifier.hashable x = true)
                           (Notifier.processed st1)).
      { apply set_add_hashable; [exact Hh|reflexivity]. }
      destruct (IH st1 w1 Hh1)
        as (st' & w' & Hrun & Hh' & Hkeep & Hin & Hfile).
      exists st', w'. split.
      { unfold bind. rewrite Hstep. exact Hrun. }
      split; [exact Hh'|].
      split; [intros x Hx; apply Hkeep, set_add_In, Hx|].
      split.
      { intros t [<-|Ht]; [|apply Hin, Ht]. apply Hkeep, set_add_str. }
      right. destruct Hfile as [[-> ->]|Hfile]; [|exact Hfile].
      subst w1 st1. cbn [files with_event Notifier.processed].
      apply lookup_insert_eq.
Qed.

Lemma procesar_torrents_skip torrents st w :
  (forall t, In t torrents -> In (PyStr (snd t)) (Notifier.processed st)) ->
  Notifier.procesar_torrents R E st torrents w = (Ret st, w).
Proof.
  induction torrents as [|[title url] rest IH]; intros H; [reflexivity|].
  cbn [Notifier.procesar_torrents]. unfold bind, Notifier.procesar_torrent.
  rewrite (proj2 (set_mem_str _ url) (H (title, url) (or_introl eq_refl))).
  cbn [negb ret]. apply IH. intros t Ht. apply H. right. exact Ht.
Qed.

End NotifierLoop.

Lemma load_processed_frame (R : runtime) (E : env) w :
  files (snd (Notifier.load_processed R E w)) = files w
  /\ exists evs,
      trace (snd (Notifier.load_processed R E w)) = trace w ++ evs
      /\ forall ev, In ev evs -> ev = EvOpenRead (PROCESSED_FILE E).
Proof.
  rewrite load_processed_run.
  destruct (files w !! PROCESSED_FILE E); cbn [snd].
  - split; [reflexivity|]. exists [EvOpenRead (PROCESSED_FILE E)].
    split; [reflexivity|]. intros ev [<-|[]]. reflexivity.
  - split; [reflexivity|]. exists []. split; [symmetry; apply app_nil_r|].
    intros ev [].
Qed.

Lemma gets_only_open_reads path evs :
  (forall ev, In ev evs -> ev = EvOpenRead path) -> gets evs = [].
Proof.
  induction evs as [|ev evs IH]; intros H; [reflexivity|].
  unfold gets in *. cbn [flat_map].
  rewrite (H ev) by (left; reflexivity). cbn [app].
  apply IH. intros ev' Hev'. apply H. right. exact Hev'.
Qed.

(** X15: movie_notifier.py run twice.  When no read or write fails, the
    listing of torrents is the same and the saved set reads back as it was
    written, the second run finds every torrent in the set: it makes no
    request, sends nothing and only opens the document.  Unlike
    scraper.py, the first run processes every new torrent. *)
Theorem notifier_second_run (R : runtime) (E : env)
    (torrents : list (pystr * pystr)) (w0 : world) (processed0 : list pyval) :
  (forall tr, write_faults E tr = NoFault) ->
  (forall tr, read_fails E tr = false) ->
  (forall tr, scraped_torrents E tr = torrents) ->
  fst (Notifier.load_processed R E w0) = Ret processed0 ->
  exists st1 w1,
    Notifier.main R E w0 = (Ret st1, w1)
    /\ (json_loads R (json_dumps_compact R (PyList (Notifier.processed st1)))
        = Some (PyList (Notifier.processed st1)) ->
        exists st2 w2 evs,
          Notifier.main R E w1 = (Ret st2, w2)
          /\ Notifier.sent st2 = []
          /\ files w2 = files w1
          /\ trace w2 = trace w1 ++ evs
          /\ gets evs = []
          /\ forall ev, In ev evs -> ev = EvOpenRead (PROCESSED_FILE E)).
Proof.
  intros Hw Hrd Ht Hl.
  assert (Hh0 : Forall (fun x => Notifier.hashable x = true) processed0).
  { rewrite load_processed_run, Hrd in Hl.
    destruct (files w0 !! PROCESSED_FILE E) as [text|]; cbn [fst] in Hl.
    - destruct (json_loads R text) as [v|]; [|discriminate Hl].
      apply (py_set_hashable v), Hl.
    - injection Hl as <-. constructor. }
  destruct (procesar_torrents_run R E Hw torrents
              {| Notifier.processed := processed0; Notifier.sent := [] |}
              (snd (Notifier.load_processed R E w0)) Hh0)
    as (st1 & w1 & Hrun & Hh1 & _ & Hin & Hfile).
  exists st1, w1.
  assert (Hmain : Notifier.main R E w0 = (Ret st1, w1)).
  { unfold Notifier.main. unfold bind at 1.
    destruct (Notifier.load_processed R E w0) as [o wa].
    simpl in Hl. subst o. cbn [snd] in Hrun.
    unfold bind, get_trace. rewrite Ht. exact Hrun. }
  split; [exact Hmain|]. intros Hrt.
  (* the second run loads a set that holds every torrent of the listing *)
  assert (Hload : exists processed2,
             fst (Notifier.load_processed R E w1) = Ret processed2
             /\ forall t, In t torrents -> In (PyStr (snd t)) processed2).
  { rewrite load_processed_run, Hrd.
    destruct Hfile as [[-> ->]|Hfile].
    - exists processed0. split; [|exact Hin].
      destruct (load_processed_frame R E w0) as [-> _].
      rewrite load_processed_run, Hrd in Hl.
      destruct (files w0 !! PROCESSED_FILE E); exact Hl.
    - rewrite Hfile. cbn [fst]. rewrite Hrt. cbn [Notifier.py_set].
      rewrite (proj2 (forallb_forall _ _)).
      + eexists. split; [reflexivity|].
        intros t Htor. apply fold_set_add_str, Hin, Htor.
      + apply List.Forall_forall. exact Hh1. }
  destruct Hload as (processed2 & Hl2 & Hall).
  destruct (load_processed_frame R E w1) as (Hf2 & evs & Htr & Hevs).
  exists {| Notifier.processed := processed2; Notifier.sent := [] |},
         (snd (Notifier.load_processed R E w1)), evs.
  split.
  { unfold Notifier.main. unfold bind at 1.
    destruct (Notifier.load_processed R E w1) as [o wa].
    simpl in Hl2. subst o. cbn [snd].
    unfold bind, get_trace. rewrite Ht.
    apply procesar_torrents_skip. exact Hall. }
  split; [reflexivity|]. split; [exact Hf2|]. split; [exact Htr|].
  split; [exact (gets_only_open_reads _ evs Hevs)|exact Hevs].
Qed.

Lemma notifier_second_run_witness :
  let R := RefRuntime.python in
  let E := Demo.env_of (Demo.web Demo.results_page) []
             [ (py "Dune (HDRip)", py "/pelicula/1/dune");
               (py "Alien [720p]", py "/pelicula/2/alien") ] in
  exists st2 w2,
    Notifier.main R E (snd (Notifier.main R E Demo.empty_world))
    = (Ret st2, w2)
    /\ Notifier.sent st2 = []
    /\ gets (drop (length (trace (snd (Notifier.main R E Demo.empty_world))))
                  (trace w2)) = [].
Proof.
  intros R E.
  destruct (notifier_second_run R E
              [ (py "Dune (HDRip)", py "/pelicula/1/dune");
                (py "Alien [720p]", py "/pelicula/2/alien") ]
              Demo.empty_world [])
    as (st1 & w1 & Hmain & Hsecond).
  - intros tr. reflexivity.
  - intros tr. reflexivity.
  - intros tr. reflexivity.
  - reflexivity.
  - rewrite Hmain. cbn [snd].
    destruct Hsecond as (st2 & w2 & evs & Hrun & Hsent & _ & Htr & Hgets & _).
    + pose proof Hmain as Hm. vm_compute in Hm.
      injection Hm as <- <-. vm_compute. reflexivity.
    + exists st2, w2. split; [exact Hrun|]. split; [exact Hsent|].
      rewrite Htr, drop_app_length. exact Hgets.
Defined.

(** X16: a run of [main] that meets no fault of the disk and finds new
    titles leaves on disk the JSON text of the history it holds at the
    end; that history has a record for every key it had before and for
    every title the run looked up. *)
Theorem main_history_grows (R : runtime) (E : env) (titles : list title_info)
    (w : world) (h0 : pyval) (p0 : list (pystr * pyval)) :
  (forall tr, write_faults E tr = NoFault) ->
  (forall tr, mejortorrent_titles E tr = titles) ->
  fst (Scraper.cargar_historial R E w) = Ret h0 ->
  peliculas_de h0 = Some p0 ->
  titulos_nuevos R p0 titles <> [] ->
  exists st w' p1,
    Scraper.main R E w = (Ret st, w')
    /\ peliculas_de (Scraper.historial st) = Some p1
    /\ (forall k, is_Some (assoc_get p0 k) -> is_Some (assoc_get p1 k))
    /\ (forall t,
          In t (take Scraper.MAX_PELICULAS_POR_EJECUCION
                     (titulos_nuevos R p0 titles)) ->
          is_Some (assoc_get p1 (clave R (clean_title t))))
    /\ files w' !! Scraper.HISTORIAL_FILE
       = Some (json_dumps R (Scraper.historial st)).
Proof.
  intros Hw Ht Hc Hp Hnew.
  destruct (main_run R E titles Hw Ht w h0 p0 Hc Hp)
    as (st & wb & wc & Hproc & Hmain & Hfiles & _).
  match type of Hproc with
  | Scraper.procesar_titulos _ _ ?s ?l ?wa = _ =>
    destruct (procesar_titulos_run R E l Hw s wa p0 Hp)
      as (st' & wb' & p1 & Hproc' & Hp1 & Hkeep & Hin & _ & Hfile & _)
  end.
  rewrite Hproc in Hproc'. injection Hproc' as <- <-.
  exists st, wc, p1. split; [exact Hmain|]. split; [exact Hp1|].
  split; [exact Hkeep|]. split; [exact Hin|].
  rewrite Hfiles. apply Hfile.
  destruct (titulos_nuevos R p0 titles); [congruence|discriminate].
Qed.

Lemma main_history_grows_witness :
  let R := RefRuntime.python in
  let E := Demo.env_of Demo.offline [Demo.title "Alien"] [] in
  exists st w',
    Scraper.main R E Demo.world_dune = (Ret st, w')
    /\ files w' !! Scraper.HISTORIAL_FILE
       = Some (json_dumps R (Scraper.historial st)).
Proof.
  intros R E.
  destruct (main_history_grows R E [Demo.title "Alien"] Demo.world_dune
              Demo.historial_dune
              [(py "dune",
                Demo.registro "Dune"
                  (PyFloat (S754_finite false 8782019273372467 (-50))) true)])
    as (st & w' & p1 & Hmain & _ & _ & _ & Hfile).
  - intros tr. reflexivity.
  - intros tr. reflexivity.
  - vm_compute. reflexivity.
  - reflexivity.
  - vm_compute. discriminate.
  - exists st, w'. split; [exact Hmain|exact Hfile].
Defined.

(** ** The listing *)

Section ListingFacts.

Variable E : env.
Variable isdecimal : N -> bool.
Variable clean_title_for_search : pystr -> pystr.

Lemma titulos_de_enlaces_entries links seen :
  Forall (fun t =>
            (3 < length (original_title t))%nat
            /\ clean_title t = clean_title_for_search (original_title t)
            /\ clean_title t <> []
            /\ Listing.has_numeric_id isdecimal (url t) = true
            /\ ~ In (original_title t) seen)
         (Listing.titulos_de_enlaces isdecimal clean_title_for_search
            links seen).
Proof.
  revert seen.
  induction links as [|link rest IH]; intros seen; [constructor|].
  cbn [Listing.titulos_de_enlaces]. cbv zeta.
  destruct (Listing.has_numeric_id isdecimal (attr_get link (py "href")))
    eqn:Hid; cbn [negb]; [|apply IH].
  destruct (negb (bool_decide (get_text_strip link = []))
            && bool_decide (3 < length (get_text_strip link))%nat
            && negb (existsb (pystr_eqb (get_text_strip link)) seen))
    eqn:Hok; [|apply IH].
  destruct (clean_title_for_search (get_text_strip link)) as [|c0 cl] eqn:Hcl;
    [apply IH|].
  rewrite !andb_true_iff in Hok.
  destruct Hok as [[_ Hlen] Hseen].
  apply bool_decide_eq_true_1 in Hlen. apply negb_true_iff in Hseen.
  constructor.
  - cbn [original_title clean_title url].
    split; [exact Hlen|]. split; [symmetry; exact Hcl|].
    split; [discriminate|]. split; [exact Hid|].
    intros Hin.
    assert (Hex : existsb (pystr_eqb (get_text_strip link)) seen = true).
    { apply existsb_exists. exists (get_text_strip link).
      split; [exact Hin|apply pystr_eqb_refl]. }
    congruence.
  - eapply Forall_impl; [apply (IH (get_text_strip link :: seen))|].
    intros t (H1 & H2 & H3 & H4 & H5). repeat split; auto.
    intros Hin. apply H5. right. exact Hin.
Qed.

Lemma titulos_de_enlaces_nodup links seen :
  List.NoDup (List.map original_title (Listing.titulos_de_enlaces isdecimal clean_title_for_search
            links seen)).
Proof.
  revert seen.
  induction links as [|link rest IH]; intros seen; [constructor|].
  cbn [Listing.titulos_de_enlaces]. cbv zeta.
  destruct (negb (Listing.has_numeric_id isdecimal _)); [apply IH|].
  destruct (_ && _); [|apply IH].
  destruct (clean_title_for_search (get_text_strip link)) as [|c0 cl];
    [apply IH|].
  cbn [List.map original_title]. apply List.NoDup_cons_iff.
  split; [|apply IH].
  intros Hin. apply List.in_map_iff in Hin as (t & Ht & Hin).
  pose proof (titulos_de_enlaces_entries rest (get_text_strip link :: seen))
    as Hall.
  rewrite List.Forall_forall in Hall.
  destruct (Hall t Hin) as (_ & _ & _ & _ & Hnot).
  apply Hnot. left. symmetry. exact Ht.
Qed.

End ListingFacts.

(** X17: [get_mejortorrent_titles] never raises: when the page cannot be
    fetched, or is answered with an error status, the listing is empty.
    In the listing it returns no original title occurs twice, every
    title has more than three characters, a link with a numeric id, and
    a clean title that is not empty. *)
Theorem get_mejortorrent_titles_listing (E : env) (isdecimal : N -> bool)
    (clean_title_for_search : pystr -> pystr) (w : world) :
  exists titles,
    Listing.get_mejortorrent_titles E isdecimal clean_title_for_search w
    = (Ret titles, with_event w (EvGet Listing.MEJORTORRENT_URL))
    /\ List.NoDup (List.map original_title titles)
    /\ Forall (fun t =>
                 (3 < length (original_title t))%nat
                 /\ clean_title t = clean_title_for_search (original_title t)
                 /\ clean_title t <> []
                 /\ Listing.has_numeric_id isdecimal (url t) = true)
              titles
    /\ ((forall r, http_get E (trace w) Listing.MEJORTORRENT_URL = Answer r ->
                   400 <= status_code r < 600) ->
        titles = []).
Proof.
  unfold Listing.get_mejortorrent_titles, try_except.
  unfold bind at 1. rewrite scraper_get_run.
  destruct (http_get E (trace w) Listing.MEJORTORRENT_URL) as [r|] eqn:Hg.
  - unfold bind, Scraper.raise_for_status.
    destruct ((400 <=? status_code r) && (status_code r <? 600)) eqn:Hst.
    + exists []. split; [reflexivity|]. split; [constructor|].
      split; [constructor|]. intros _. reflexivity.
    + eexists. split; [reflexivity|].
      split; [apply titulos_de_enlaces_nodup|].
      split.
      * eapply Forall_impl; [apply titulos_de_enlaces_entries|].
        intros t (H1 & H2 & H3 & H4 & _). repeat split; auto.
      * intros Herr. specialize (Herr r eq_refl).
        apply andb_false_iff in Hst. destruct Hst as [Hst|Hst].
        -- apply Z.leb_gt in Hst. lia.
        -- apply Z.ltb_ge in Hst. lia.
  - exists []. split; [reflexivity|]. split; [constructor|].
    split; [constructor|]. intros _. reflexivity.
Qed.

Lemma get_mejortorrent_titles_listing_witness :
  fst (Listing.get_mejortorrent_titles
         (Demo.env_of (fun target => Demo.answer 200 target Demo3.portada)
                      [] [])
         Demo3.ascii_digit (fun t => t) Demo.empty_world)
  = Ret [ {| original_title := py "Dune (2021)";
             clean_title := py "Dune (2021)";
             url := py "/pelicula/101/dune" |};
          {| original_title := py "Alien"; clean_title := py "Alien";
             url := py "/serie/7/12/alien" |} ]
  /\ fst (Listing.get_mejortorrent_titles (Demo.env_of Demo.offline [] [])
            Demo3.ascii_digit (fun t => t) Demo.empty_world)
     = Ret [].
Proof.
  split; [vm_compute; reflexivity|].
  destruct (get_mejortorrent_titles_listing (Demo.env_of Demo.offline [] [])
              Demo3.ascii_digit (fun t => t) Demo.empty_world)
    as (titles & Hrun & _ & _ & Hempty).
  rewrite Hrun. cbn [fst]. rewrite Hempty; [reflexivity|].
  intros r Hr. discriminate Hr.
Defined.
